(** * Middleware demo application: a shallow embedding and its properties

    The development follows the TypeScript sources of the application:
    the middleware classes under [app/Middleware], the demo controller
    and the route table of [start/routes.ts].

    Conventions of the embedding.
    - A handler runs on a [State]: the request (with its mutable context
      bag [request.ctx]), the response under construction, the static
      rate-limit table and the values the runtime returns (clock, random
      source).  A computation either completes or throws; the state
      survives an exception, as object mutation does in JavaScript.
    - A middleware is a function of the downstream chain [next].
    - JavaScript objects used as dictionaries are finite maps; where the
      program indexes an object literal with a string it was handed
      ([users[token]], [this.features[featureName]]), the members the
      literal inherits from [Object.prototype] are found as well.
      Strings are sequences of 8-bit code units (header values as Node
      decodes them, string constants of the sources in UTF-8); numbers
      that the program keeps integral are in [Z].
    - [console.log] has no effect on the state and is left out. *)

From Stdlib Require Import ZArith Ascii String List Lia.
From stdpp Require Import gmap strings list pretty.

#[local] Set Warnings "-register-all".

Local Open Scope Z_scope.
Local Open Scope string_scope.

(** ** JavaScript primitives used by the sources *)

Module JS.

(** [!!v] for a value that is a string or [undefined]. *)
Definition truthy (v : option string) : bool :=
  match v with
  | Some s => negb (String.eqb s "")
  | None => false
  end.

(** [a || b] on such values. *)
Definition or (a b : option string) : option string :=
  if truthy a then a else b.

(** [a || d] where [d] is a string literal. *)
Definition or_str (a : option string) (d : string) : string :=
  match a with
  | Some s => if String.eqb s "" then d else s
  | None => d
  end.

Fixpoint drop (n : nat) (s : string) : string :=
  match n, s with
  | O, _ => s
  | S n', String _ s' => drop n' s'
  | S _, EmptyString => EmptyString
  end.

(** [s.replace(pat, rep)] with a string pattern: the first occurrence of
    [pat] in [s], wherever it is, is replaced. *)
Fixpoint replace (pat rep s : string) : string :=
  if String.prefix pat s then rep +:+ drop (String.length pat) s
  else match s with
       | EmptyString => EmptyString
       | String c s' => String c (replace pat rep s')
       end.

(** [arr.includes(x)] on an array of strings. *)
Definition includes (arr : list string) (x : string) : bool :=
  existsb (String.eqb x) arr.

(** The names of the members an object literal inherits from
    [Object.prototype].  Each member is a function, and [__proto__] is
    the prototype object, so none of them is falsy; [obj[name]] finds
    them when [obj] has no property of its own under [name]. *)
Definition objectPrototype : list string :=
  ["constructor"; "__defineGetter__"; "__defineSetter__"; "hasOwnProperty";
   "__lookupGetter__"; "__lookupSetter__"; "isPrototypeOf";
   "propertyIsEnumerable"; "toString"; "valueOf"; "__proto__";
   "toLocaleString"].

(** [s.includes(sub)] on strings. *)
Fixpoint contains (sub s : string) : bool :=
  if String.prefix sub s then true
  else match s with
       | EmptyString => false
       | String _ s' => contains sub s'
       end.

(** [s.substring(0, n)]. *)
Fixpoint take (n : nat) (s : string) : string :=
  match n, s with
  | S n', String c s' => String c (take n' s')
  | _, _ => EmptyString
  end.

(** Lower case of one code unit: A-Z, and the capital letters of
    Latin-1 (0xC0-0xDE but the multiplication sign 0xD7). *)
Definition lower_char (c : ascii) : ascii :=
  let n := nat_of_ascii c in
  if ((65 <=? n)%nat && (n <=? 90)%nat)%bool then ascii_of_nat (n + 32)
  else if ((192 <=? n)%nat && (n <=? 222)%nat && negb (n =? 215)%nat)%bool
       then ascii_of_nat (n + 32)
       else c.

(** [s.toLowerCase()]. *)
Fixpoint toLowerCase (s : string) : string :=
  match s with
  | EmptyString => EmptyString
  | String c s' => String (lower_char c) (toLowerCase s')
  end.

(** [arr.join(sep)]. *)
Fixpoint join (sep : string) (arr : list string) : string :=
  match arr with
  | [] => ""
  | [x] => x
  | x :: rest => x +:+ sep +:+ join sep rest
  end.

(** ToInt32: the value every bitwise operator reduces its operands and
    its result to. *)
Definition toInt32 (z : Z) : Z := (z + 2 ^ 31) mod 2 ^ 32 - 2 ^ 31.

(** [a << k]. *)
Definition shl (a : Z) (k : Z) : Z := toInt32 (Z.shiftl (toInt32 a) k).

(** [a & b]. *)
Definition band (a b : Z) : Z := toInt32 (Z.land (toInt32 a) (toInt32 b)).

(** [s.charCodeAt(i)] for each [i], in order. *)
Fixpoint charCodes (s : string) : list Z :=
  match s with
  | EmptyString => []
  | String c s' => Z.of_nat (nat_of_ascii c) :: charCodes s'
  end.

(** [Math.ceil(a / b)] for a positive divisor. *)
Definition ceil_div (a b : Z) : Z := - ((- a) / b).

(** [n.toString()] for an integral number. *)
Definition toString (n : Z) : string := pretty n.

Definition digit36 (d : Z) : ascii :=
  if (d <? 10)%Z then ascii_of_nat (Z.to_nat (48 + d))
  else ascii_of_nat (Z.to_nat (87 + d)).

Fixpoint toString36_go (fuel : nat) (n : Z) (acc : string) : string :=
  match fuel with
  | O => acc
  | S fuel' =>
      if (n <? 36)%Z then String (digit36 n) acc
      else toString36_go fuel' (n / 36) (String (digit36 (n mod 36)) acc)
  end.

(** [n.toString(36)] for an integral number. *)
Definition toString36 (n : Z) : string :=
  if (n <? 0)%Z
  then "-" +:+ toString36_go (S (Z.to_nat (Z.log2 (- n)))) (- n) ""
  else toString36_go (S (Z.to_nat (Z.log2 n))) n "".

(** The part of [s] that [.*] can match from its start: up to the first
    line terminator. *)
Fixpoint line (s : string) : string :=
  match s with
  | EmptyString => EmptyString
  | String c s' =>
      let n := nat_of_ascii c in
      if ((n =? 10)%nat || (n =? 13)%nat)%bool then EmptyString
      else String c (line s')
  end.

End JS.

(** ** JSON values *)

Inductive Json :=
| JUndefined
| JNull
| JBool (b : bool)
| JNum (n : Z)
| JStr (s : string)
| JArr (items : list Json)
| JObj (fields : list (string * Json)).

Module Obj.

(** Property read on an object literal. *)
Fixpoint get (k : string) (o : list (string * Json)) : option Json :=
  match o with
  | [] => None
  | (k', v) :: rest => if String.eqb k k' then Some v else get k rest
  end.

(** [{...o, k: v}]: an existing key keeps its place and takes the new
    value, a new key goes last. *)
Fixpoint set (k : string) (v : Json) (o : list (string * Json))
  : list (string * Json) :=
  match o with
  | [] => [(k, v)]
  | (k', v') :: rest =>
      if String.eqb k k' then (k', v) :: rest else (k', v') :: set k v rest
  end.

(** The own enumerable properties that a spread [{...a}] of an array
    copies: the indices, as strings. *)
Fixpoint of_array (i : nat) (items : list Json) : list (string * Json) :=
  match items with
  | [] => []
  | x :: rest => (pretty i, x) :: of_array (S i) rest
  end.

End Obj.

(** ** Data model *)

Module User.
Record t := mk { id : Z; name : string; role : string; email : string }.
End User.

Module DeviceInfo.
Record t := mk {
  type : string;
  browser : string;
  os : string;
  isBot : bool;
  isMobile : bool;
  isTablet : bool;
  userAgent : string;
  parsed_at : string
}.
End DeviceInfo.

Module FeatureInfo.
Record t := mk {
  name : string;
  enabled : bool;
  rolloutId : Z;
  rolloutPercentage : Z
}.
End FeatureInfo.

(** The context bag [request.ctx]: fields accumulate as the middleware
    run.  An absent bag and a bag with no field answer every read the
    sources make ([request.ctx?.f]) alike, so both are [Ctx.empty]. *)
Module Ctx.
Record t := mk {
  user : option User.t;
  device : option DeviceInfo.t;
  feature : option FeatureInfo.t;
  requestId : option string;
  startTime : option Z;
  isAdmin : option bool;
  adminPermissions : option (list string)
}.

Definition empty : t := mk None None None None None None None.

Definition with_user (u : User.t) (c : t) : t :=
  mk (Some u) (device c) (feature c) (requestId c) (startTime c)
     (isAdmin c) (adminPermissions c).

Definition with_device (d : DeviceInfo.t) (c : t) : t :=
  mk (user c) (Some d) (feature c) (requestId c) (startTime c)
     (isAdmin c) (adminPermissions c).

Definition with_feature (f : FeatureInfo.t) (c : t) : t :=
  mk (user c) (device c) (Some f) (requestId c) (startTime c)
     (isAdmin c) (adminPermissions c).

Definition with_request (rid : string) (start : Z) (c : t) : t :=
  mk (user c) (device c) (feature c) (Some rid) (Some start)
     (isAdmin c) (adminPermissions c).

Definition with_admin (perms : list string) (c : t) : t :=
  mk (user c) (device c) (feature c) (requestId c) (startTime c)
     (Some true) (Some perms).
End Ctx.

(** A thrown value.  The sources and the framework throw [Error] objects
    only; an object is truthy, so the test [if (error)] that follows a
    [catch (err) { error = err }] tells whether something was thrown. *)
Module Error.
Record t := mk { message : string }.
End Error.

Module Request.
Record t := mk {
  method : string;
  url : string;
  ip : string;
  (** header values by lower-case name *)
  headers : gmap string string;
  (** [request.input]: query-string and body fields, read as strings *)
  inputs : gmap string string;
  (** [request.body()]: the parsed body, or the error reading it throws *)
  body : Json + Error.t;
  ctx : Ctx.t
}.

Definition header (name : string) (r : t) : option string :=
  headers r !! name.

Definition input (name : string) (r : t) : option string :=
  inputs r !! name.

Definition with_ctx (c : Ctx.t) (r : t) : t :=
  mk (method r) (url r) (ip r) (headers r) (inputs r) (body r) c.
End Request.

Module Response.
Record t := mk {
  status : Z;
  headers : gmap string string;
  body : option Json
}.

(** A response nobody has written to yet answers 200. *)
Definition initial : t := mk 200 ∅ None.

Definition with_status (n : Z) (r : t) : t := mk n (headers r) (body r).

Definition with_header (k v : string) (r : t) : t :=
  mk (status r) (<[k := v]> (headers r)) (body r).

Definition with_body (b : Json) (r : t) : t :=
  mk (status r) (headers r) (Some b).
End Response.

(** An entry of the rate-limit table. *)
Module RequestData.
Record t := mk { count : Z; resetTime : Z }.
End RequestData.

(** What the runtime hands to one request. *)
Module Runtime.
Record t := mk {
  (** [Date.now()], milliseconds *)
  now : Z;
  (** [new Date().toISOString()] *)
  isoString : string;
  (** [Math.random().toString(36).substring(2, 15)] *)
  randomStr : string;
  (** the two readings of [process.hrtime.bigint()], nanoseconds *)
  hrtimeStart : Z;
  hrtimeEnd : Z;
  (** [(ns / 1000000).toFixed(2)] for a nanosecond count *)
  msToFixed2 : Z -> string
}.
End Runtime.

Record State := mkState {
  runtime : Runtime.t;
  request : Request.t;
  response : Response.t;
  (** the static [RateLimit.requests] map *)
  requests : gmap string RequestData.t
}.

Definition with_request (f : Request.t -> Request.t) (s : State) : State :=
  mkState (runtime s) (f (request s)) (response s) (requests s).

Definition with_response (f : Response.t -> Response.t) (s : State) : State :=
  mkState (runtime s) (request s) (f (response s)) (requests s).

Definition with_requests
  (f : gmap string RequestData.t -> gmap string RequestData.t) (s : State)
  : State :=
  mkState (runtime s) (request s) (response s) (f (requests s)).

(** ** Computations: state and exceptions *)

Inductive Completion (A : Type) :=
| Normal (a : A)
| Thrown (e : Error.t).
Arguments Normal {A} a.
Arguments Thrown {A} e.

Definition M (A : Type) : Type := State -> Completion A * State.

Definition ret {A} (a : A) : M A := fun s => (Normal a, s).

Definition bind {A B} (m : M A) (k : A -> M B) : M B :=
  fun s =>
    match m s with
    | (Normal a, s') => k a s'
    | (Thrown e, s') => (Thrown e, s')
    end.

Definition throw {A} (e : Error.t) : M A := fun s => (Thrown e, s).

(** [try { m } catch (err) { h err }] *)
Definition try_catch {A} (m : M A) (h : Error.t -> M A) : M A :=
  fun s =>
    match m s with
    | (Normal a, s') => (Normal a, s')
    | (Thrown e, s') => h e s'
    end.

Definition gets {A} (f : State -> A) : M A := fun s => (Normal (f s), s).

Definition modify (f : State -> State) : M unit := fun s => (Normal tt, f s).

Notation "x <- m ;; k" := (bind m (fun x => k))
  (at level 100, m at next level, right associativity).
Notation "m ;; k" := (bind m (fun _ => k))
  (at level 100, right associativity).

(** A middleware receives the downstream chain. *)
Definition Handler : Type := M unit.
Definition Middleware : Type := Handler -> Handler.

(** ** The framework calls the sources make *)

Definition get_request : M Request.t := gets request.

Definition set_ctx (f : Ctx.t -> Ctx.t) : M unit :=
  modify (with_request (fun r => Request.with_ctx (f (Request.ctx r)) r)).

Module response_.
Definition status (n : Z) : M unit :=
  modify (with_response (Response.with_status n)).
Definition header (k v : string) : M unit :=
  modify (with_response (Response.with_header k v)).
Definition json (b : Json) : M unit :=
  modify (with_response (Response.with_body b)).
Definition send (b : string) : M unit :=
  modify (with_response (Response.with_body (JStr b))).
Definition getBody : M (option Json) :=
  gets (fun s => Response.body (response s)).
End response_.

(** [request.body()] *)
Definition request_body : M Json :=
  r <- get_request ;;
  match Request.body r with
  | inl b => ret b
  | inr e => throw e
  end.

(** ** Global middleware *)

(** [RequestLogger.handle] prints the request, calls [next] and prints
    the response.  The printing is left out, and with it what it reads
    for printing: method, URL, IP, headers and, for POST, PUT and PATCH,
    the body. *)
Module RequestLogger.
Definition handle (next : Handler) : Handler :=
  next ;;
  ret tt.
End RequestLogger.

Module Cors.
Definition allowedOrigins : list string :=
  ["http://localhost:3000"; "http://localhost:3001"; "https://yourdomain.com"].

Definition allowedMethods : list string :=
  ["GET"; "POST"; "PUT"; "DELETE"; "PATCH"; "OPTIONS"].

Definition allowedHeaders : list string :=
  ["Content-Type"; "Authorization"; "X-Requested-With"; "Accept"; "Origin"].

Definition setCorsHeaders : M unit :=
  req <- get_request ;;
  let origin := Request.header "origin" req in
  (match origin with
   | Some o =>
       if (JS.truthy origin && JS.includes allowedOrigins o)%bool then
         response_.header "Access-Control-Allow-Origin" o
       else if negb (JS.truthy origin) then
         response_.header "Access-Control-Allow-Origin" "*"
       else ret tt
   | None => response_.header "Access-Control-Allow-Origin" "*"
   end) ;;
  response_.header "Access-Control-Allow-Methods" (JS.join ", " allowedMethods) ;;
  response_.header "Access-Control-Allow-Headers" (JS.join ", " allowedHeaders) ;;
  response_.header "Access-Control-Allow-Credentials" "true".

Definition handle (next : Handler) : Handler :=
  req <- get_request ;;
  if String.eqb (Request.method req) "OPTIONS" then
    setCorsHeaders ;;
    response_.header "Access-Control-Max-Age" "86400" ;;
    response_.status 204 ;;
    response_.send ""
  else
    next ;;
    setCorsHeaders.
End Cors.

Module SecurityHeaders.
Definition handle (next : Handler) : Handler :=
  next ;;
  response_.header "X-Frame-Options" "DENY" ;;
  response_.header "X-Content-Type-Options" "nosniff" ;;
  response_.header "X-XSS-Protection" "1; mode=block" ;;
  response_.header "Referrer-Policy" "strict-origin-when-cross-origin" ;;
  response_.header "Content-Security-Policy" "default-src 'self'" ;;
  response_.header "Strict-Transport-Security"
    "max-age=31536000; includeSubDomains" ;;
  response_.header "Permissions-Policy"
    "geolocation=(), microphone=(), camera=()" ;;
  response_.header "X-Powered-By" "AdonisJS-Middleware-Demo".
End SecurityHeaders.

(** ** Named middleware *)

Module Auth.
Definition validTokens : list string :=
  ["user-token-123"; "admin-token-456"; "demo-token-789"].

Definition users : gmap string User.t :=
  <["user-token-123" := User.mk 1 "John Doe" "user" "john@example.com"]>
  (<["admin-token-456" := User.mk 2 "Jane Admin" "admin" "jane@example.com"]>
  (<["demo-token-789" := User.mk 3 "Demo User" "demo" "demo@example.com"]>
   ∅)).

Definition guest : User.t := User.mk 0 "Unknown" "guest" "".

(** What [users[token] || guest] evaluates to: a record of the table;
    the guest record, when [users[token]] is [undefined]; or, for a name
    of [Object.prototype], the member the table inherits, which is truthy
    and is no user record. *)
Inductive Looked := Found (u : User.t) | Inherited.

Definition getUserFromToken (token : string) : Looked :=
  match users !! token with
  | Some u => Found u
  | None =>
      if JS.includes JS.objectPrototype token then Inherited
      else Found guest
  end.

Definition missingToken : Json :=
  JObj [("error", JStr "Authentication required");
        ("message", JStr "Please provide an authentication token");
        ("hint", JStr "Add Authorization header or token parameter")].

Definition invalidToken : Json :=
  JObj [("error", JStr "Invalid token");
        ("message", JStr "The provided token is not valid")].

Definition handle (next : Handler) : Handler :=
  req <- get_request ;;
  let token :=
    JS.or (Request.header "authorization" req) (Request.input "token" req) in
  match JS.truthy token, token with
  | true, Some token =>
      let cleanToken := JS.replace "Bearer " "" token in
      if negb (JS.includes validTokens cleanToken) then
        response_.status 401 ;;
        response_.json invalidToken
      else
        match getUserFromToken cleanToken with
        | Found userData =>
            set_ctx (Ctx.with_user userData) ;;
            next ;;
            ret tt
        | Inherited =>
            (* [cleanToken] is one of [validTokens] here, each a key of
               the table, so the lookup has found a record; an inherited
               member is not a value [Ctx.user] can hold. *)
            next ;;
            ret tt
        end
  | _, _ =>
      response_.status 401 ;;
      response_.json missingToken
  end.
End Auth.

Module Admin.
Definition adminPermissions : list string :=
  ["read_all_users"; "delete_users"; "modify_system_settings"; "view_analytics"].

Definition noUser : Json :=
  JObj [("error", JStr "Authentication required");
        ("message",
         JStr "User must be authenticated before checking admin access");
        ("hint",
         JStr "Make sure Auth middleware runs before Admin middleware")].

Definition denied (user : User.t) : Json :=
  JObj [("error", JStr "Insufficient privileges");
        ("message", JStr "Admin access required");
        ("user", JObj [("name", JStr (User.name user));
                       ("role", JStr (User.role user));
                       ("requiredRole", JStr "admin")])].

Definition handle (next : Handler) : Handler :=
  req <- get_request ;;
  match Ctx.user (Request.ctx req) with
  | None =>
      response_.status 401 ;;
      response_.json noUser
  | Some user =>
      if negb (String.eqb (User.role user) "admin") then
        response_.status 403 ;;
        response_.json (denied user)
      else
        set_ctx (Ctx.with_admin adminPermissions) ;;
        next ;;
        ret tt
  end.
End Admin.

Module RateLimit.
Inductive LimitType := default | strict | generous.

Record Limit := mkLimit { limit_requests : Z; windowMs : Z }.

Definition limits (limitType : LimitType) : Limit :=
  match limitType with
  | default => mkLimit 100 (15 * 60 * 1000)
  | strict => mkLimit 10 (60 * 1000)
  | generous => mkLimit 1000 (60 * 60 * 1000)
  end.

Definition typeName (limitType : LimitType) : string :=
  match limitType with
  | default => "default"
  | strict => "strict"
  | generous => "generous"
  end.

(** [`${clientIP}:${limitType}`] *)
Definition key (clientIP : string) (limitType : LimitType) : string :=
  clientIP +:+ ":" +:+ typeName limitType.

Definition exceeded (clientIP : string) (limitType : LimitType)
  (requestData : RequestData.t) (resetIn : Z) : Json :=
  let limit := limits limitType in
  JObj [("error", JStr "Rate limit exceeded");
        ("message", JStr ("Too many requests from " +:+ clientIP));
        ("limit", JObj [("requests", JNum (limit_requests limit));
                        ("windowMs", JNum (windowMs limit));
                        ("type", JStr (typeName limitType))]);
        ("current",
         JObj [("count", JNum (RequestData.count requestData));
               ("resetIn", JStr (JS.toString resetIn +:+ " seconds"))])].

Definition handle (limitType : LimitType) (next : Handler) : Handler :=
  req <- get_request ;;
  let clientIP := Request.ip req in
  let key := key clientIP limitType in
  let limit := limits limitType in
  now <- gets (fun s => Runtime.now (runtime s)) ;;
  stored <- gets (fun s => requests s !! key) ;;
  let requestData :=
    match stored with
    | Some d =>
        if now >? RequestData.resetTime d
        then RequestData.mk 0 (now + windowMs limit)
        else d
    | None => RequestData.mk 0 (now + windowMs limit)
    end in
  let requestData :=
    RequestData.mk (RequestData.count requestData + 1)
                   (RequestData.resetTime requestData) in
  modify (with_requests (insert key requestData)) ;;
  if RequestData.count requestData >? limit_requests limit then
    let resetIn := JS.ceil_div (RequestData.resetTime requestData - now) 1000 in
    response_.header "X-RateLimit-Limit" (JS.toString (limit_requests limit)) ;;
    response_.header "X-RateLimit-Remaining" "0" ;;
    response_.header "X-RateLimit-Reset"
      (JS.toString (RequestData.resetTime requestData)) ;;
    response_.header "Retry-After" (JS.toString resetIn) ;;
    response_.status 429 ;;
    response_.json (exceeded clientIP limitType requestData resetIn)
  else
    let remaining := limit_requests limit - RequestData.count requestData in
    response_.header "X-RateLimit-Limit" (JS.toString (limit_requests limit)) ;;
    response_.header "X-RateLimit-Remaining" (JS.toString remaining) ;;
    response_.header "X-RateLimit-Reset"
      (JS.toString (RequestData.resetTime requestData)) ;;
    next ;;
    ret tt.
End RateLimit.

Module DeviceDetector.

(** [/a|b|.../.test(s)] for literal alternatives. *)
Definition test_any (alts : list string) (s : string) : bool :=
  existsb (fun a => JS.contains a s) alts.

(** [/android(?!.*mobile)/.test(s)] *)
Fixpoint android_not_mobile (s : string) : bool :=
  if (String.prefix "android" s
      && negb (JS.contains "mobile" (JS.line (JS.drop 7 s))))%bool
  then true
  else match s with
       | EmptyString => false
       | String _ s' => android_not_mobile s'
       end.

(** [/netcast.tv/.test(s)] *)
Fixpoint netcast_tv (s : string) : bool :=
  if (String.prefix "netcast" s
      && match JS.drop 7 s with
         | String c rest =>
             String.eqb (JS.line (String c "")) (String c "")
             && String.prefix "tv" rest
         | EmptyString => false
         end)%bool
  then true
  else match s with
       | EmptyString => false
       | String _ s' => netcast_tv s'
       end.

Definition parseUserAgent (userAgent : string) : M DeviceInfo.t :=
  let ua := JS.toLowerCase userAgent in
  let type :=
    if test_any ["mobile"; "android"; "iphone"; "ipod"; "blackberry";
                 "iemobile"; "opera mini"] ua
    then "mobile"
    else if (test_any ["tablet"; "ipad"] ua || android_not_mobile ua)%bool
    then "tablet"
    else if (test_any ["smart-tv"; "smarttv"; "googletv"; "appletv";
                       "hbbtv"; "pov_tv"] ua || netcast_tv ua)%bool
    then "tv"
    else "desktop" in
  let browser :=
    if (JS.contains "chrome" ua && negb (JS.contains "edge" ua))%bool
    then "chrome"
    else if JS.contains "firefox" ua then "firefox"
    else if (JS.contains "safari" ua && negb (JS.contains "chrome" ua))%bool
    then "safari"
    else if JS.contains "edge" ua then "edge"
    else if JS.contains "opera" ua then "opera"
    else if (JS.contains "msie" ua || JS.contains "trident" ua)%bool
    then "internet_explorer"
    else "unknown" in
  let os :=
    if JS.contains "windows" ua then "windows"
    else if JS.contains "mac os" ua then "macos"
    else if JS.contains "linux" ua then "linux"
    else if JS.contains "android" ua then "android"
    else if (JS.contains "ios" ua || JS.contains "iphone" ua
             || JS.contains "ipad" ua)%bool
    then "ios"
    else "unknown" in
  let isBot := test_any ["bot"; "crawler"; "spider"; "scraper"] ua in
  let isMobile := String.eqb type "mobile" in
  let isTablet := String.eqb type "tablet" in
  parsed_at <- gets (fun s => Runtime.isoString (runtime s)) ;;
  ret (DeviceInfo.mk type browser os isBot isMobile isTablet
         (JS.take 100 userAgent) parsed_at).

Definition toJson (d : DeviceInfo.t) : Json :=
  JObj [("type", JStr (DeviceInfo.type d));
        ("browser", JStr (DeviceInfo.browser d));
        ("os", JStr (DeviceInfo.os d));
        ("isBot", JBool (DeviceInfo.isBot d));
        ("isMobile", JBool (DeviceInfo.isMobile d));
        ("isTablet", JBool (DeviceInfo.isTablet d));
        ("userAgent", JStr (DeviceInfo.userAgent d));
        ("parsed_at", JStr (DeviceInfo.parsed_at d))].

(** [b && typeof b === 'object'], with the properties a spread of [b]
    copies. *)
Definition spreadable (b : option Json) : option (list (string * Json)) :=
  match b with
  | Some (JObj fields) => Some fields
  | Some (JArr items) => Some (Obj.of_array 0 items)
  | _ => None
  end.

Definition handle (next : Handler) : Handler :=
  req <- get_request ;;
  let userAgent := JS.or_str (Request.header "user-agent" req) "" in
  deviceInfo <- parseUserAgent userAgent ;;
  set_ctx (Ctx.with_device deviceInfo) ;;
  response_.header "X-Device-Type" (DeviceInfo.type deviceInfo) ;;
  response_.header "X-Browser" (DeviceInfo.browser deviceInfo) ;;
  response_.header "X-OS" (DeviceInfo.os deviceInfo) ;;
  next ;;
  responseBody <- response_.getBody ;;
  match String.eqb (DeviceInfo.type deviceInfo) "mobile",
        spreadable responseBody with
  | true, Some fields =>
      response_.json
        (JObj (Obj.set "device_info" (toJson deviceInfo)
                 (Obj.set "mobile_optimized" (JBool true) fields)))
  | _, _ => ret tt
  end.
End DeviceDetector.

Module FeatureFlag.
Record Feature := mkFeature {
  enabled : bool;
  rollout : Z;
  (** an absent [requiresAuth] reads as [undefined], which is falsy *)
  requiresAuth : bool
}.

Definition features : list (string * Feature) :=
  [("new-api", mkFeature true 100 false);
   ("beta-features", mkFeature true 50 false);
   ("experimental", mkFeature false 0 false);
   ("premium-features", mkFeature true 100 true)].

(** The properties of its own that the literal [fs] has. *)
Fixpoint lookup (featureName : string) (fs : list (string * Feature))
  : option Feature :=
  match fs with
  | [] => None
  | (k, f) :: rest =>
      if String.eqb featureName k then Some f else lookup featureName rest
  end.

(** What [this.features[featureName]] evaluates to: a configured flag;
    for a name of [Object.prototype], the member the literal inherits,
    which is truthy and has no [enabled]; [undefined] otherwise. *)
Inductive Property := Own (feature : Feature) | Inherited | Undefined.

Definition property (featureName : string) : Property :=
  match lookup featureName features with
  | Some feature => Own feature
  | None =>
      if JS.includes JS.objectPrototype featureName then Inherited
      else Undefined
  end.

(** One turn of the loop over the characters of the seed. *)
Definition hashStep (hash char : Z) : Z :=
  let hash := JS.shl hash 5 - hash + char in
  JS.band hash hash.

Definition getUserRolloutId (request : Request.t) : Z :=
  let ip := Request.ip request in
  let userAgent := JS.or_str (Request.header "user-agent" request) "" in
  let seed := ip +:+ userAgent in
  let hash := fold_left hashStep (JS.charCodes seed) 0 in
  Z.abs hash.

Definition notFound (featureName : string) : Json :=
  JObj [("error", JStr "Feature not found");
        ("message",
         JStr ("Feature '" +:+ featureName +:+ "' is not configured"));
        ("availableFeatures", JArr (map (fun kf => JStr (fst kf)) features))].

Definition disabled (featureName : string) : Json :=
  JObj [("error", JStr "Feature disabled");
        ("message",
         JStr ("Feature '" +:+ featureName +:+ "' is currently disabled"));
        ("feature", JObj [("name", JStr featureName);
                          ("enabled", JBool false)])].

Definition notInRollout (featureName : string) (feature : Feature) : Json :=
  JObj [("error", JStr "Feature not available");
        ("message",
         JStr ("Feature '" +:+ featureName
               +:+ "' is not available for your account"));
        ("feature", JObj [("name", JStr featureName);
                          ("enabled", JBool true);
                          ("inRollout", JBool false);
                          ("rolloutPercentage", JNum (rollout feature))])].

Definition needsAuth (featureName : string) : Json :=
  JObj [("error", JStr "Authentication required");
        ("message",
         JStr ("Feature '" +:+ featureName
               +:+ "' requires user authentication"));
        ("feature", JObj [("name", JStr featureName);
                          ("requiresAuth", JBool true)])].

Definition handle (featureName : string) (next : Handler) : Handler :=
  request <- get_request ;;
  match property featureName with
  | Undefined =>
      response_.status 404 ;;
      response_.json (notFound featureName)
  | Inherited =>
      (* [feature.enabled] is [undefined] *)
      response_.status 403 ;;
      response_.json (disabled featureName)
  | Own feature =>
      if negb (enabled feature) then
        response_.status 403 ;;
        response_.json (disabled featureName)
      else
        let userRolloutId := getUserRolloutId request in
        let userRolloutPercentage := Z.rem userRolloutId 100 in
        if userRolloutPercentage >=? rollout feature then
          response_.status 403 ;;
          response_.json (notInRollout featureName feature)
        else
          match requiresAuth feature, Ctx.user (Request.ctx request) with
          | true, None =>
              response_.status 401 ;;
              response_.json (needsAuth featureName)
          | _, _ =>
              set_ctx (Ctx.with_feature
                         (FeatureInfo.mk featureName true userRolloutId
                            (rollout feature))) ;;
              next ;;
              response_.header "X-Feature-Flag" featureName ;;
              response_.header "X-Feature-Enabled" "true" ;;
              response_.header "X-Feature-Rollout"
                (JS.toString (rollout feature))
          end
  end.
End FeatureFlag.

Module ResponseTransformer.

Definition generateRequestId : M string :=
  rt <- gets runtime ;;
  let timestamp := JS.toString36 (Runtime.now rt) in
  let randomStr := Runtime.randomStr rt in
  ret ("req_" +:+ timestamp +:+ "_" +:+ randomStr).

Definition invalidJson (requestId : string) : Json :=
  JObj [("error", JStr "Invalid JSON");
        ("message", JStr "Request body contains malformed JSON");
        ("requestId", JStr requestId)].

Definition errorMeta (requestId processingTime timestamp : string) : Json :=
  JObj [("requestId", JStr requestId);
        ("processingTime", JStr processingTime);
        ("timestamp", JStr timestamp)].

Definition internalError (requestId processingTime timestamp : string)
  : Json :=
  JObj [("error", JStr "Internal Server Error");
        ("message", JStr "An error occurred while processing your request");
        ("meta", errorMeta requestId processingTime timestamp)].

Definition successMeta (requestId processingTime timestamp : string)
  : Json :=
  JObj [("requestId", JStr requestId);
        ("processingTime", JStr processingTime);
        ("timestamp", JStr timestamp);
        ("version", JStr "1.0.0")].

(** [request.header('content-type')?.includes('application/json')] *)
Definition isJsonRequest (req : Request.t) : bool :=
  match Request.header "content-type" req with
  | Some ct => JS.contains "application/json" ct
  | None => false
  end.

Definition handle (next : Handler) : Handler :=
  requestId <- generateRequestId ;;
  startTime <- gets (fun s => Runtime.hrtimeStart (runtime s)) ;;
  set_ctx (Ctx.with_request requestId startTime) ;;
  response_.header "X-Request-ID" requestId ;;
  req <- get_request ;;
  (** the validation block; [true] stands for its early [return] *)
  returned <-
    (if isJsonRequest req then
       try_catch
         (request_body ;; ret false)
         (fun _ =>
            response_.status 400 ;;
            response_.json (invalidJson requestId) ;;
            ret true)
     else ret false) ;;
  if (returned : bool) then ret tt
  else
    error <- try_catch (next ;; ret None) (fun err => ret (Some err)) ;;
    endTime <- gets (fun s => Runtime.hrtimeEnd (runtime s)) ;;
    toFixed2 <- gets (fun s => Runtime.msToFixed2 (runtime s)) ;;
    let processingTime := toFixed2 (endTime - startTime) +:+ "ms" in
    response_.header "X-Processing-Time" processingTime ;;
    response_.header "X-Server" "AdonisJS-Middleware-Demo" ;;
    match (error : option Error.t) with
    | Some _ =>
        timestamp <- gets (fun s => Runtime.isoString (runtime s)) ;;
        response_.status 500 ;;
        response_.json (internalError requestId processingTime timestamp)
    | None =>
        originalBody <- response_.getBody ;;
        match DeviceDetector.spreadable originalBody with
        | Some fields =>
            timestamp <- gets (fun s => Runtime.isoString (runtime s)) ;;
            response_.json
              (JObj (Obj.set "meta"
                       (successMeta requestId processingTime timestamp)
                       fields))
        | None => ret tt
        end
    end.
End ResponseTransformer.

(** ** The demo controller *)

Module DemoController.

Definition typeError (prop : string) : Error.t :=
  Error.mk ("Cannot read properties of undefined (reading '"
            +:+ prop +:+ "')").

Definition public : Handler :=
  request <- get_request ;;
  timestamp <- gets (fun s => Runtime.isoString (runtime s)) ;;
  response_.json
    (JObj [("message", JStr "🌍 This is a public endpoint");
           ("description", JStr "Only global middleware runs here");
           ("data", JObj [("method", JStr (Request.method request));
                          ("url", JStr (Request.url request));
                          ("timestamp", JStr timestamp)])]).

Definition protected : Handler :=
  request <- get_request ;;
  match Ctx.user (Request.ctx request) with
  | None => throw (typeError "name")
  | Some user =>
      authenticated_at <- gets (fun s => Runtime.isoString (runtime s)) ;;
      response_.json
        (JObj [("message", JStr "🔐 This is a protected endpoint");
               ("description", JStr "Authentication required to access this");
               ("user", JObj [("name", JStr (User.name user));
                              ("email", JStr (User.email user));
                              ("role", JStr (User.role user))]);
               ("data", JObj [("method", JStr (Request.method request));
                              ("url", JStr (Request.url request));
                              ("authenticated_at", JStr authenticated_at)])])
  end.

Definition admin : Handler :=
  request <- get_request ;;
  let permissions :=
    match Ctx.adminPermissions (Request.ctx request) with
    | Some ps => ps
    | None => []
    end in
  match Ctx.user (Request.ctx request) with
  | None => throw (typeError "name")
  | Some user =>
      server_time <- gets (fun s => Runtime.isoString (runtime s)) ;;
      response_.json
        (JObj [("message", JStr "👑 This is an admin-only endpoint");
               ("description", JStr "Requires admin role to access");
               ("admin", JObj [("name", JStr (User.name user));
                               ("role", JStr (User.role user));
                               ("permissions", JArr (map JStr permissions))]);
               ("system_info", JObj [("server_time", JStr server_time);
                                     ("total_users", JNum 42);
                                     ("active_sessions", JNum 15)])])
  end.

Definition rateLimited : Handler :=
  request <- get_request ;;
  response_.json
    (JObj [("message", JStr "🚦 This endpoint has strict rate limiting");
           ("description", JStr "Only 10 requests per minute allowed");
           ("request_info", JObj [("ip", JStr (Request.ip request));
                                  ("method", JStr (Request.method request));
                                  ("url", JStr (Request.url request))]);
           ("hint",
            JStr "Try making multiple requests quickly to see rate limiting in action")]).

Definition betaFeature : Handler :=
  request <- get_request ;;
  let feature := Ctx.feature (Request.ctx request) in
  let field {A} (f : FeatureInfo.t -> A) (j : A -> Json) : Json :=
    match feature with
    | Some fi => j (f fi)
    | None => JUndefined
    end in
  response_.json
    (JObj [("message", JStr "🚩 This is a beta feature");
           ("description", JStr "Protected by feature flags with 50% rollout");
           ("feature_info",
            JObj [("name", field FeatureInfo.name JStr);
                  ("enabled", field FeatureInfo.enabled JBool);
                  ("rolloutPercentage",
                   field FeatureInfo.rolloutPercentage JNum)]);
           ("beta_data",
            JObj [("new_algorithm", JStr "active");
                  ("performance_boost", JStr "25%");
                  ("additional_features",
                   JArr [JStr "real-time-sync";
                         JStr "advanced-analytics"])])]).

Definition deviceAware : Handler :=
  request <- get_request ;;
  let device := Ctx.device (Request.ctx request) in
  let mobile :=
    match device with
    | Some d => DeviceInfo.isMobile d
    | None => false
    end in
  response_.json
    (JObj [("message", JStr "📱 This endpoint adapts to your device");
           ("description", JStr "Response changes based on device type");
           ("device_detection",
            match device with
            | Some d => DeviceDetector.toJson d
            | None => JUndefined
            end);
           ("optimized_content",
            if mobile
            then JObj [("layout", JStr "mobile");
                       ("images", JStr "compressed");
                       ("js", JStr "minimal")]
            else JObj [("layout", JStr "desktop");
                       ("images", JStr "full-res");
                       ("js", JStr "complete")])]).

Definition multipleMiddleware : Handler :=
  request <- get_request ;;
  let user := Ctx.user (Request.ctx request) in
  let device := Ctx.device (Request.ctx request) in
  let feature := Ctx.feature (Request.ctx request) in
  response_.json
    (JObj [("message", JStr "🎯 This endpoint uses multiple middleware");
           ("description",
            JStr "Demonstrates middleware chaining and interaction");
           ("middleware_data",
            JObj [("user",
                   match user with
                   | Some u => JObj [("name", JStr (User.name u));
                                     ("role", JStr (User.role u))]
                   | None => JNull
                   end);
                  ("device",
                   match device with
                   | Some d => JObj [("type", JStr (DeviceInfo.type d));
                                     ("browser", JStr (DeviceInfo.browser d))]
                   | None => JNull
                   end);
                  ("feature",
                   match feature with
                   | Some f => JObj [("name", JStr (FeatureInfo.name f));
                                     ("enabled",
                                      JBool (FeatureInfo.enabled f))]
                   | None => JNull
                   end)]);
           ("combined_result",
            JObj [("access_level",
                   JStr (JS.or_str (option_map User.role user) "guest"));
                  ("device_optimization",
                   JStr (JS.or_str (option_map DeviceInfo.type device)
                           "unknown"));
                  ("feature_access",
                   JBool match feature with
                         | Some f => FeatureInfo.enabled f
                         | None => false
                         end)])]).

Definition create : Handler :=
  body <- request_body ;;
  request <- get_request ;;
  let user := Ctx.user (Request.ctx request) in
  created_at <- gets (fun s => Runtime.isoString (runtime s)) ;;
  response_.status 201 ;;
  response_.json
    (JObj [("message", JStr "✅ Data created successfully");
           ("created_data", body);
           ("created_by",
            JStr match user with
                 | Some u => User.name u
                 | None => "anonymous"
                 end);
           ("created_at", JStr created_at)]).

Definition error : Handler :=
  throw (Error.mk "Intentional error for middleware testing").
End DemoController.

(** ** Registration and routes *)

Module Kernel.
(** [Server.middleware.register]: the three middleware of the
    application, in the order of the list.  The fourth entry of the list
    is the framework's body parser, which is not among the sources:
    [Request.body] and [Request.inputs] stand for what it hands to the
    route middleware. *)
Definition global : list Middleware :=
  [RequestLogger.handle; Cors.handle; SecurityHeaders.handle].
End Kernel.

(** The chain the framework builds from a list of middleware and the
    route handler: each middleware receives the rest as [next]. *)
Definition chain (ms : list Middleware) (h : Handler) : Handler :=
  foldr (fun m k => m k) h ms.

Module Routes.
Definition route (ms : list Middleware) (h : Handler) : Handler :=
  chain (Kernel.global ++ ms) h.

Definition demo_public : Handler :=
  route [] DemoController.public.

Definition demo_protected : Handler :=
  route [Auth.handle] DemoController.protected.

Definition demo_admin : Handler :=
  route [Auth.handle; Admin.handle] DemoController.admin.

Definition demo_rateLimited : Handler :=
  route [RateLimit.handle RateLimit.strict] DemoController.rateLimited.


Definition demo_device : Handler :=
  route [DeviceDetector.handle] DemoController.deviceAware.

Definition demo_multiple : Handler :=
  route [Auth.handle; DeviceDetector.handle; FeatureFlag.handle "new-api"]
    DemoController.multipleMiddleware.

Definition demo_transform : Handler :=
  route [ResponseTransformer.handle] DemoController.public.

Definition demo_error : Handler :=
  route [ResponseTransformer.handle] DemoController.error.

Definition demo_experimental : Handler :=
  route [FeatureFlag.handle "experimental"] DemoController.betaFeature.

Definition premium_dashboard : Handler :=
  route [Auth.handle; FeatureFlag.handle "premium-features";
         ResponseTransformer.handle]
    DemoController.multipleMiddleware.
End Routes.

(** The POST routes of [start/routes.ts] outside the route groups. *)
Module PostRoutes.
Definition demo_create : Handler :=
  Routes.route [Auth.handle; RateLimit.handle RateLimit.default]
    DemoController.create.

Definition demo_admin_create : Handler :=
  Routes.route [Auth.handle; Admin.handle; ResponseTransformer.handle]
    DemoController.create.
End PostRoutes.

(** An incoming request carries no context bag and meets a fresh
    response; the rate-limit table is the one the process holds. *)
Definition incoming (rt : Runtime.t) (req : Request.t)
  (table : gmap string RequestData.t) : State :=
  mkState rt (Request.with_ctx Ctx.empty req) Response.initial table.

(** Serving one request: how the chain completed, the response, and the
    table left for the next request. *)
Definition serve (h : Handler) (rt : Runtime.t) (req : Request.t)
  (table : gmap string RequestData.t)
  : Completion unit * Response.t * gmap string RequestData.t :=
  let '(c, s) := h (incoming rt req table) in
  (c, response s, requests s).

(** Serving requests one after the other on the shared table. *)
Fixpoint serve_all (h : Handler) (inputs : list (Runtime.t * Request.t))
  (table : gmap string RequestData.t)
  : list (Completion unit * Response.t) * gmap string RequestData.t :=
  match inputs with
  | [] => ([], table)
  | (rt, req) :: rest =>
      let '(c, resp, table') := serve h rt req table in
      let '(out, final) := serve_all h rest table' in
      ((c, resp) :: out, final)
  end.

(** * Notions used in the statements *)

(** ** Observations *)

Definition completion_of (r : Completion unit * State) : Completion unit := r.1.
Definition status_of (r : Completion unit * State) : Z :=
  Response.status (response r.2).
Definition body_of (r : Completion unit * State) : option Json :=
  Response.body (response r.2).
Definition header_of (k : string) (r : Completion unit * State)
  : option string :=
  Response.headers (response r.2) !! k.
Definition ctx_of (r : Completion unit * State) : Ctx.t :=
  Request.ctx (request r.2).
Definition table_of (r : Completion unit * State)
  : gmap string RequestData.t :=
  requests r.2.

(** Answering with a status and a JSON body, as
    [return response.status(n).json(b)] does. *)
Definition answered (n : Z) (b : Json) (s : State) : State :=
  with_response (Response.with_body b)
    (with_response (Response.with_status n) s).

Definition user_attached (u : User.t) (s : State) : State :=
  with_request (fun r => Request.with_ctx (Ctx.with_user u (Request.ctx r)) r) s.

Definition admin_attached (s : State) : State :=
  with_request
    (fun r => Request.with_ctx
                (Ctx.with_admin Admin.adminPermissions (Request.ctx r)) r) s.

(** ** The authenticator and the authorizer *)

(** The value of [request.header('authorization') || request.input('token')]. *)
Definition supplied_token (req : Request.t) : option string :=
  JS.or (Request.header "authorization" req) (Request.input "token" req).

(** The three mock records of [getUserFromToken]. *)
Definition mock_users : list User.t :=
  [User.mk 1 "John Doe" "user" "john@example.com";
   User.mk 2 "Jane Admin" "admin" "jane@example.com";
   User.mk 3 "Demo User" "demo" "demo@example.com"].

(** The normalisation as the specification words it: a ['Bearer '] prefix
    is stripped, and a token without that prefix is left alone. *)
Definition stripBearerPrefix (token : string) : string :=
  if String.prefix "Bearer " token then JS.drop 7 token else token.

(** ** The global middleware *)

(** The response headers the global middleware write. *)
Definition global_headers : list string :=
  ["Access-Control-Allow-Origin"; "Access-Control-Allow-Methods";
   "Access-Control-Allow-Headers"; "Access-Control-Allow-Credentials";
   "X-Frame-Options"; "X-Content-Type-Options"; "X-XSS-Protection";
   "Referrer-Policy"; "Content-Security-Policy";
   "Strict-Transport-Security"; "Permissions-Policy"; "X-Powered-By"].

(** Two outcomes that differ at most in the response headers [ks]. *)
Record agree_but_headers (ks : list string)
  (r1 r2 : Completion unit * State) : Prop := {
  agree_completion : completion_of r1 = completion_of r2;
  agree_request : request r1.2 = request r2.2;
  agree_table : table_of r1 = table_of r2;
  agree_status : status_of r1 = status_of r2;
  agree_body : body_of r1 = body_of r2;
  agree_headers : forall k, ~ In k ks -> header_of k r1 = header_of k r2
}.

(** ** The rate limiter *)

(** The body of the response of the rate-limited endpoint to [req]. *)
Definition rateLimited_body (req : Request.t) : Json :=
  JObj [("message", JStr "🚦 This endpoint has strict rate limiting");
        ("description", JStr "Only 10 requests per minute allowed");
        ("request_info", JObj [("ip", JStr (Request.ip req));
                               ("method", JStr (Request.method req));
                               ("url", JStr (Request.url req))]);
        ("hint",
         JStr "Try making multiple requests quickly to see rate limiting in action")].

(** The entry the limiter stores at its key, given the entry it found. *)
Definition window_entry (limitType : RateLimit.LimitType) (now : Z)
  (stored : option RequestData.t) : RequestData.t :=
  let w := RateLimit.windowMs (RateLimit.limits limitType) in
  match stored with
  | Some d =>
      if now >? RequestData.resetTime d
      then RequestData.mk 1 (now + w)
      else RequestData.mk (RequestData.count d + 1) (RequestData.resetTime d)
  | None => RequestData.mk 1 (now + w)
  end.

Definition limit_headers (limitType : RateLimit.LimitType) (remaining : string)
  (d : RequestData.t) (r : Response.t) : Response.t :=
  Response.with_header "X-RateLimit-Reset"
    (JS.toString (RequestData.resetTime d))
    (Response.with_header "X-RateLimit-Remaining" remaining
       (Response.with_header "X-RateLimit-Limit"
          (JS.toString (RateLimit.limit_requests (RateLimit.limits limitType)))
          r)).

(** The state in which the limiter calls the downstream chain. *)
Definition admitted (limitType : RateLimit.LimitType) (d : RequestData.t)
  (s : State) : State :=
  let k := RateLimit.key (Request.ip (request s)) limitType in
  let lim := RateLimit.limit_requests (RateLimit.limits limitType) in
  with_response
    (limit_headers limitType (JS.toString (lim - RequestData.count d)) d)
    (with_requests (insert k d) s).

(** The state in which the limiter leaves a rejected request. *)
Definition limited (limitType : RateLimit.LimitType) (d : RequestData.t)
  (s : State) : State :=
  let ip := Request.ip (request s) in
  let k := RateLimit.key ip limitType in
  let now := Runtime.now (runtime s) in
  let resetIn := JS.ceil_div (RequestData.resetTime d - now) 1000 in
  answered 429 (RateLimit.exceeded ip limitType d resetIn)
    (with_response
       (fun r => Response.with_header "Retry-After" (JS.toString resetIn)
                   (limit_headers limitType "0" d r))
       (with_requests (insert k d) s)).

(** A downstream chain that hands the table back as it found it. *)
Definition leaves_table (next : Handler) : Prop :=
  forall s0, requests (next s0).2 = requests s0.

Definition set_table (table : gmap string RequestData.t) (s : State) : State :=
  with_requests (fun _ => table) s.

(** A downstream chain that neither reads nor writes the table. *)
Definition table_blind (next : Handler) : Prop :=
  forall s0 table,
    next (set_table table s0) = ((next s0).1, set_table table (next s0).2).

Fixpoint has_colon (s : string) : bool :=
  match s with
  | EmptyString => false
  | String c s' => (Ascii.eqb c ":" || has_colon s')%bool
  end.

(** ** The feature-flag gate *)

(** The client's rollout bucket, as the gate computes it. *)
Definition bucket_of (req : Request.t) : Z :=
  Z.rem (FeatureFlag.getUserRolloutId req) 100.

Definition feature_attached (featureName : string)
  (feature : FeatureFlag.Feature) (s : State) : State :=
  with_request
    (fun r =>
       Request.with_ctx
         (Ctx.with_feature
            (FeatureInfo.mk featureName true
               (FeatureFlag.getUserRolloutId (request s))
               (FeatureFlag.rollout feature))
            (Request.ctx r)) r) s.

(** What the gate does once the downstream chain has returned. *)
Definition feature_after (featureName : string)
  (feature : FeatureFlag.Feature) (r : Completion unit * State)
  : Completion unit * State :=
  match r with
  | (Normal _, s') =>
      (Normal tt,
       with_response
         (fun resp =>
            Response.with_header "X-Feature-Rollout"
              (JS.toString (FeatureFlag.rollout feature))
              (Response.with_header "X-Feature-Enabled" "true"
                 (Response.with_header "X-Feature-Flag" featureName resp)))
         s')
  | (Thrown e, s') => (Thrown e, s')
  end.

(** The bucket as the specification words it: the hash of the IP
    concatenated with the User-Agent, reduced modulo 100. *)
Definition rollout_bucket (ip userAgent : string) : Z :=
  Z.abs (fold_left FeatureFlag.hashStep (JS.charCodes (ip +:+ userAgent)) 0)
  mod 100.

(** A handler that completes and leaves the status as it found it. *)
Definition keeps_status (h : Handler) : Prop :=
  forall s, completion_of (h s) = Normal tt
            /\ status_of (h s) = Response.status (response s).

(** ** The response transformer *)

(** The request id the transformer generates for the request of [s]. *)
Definition request_id (s : State) : string :=
  "req_" +:+ JS.toString36 (Runtime.now (runtime s)) +:+ "_"
  +:+ Runtime.randomStr (runtime s).

(** The state in which the transformer goes on after attaching the id. *)
Definition id_attached (s : State) : State :=
  with_response (Response.with_header "X-Request-ID" (request_id s))
    (with_request
       (fun r =>
          Request.with_ctx
            (Ctx.with_request (request_id s)
               (Runtime.hrtimeStart (runtime s)) (Request.ctx r)) r) s).

(** The processing time written once the downstream chain has left the
    state [s1]. *)
Definition processing_time (s s1 : State) : string :=
  Runtime.msToFixed2 (runtime s1)
    (Runtime.hrtimeEnd (runtime s1) - Runtime.hrtimeStart (runtime s))
  +:+ "ms".

Definition timed (s s1 : State) : State :=
  with_response
    (fun r => Response.with_header "X-Server" "AdonisJS-Middleware-Demo"
                (Response.with_header "X-Processing-Time"
                   (processing_time s s1) r)) s1.

(** What the transformer makes of the outcome of the downstream chain. *)
Definition transformed (s : State) (r : Completion unit * State)
  : Completion unit * State :=
  let s1 := r.2 in
  let rid := request_id s in
  let pt := processing_time s s1 in
  let ts := Runtime.isoString (runtime s1) in
  match r.1 with
  | Thrown _ =>
      (Normal tt,
       answered 500 (ResponseTransformer.internalError rid pt ts) (timed s s1))
  | Normal _ =>
      match DeviceDetector.spreadable (Response.body (response s1)) with
      | Some fields =>
          (Normal tt,
           with_response
             (Response.with_body
                (JObj (Obj.set "meta"
                         (ResponseTransformer.successMeta rid pt ts) fields)))
             (timed s s1))
      | None => (Normal tt, timed s s1)
      end
  end.

(** The validation block returns early: a JSON request whose body cannot
    be read. *)
Definition unreadable_json (req : Request.t) : bool :=
  (ResponseTransformer.isJsonRequest req
   && match Request.body req with
      | inl _ => false
      | inr _ => true
      end)%bool.

(** ** The CORS handler *)

(** What [setCorsHeaders] does to [Access-Control-Allow-Origin], read off
    the header maps before and after it. *)
Definition allow_origin_written (req : Request.t)
  (before after : gmap string string) : Prop :=
  match Request.header "origin" req with
  | Some o =>
      if String.eqb o "" then
        after !! "Access-Control-Allow-Origin" = Some "*"
      else if JS.includes Cors.allowedOrigins o then
        after !! "Access-Control-Allow-Origin" = Some o
      else
        after !! "Access-Control-Allow-Origin"
        = before !! "Access-Control-Allow-Origin"
  | None => after !! "Access-Control-Allow-Origin" = Some "*"
  end.

(** The headers [setCorsHeaders] always writes. *)
Definition cors_fixed_headers (after : gmap string string) : Prop :=
  after !! "Access-Control-Allow-Methods"
  = Some "GET, POST, PUT, DELETE, PATCH, OPTIONS"
  /\ after !! "Access-Control-Allow-Headers"
     = Some "Content-Type, Authorization, X-Requested-With, Accept, Origin"
  /\ after !! "Access-Control-Allow-Credentials" = Some "true".

(** * Further notions *)

(** ** Tokens *)

(** The token as the authenticator validates it. *)
Definition clean_token (token : string) : string :=
  JS.replace "Bearer " "" token.

(** The [user] object the protected endpoint answers with. *)
Definition user_json (u : User.t) : Json :=
  JObj [("name", JStr (User.name u));
        ("email", JStr (User.email u));
        ("role", JStr (User.role u))].

(** ** The rate limiter *)

(** Every stored entry has counted at least one request. *)
Definition counted (table : gmap string RequestData.t) : Prop :=
  forall k d, table !! k = Some d -> 1 <= RequestData.count d.

(** The limit of a tier. *)
Definition limit_of (limitType : RateLimit.LimitType) : Z :=
  RateLimit.limit_requests (RateLimit.limits limitType).

Definition window_of (limitType : RateLimit.LimitType) : Z :=
  RateLimit.windowMs (RateLimit.limits limitType).

(** ** The rollout hash *)

(** The polynomial string hash with multiplier 31, over the integers. *)
Definition poly31 (codes : list Z) : Z :=
  fold_left (fun h c => 31 * h + c) codes 0.

(** The seed the gate hashes. *)
Definition rollout_seed (req : Request.t) : string :=
  Request.ip req +:+ JS.or_str (Request.header "user-agent" req) "".

(** ** The global middleware *)

(** The headers [SecurityHeaders.handle] writes, with their values. *)
Definition security_headers : list (string * string) :=
  [("X-Frame-Options", "DENY");
   ("X-Content-Type-Options", "nosniff");
   ("X-XSS-Protection", "1; mode=block");
   ("Referrer-Policy", "strict-origin-when-cross-origin");
   ("Content-Security-Policy", "default-src 'self'");
   ("Strict-Transport-Security", "max-age=31536000; includeSubDomains");
   ("Permissions-Policy", "geolocation=(), microphone=(), camera=()");
   ("X-Powered-By", "AdonisJS-Middleware-Demo")].

(** The headers [setCorsHeaders] may write. *)
Definition cors_headers : list string :=
  ["Access-Control-Allow-Origin"; "Access-Control-Allow-Methods";
   "Access-Control-Allow-Headers"; "Access-Control-Allow-Credentials"].

(** The state [SecurityHeaders.handle] leaves after a downstream chain
    that completed in [s1]. *)
Definition secured (s1 : State) : State :=
  with_response
    (fun r =>
       fold_left (fun acc kv => Response.with_header kv.1 kv.2 acc)
         security_headers r) s1.

(** ** Routes *)

(** The processing time the transformer prints for a request served
    under the runtime [rt]. *)
Definition processing_time_of (rt : Runtime.t) : string :=
  Runtime.msToFixed2 rt (Runtime.hrtimeEnd rt - Runtime.hrtimeStart rt)
  +:+ "ms".

(** The request id the transformer generates under the runtime [rt]. *)
Definition request_id_of (rt : Runtime.t) : string :=
  "req_" +:+ JS.toString36 (Runtime.now rt) +:+ "_" +:+ Runtime.randomStr rt.

(** No token, or one that does not clean to a valid token. *)
Definition no_valid_token (req : Request.t) : Prop :=
  match supplied_token req with
  | Some token => JS.includes Auth.validTokens (clean_token token) = false
  | None => True
  end.

(** ** The device detector *)

(** The state in which the detector calls the downstream chain. *)
Definition device_attached (d : DeviceInfo.t) (s : State) : State :=
  with_response (Response.with_header "X-OS" (DeviceInfo.os d))
    (with_response (Response.with_header "X-Browser" (DeviceInfo.browser d))
       (with_response
          (Response.with_header "X-Device-Type" (DeviceInfo.type d))
          (with_request
             (fun r => Request.with_ctx (Ctx.with_device d (Request.ctx r)) r)
             s))).

(** The User-Agent the detector parses. *)
Definition user_agent_of (s : State) : string :=
  JS.or_str (Request.header "user-agent" (request s)) "".

(** The body [DemoController.deviceAware] answers with when the context
    holds the device [d]. *)
Definition deviceAware_body (d : DeviceInfo.t) : Json :=
  JObj [("message", JStr "📱 This endpoint adapts to your device");
        ("description", JStr "Response changes based on device type");
        ("device_detection", DeviceDetector.toJson d);
        ("optimized_content",
         if DeviceInfo.isMobile d
         then JObj [("layout", JStr "mobile");
                    ("images", JStr "compressed");
                    ("js", JStr "minimal")]
         else JObj [("layout", JStr "desktop");
                    ("images", JStr "full-res");
                    ("js", JStr "complete")])].

(** ** Request ids *)

(** The value of a base-36 digit. *)
Definition digit_value (c : ascii) : Z :=
  let n := Z.of_nat (nat_of_ascii c) in
  if (n <? 58)%Z then n - 48 else n - 87.

(** Reading a string of base-36 digits, most significant first. *)
Fixpoint parse36_go (acc : Z) (s : string) : Z :=
  match s with
  | EmptyString => acc
  | String c s' => parse36_go (36 * acc + digit_value c) s'
  end.

Definition parse36 (s : string) : Z := parse36_go 0 s.

Fixpoint has_underscore (s : string) : bool :=
  match s with
  | EmptyString => false
  | String c s' => (Ascii.eqb c "_" || has_underscore s')%bool
  end.

(** The digits 0 to 35. *)
Definition digits36 : list Z := map Z.of_nat (seq 0 36).

(** * Sample inputs *)

Definition interior_bearer_request : Request.t :=
  Request.mk "GET" "/demo/protected" "203.0.113.7"
    {["authorization" := "user-Bearer token-123"]} ∅ (inl (JObj []))
    Ctx.empty.

(** Milliseconds with two decimals for a nanosecond count, rounding half
    up: what [toFixed(2)] prints for the sample durations below. *)
Definition two_decimals (ns : Z) : string :=
  let hundredths := (ns + 5000) / 10000 in
  let frac := hundredths mod 100 in
  JS.toString (hundredths / 100) +:+ "."
  +:+ (if (frac <? 10)%Z then "0" else "") +:+ JS.toString frac.

Definition sample_runtime : Runtime.t :=
  Runtime.mk 1700000000000 "2023-11-14T22:13:20.000Z" "k3j9x2m1q"
    1000000 3500000 two_decimals.

Definition sample_get (url : string) (headers : gmap string string)
  : Request.t :=
  Request.mk "GET" url "203.0.113.7" headers ∅ (inl (JObj [])) Ctx.empty.

Definition sample_state (req : Request.t) : State :=
  incoming sample_runtime req ∅.



Definition foreign_origin_request : Request.t :=
  sample_get "/demo/public" {["origin" := "https://evil.example"]}.

Definition no_origin_request : Request.t := sample_get "/demo/public" ∅.

Definition john : User.t := User.mk 1 "John Doe" "user" "john@example.com".
Definition jane : User.t := User.mk 2 "Jane Admin" "admin" "jane@example.com".

Definition with_bearer (url token : string) : Request.t :=
  sample_get url {["authorization" := "Bearer " +:+ token]}.

Definition at_time (t : Z) : Runtime.t :=
  Runtime.mk t "2023-11-14T22:13:20.000Z" "k3j9x2m1q" 0 0 two_decimals.

Definition ten_followers : list (Runtime.t * Request.t) :=
  map (fun t => (at_time t, sample_get "/demo/rate-limited" ∅))
    [2000; 3000; 4000; 5000; 6000; 7000; 8000; 9000; 10000; 11000].

Definition strict_key : string := RateLimit.key "203.0.113.7" RateLimit.strict.

Definition state_with_entry (d : RequestData.t) : State :=
  incoming sample_runtime (sample_get "/demo/rate-limited" ∅)
    {[strict_key := d]}.

Definition other_key : string := RateLimit.key "198.51.100.4" RateLimit.strict.

Definition two_client_state : State :=
  incoming sample_runtime (sample_get "/demo/rate-limited" ∅)
    (<[other_key := RequestData.mk 3 1700000030000]>
       {[strict_key := RequestData.mk 10 1700000000001]}).

Definition curl_ua : gmap string string := {["user-agent" := "curl/7.68.0"]}.

Definition first_visit : State :=
  sample_state (Request.mk "GET" "/demo/beta" "203.0.113.7" curl_ua ∅
                  (inl (JObj [])) Ctx.empty).

Definition second_visit : State :=
  incoming (at_time 5000)
    (Request.mk "POST" "/premium/settings" "203.0.113.7"
       (<["accept" := "application/json"]> curl_ua)
       {["token" := "demo-token-789"]} (inl (JObj [("theme", JStr "dark")]))
       Ctx.empty)
    {[strict_key := RequestData.mk 2 9000]}.

Definition broken_json_request : Request.t :=
  Request.mk "POST" "/demo/admin/create" "203.0.113.7"
    {["content-type" := "application/json; charset=utf-8"]} ∅
    (inr (Error.mk "Unexpected token } in JSON at position 9")) Ctx.empty.

Definition preflight_request : Request.t :=
  Request.mk "OPTIONS" "/demo/create" "203.0.113.7"
    {["origin" := "http://localhost:3000"]} ∅ (inl (JObj [])) Ctx.empty.

(** * Further sample inputs *)

(** An invalid Authorization header beside a valid [token] parameter. *)
Definition header_and_param_request : Request.t :=
  Request.mk "GET" "/demo/protected" "203.0.113.7"
    {["authorization" := "Bearer stale-token"]}
    {["token" := "user-token-123"]} (inl (JObj [])) Ctx.empty.

Definition param_only_request : Request.t :=
  Request.mk "GET" "/demo/protected" "203.0.113.7" ∅
    {["token" := "user-token-123"]} (inl (JObj [])) Ctx.empty.

Definition lowercase_scheme_request : Request.t :=
  sample_get "/demo/protected"
    {["authorization" := "bearer user-token-123"]}.

Definition create_request : Request.t :=
  Request.mk "POST" "/demo/create" "203.0.113.7"
    {["authorization" := "Bearer user-token-123"]} ∅
    (inl (JObj [("title", JStr "first post")])) Ctx.empty.

Definition admin_create_request : Request.t :=
  Request.mk "POST" "/demo/admin/create" "203.0.113.7"
    (<["authorization" := "Bearer admin-token-456"]>
       {["content-type" := "application/json"]}) ∅
    (inl (JObj [("title", JStr "first post")])) Ctx.empty.

Definition anonymous_create_request : Request.t :=
  Request.mk "POST" "/demo/create" "203.0.113.7"
    {["content-type" := "application/json"]} ∅
    (inl (JObj [("title", JStr "first post")])) Ctx.empty.

(** The User-Agent of an Android tablet: it names Android and does not
    say Mobile. *)
Definition android_tablet_ua : string :=
  "Mozilla/5.0 (Linux; Android 13; SM-X900) AppleWebKit/537.36 (KHTML, like Gecko) Chrome/120.0.0.0 Safari/537.36".

Definition iphone_request (url : string) (headers : gmap string string)
  : Request.t :=
  sample_get url
    (<["user-agent" :=
         "Mozilla/5.0 (iPhone; CPU iPhone OS 17_0 like Mac OS X) Safari/604.1"]>
       headers).

(** A downstream chain that answers with a JSON array. *)
Definition array_handler : Handler :=
  response_.json (JArr [JStr "alpha"; JStr "beta"]).

(** * Properties *)

(** ** Observations and general facts *)

#[local] Arguments JS.replace : simpl never.
#[local] Arguments JS.includes : simpl never.
#[local] Arguments JS.contains : simpl never.
#[local] Arguments JS.toString : simpl never.
#[local] Arguments JS.toString36 : simpl never.
#[local] Arguments JS.join : simpl never.
#[local] Arguments JS.ceil_div : simpl never.
#[local] Arguments RateLimit.key : simpl never.
#[local] Arguments FeatureFlag.lookup : simpl never.
#[local] Arguments FeatureFlag.property : simpl never.
#[local] Arguments JS.or_str : simpl never.
#[local] Arguments Cors.setCorsHeaders : simpl never.
#[local] Arguments DeviceDetector.parseUserAgent : simpl never.
#[local] Arguments FeatureFlag.getUserRolloutId : simpl never.

Ltac other_header :=
  repeat (rewrite lookup_insert_ne;
          [| let E := fresh in intros E; subst; intuition congruence]).

Ltac header_lookup :=
  repeat first [rewrite lookup_insert_eq
               | rewrite lookup_insert_ne by discriminate];
  reflexivity.

Lemma then_ret_tt (m : Handler) (s : State) : (m ;; ret tt) s = m s.
Proof.
  unfold bind, ret. destruct (m s) as [[[]|e] s']; reflexivity.
Qed.

Lemma eqb_false_of_ne (a b : string) : a <> b -> String.eqb a b = false.
Proof. intros H. apply String.eqb_neq. exact H. Qed.

Lemma includes_In (arr : list string) (x : string) :
  JS.includes arr x = true <-> In x arr.
Proof.
  unfold JS.includes. rewrite existsb_exists. split.
  - intros (y & Hy & Heq). apply String.eqb_eq in Heq. subst. exact Hy.
  - intros H. exists x. split; [exact H | apply String.eqb_refl].
Qed.

Lemma truthy_Some (v : option string) :
  JS.truthy v = true -> exists t, v = Some t /\ t <> "".
Proof.
  destruct v as [t|]; simpl; [|discriminate].
  intros H. exists t. split; [reflexivity|].
  intros ->. discriminate.
Qed.

(** ** The bearer-token authenticator *)

Lemma Auth_missing next s :
  JS.truthy (supplied_token (request s)) = false ->
  Auth.handle next s = (Normal tt, answered 401 Auth.missingToken s).
Proof.
  unfold supplied_token. intros H.
  unfold Auth.handle, bind, get_request, gets. simpl.
  rewrite H. reflexivity.
Qed.

Lemma Auth_invalid next s token :
  supplied_token (request s) = Some token -> token <> "" ->
  JS.includes Auth.validTokens (JS.replace "Bearer " "" token) = false ->
  Auth.handle next s = (Normal tt, answered 401 Auth.invalidToken s).
Proof.
  unfold supplied_token. intros Ht Hne Hinv.
  unfold Auth.handle, bind, get_request, gets. simpl.
  rewrite Ht. simpl. rewrite (eqb_false_of_ne _ _ Hne). simpl.
  rewrite Hinv. reflexivity.
Qed.

(** A valid token is a key of the table: the lookup finds its record. *)
Lemma valid_token_user (t : string) :
  JS.includes Auth.validTokens t = true ->
  exists u,
    Auth.getUserFromToken t = Auth.Found u
    /\ Auth.users !! t = Some u
    /\ In u mock_users
    /\ u <> Auth.guest.
Proof.
  intros H. apply includes_In in H. simpl in H.
  destruct H as [<- | [<- | [<- | []]]];
    (eexists; split; [vm_compute; reflexivity|];
     split; [vm_compute; reflexivity|];
     split; [vm_compute; tauto | vm_compute; discriminate]).
Qed.

Lemma Auth_valid next s token u :
  supplied_token (request s) = Some token -> token <> "" ->
  JS.includes Auth.validTokens (JS.replace "Bearer " "" token) = true ->
  Auth.getUserFromToken (JS.replace "Bearer " "" token) = Auth.Found u ->
  Auth.handle next s = next (user_attached u s).
Proof.
  unfold supplied_token. intros Ht Hne Hval Hu.
  unfold Auth.handle, bind, get_request, gets. simpl.
  rewrite Ht. simpl. rewrite (eqb_false_of_ne _ _ Hne). simpl.
  rewrite Hval. simpl. rewrite Hu. unfold user_attached.
  destruct (next _) as [[[]|e] s']; reflexivity.
Qed.

Lemma truthy_clean_token (t : string) :
  JS.includes Auth.validTokens (JS.replace "Bearer " "" t) = true -> t <> "".
Proof. intros H ->. vm_compute in H. discriminate. Qed.

(** ** The global middleware around a route *)

Lemma chain_app (ms1 ms2 : list Middleware) (h : Handler) :
  chain (ms1 ++ ms2) h = chain ms1 (chain ms2 h).
Proof. unfold chain. apply foldr_app. Qed.

Lemma global_frame (ms : list Middleware) (h : Handler) (s : State) :
  Request.method (request s) <> "OPTIONS" ->
  agree_but_headers global_headers (Routes.route ms h s) (chain ms h s).
Proof.
  intros Hm. unfold Routes.route. rewrite chain_app.
  generalize (chain ms h). intros k.
  unfold Kernel.global, chain. simpl foldr.
  unfold RequestLogger.handle. rewrite then_ret_tt.
  unfold Cors.handle, SecurityHeaders.handle, Cors.setCorsHeaders.
  unfold bind, get_request, gets, response_.header, modify, ret. simpl.
  rewrite (eqb_false_of_ne _ _ Hm).
  destruct (k s) as [[[]|e] s1]; simpl.
  - destruct (Request.header "origin" (request s1)) as [o|]; simpl.
    + destruct (negb (o =? "") && JS.includes Cors.allowedOrigins o)%bool;
        simpl.
      * split; try reflexivity. intros key Hk. unfold header_of. simpl.
        simpl in Hk. other_header. reflexivity.
      * destruct (negb (negb (o =? ""))); simpl;
          (split; try reflexivity; intros key Hk; unfold header_of; simpl;
           simpl in Hk; other_header; reflexivity).
    + split; try reflexivity. intros key Hk. unfold header_of. simpl.
      simpl in Hk. other_header. reflexivity.
  - split; reflexivity.
Qed.

(** * C1: the authenticator and a token that holds [Bearer ] inside *)

(** C1 - the code at a token that is none of the three valid tokens once
    a ['Bearer '] prefix is stripped (it has no such prefix), but holds
    ['Bearer '] inside: [replace] removes that occurrence, the result is
    [user-token-123], and the protected endpoint answers 200 for the mock
    user John Doe instead of 401. *)
Theorem auth_accepts_interior_bearer
  (rt : Runtime.t) (table : gmap string RequestData.t) :
  supplied_token interior_bearer_request = Some "user-Bearer token-123"
  /\ stripBearerPrefix "user-Bearer token-123" = "user-Bearer token-123"
  /\ JS.includes Auth.validTokens (stripBearerPrefix "user-Bearer token-123")
     = false
  /\ JS.replace "Bearer " "" "user-Bearer token-123" = "user-token-123"
  /\ let r := Routes.demo_protected (incoming rt interior_bearer_request table) in
     completion_of r = Normal tt
     /\ status_of r = 200
     /\ Ctx.user (ctx_of r)
        = Some (User.mk 1 "John Doe" "user" "john@example.com").
Proof.
  repeat split; vm_compute; reflexivity.
Qed.

(** * C9: the user record handed downstream *)



(** * C2: the role authorizer *)

Lemma Admin_no_user next s :
  Ctx.user (Request.ctx (request s)) = None ->
  Admin.handle next s = (Normal tt, answered 401 Admin.noUser s).
Proof.
  intros H. unfold Admin.handle, bind, get_request, gets. simpl.
  rewrite H. reflexivity.
Qed.

Lemma Admin_denied next s user :
  Ctx.user (Request.ctx (request s)) = Some user ->
  User.role user <> "admin" ->
  Admin.handle next s = (Normal tt, answered 403 (Admin.denied user) s).
Proof.
  intros H Hr. unfold Admin.handle, bind, get_request, gets. simpl.
  rewrite H. rewrite (eqb_false_of_ne _ _ Hr). reflexivity.
Qed.

Lemma Admin_granted next s user :
  Ctx.user (Request.ctx (request s)) = Some user ->
  User.role user = "admin" ->
  Admin.handle next s = next (admin_attached s).
Proof.
  intros H Hr. unfold Admin.handle, bind, get_request, gets. simpl.
  rewrite H, Hr. simpl. unfold admin_attached.
  destruct (next _) as [[[]|e] s']; reflexivity.
Qed.

Lemma demo_admin_chain (s : State) (token : string) (u : User.t) :
  supplied_token (request s) = Some token ->
  JS.includes Auth.validTokens (JS.replace "Bearer " "" token) = true ->
  Auth.getUserFromToken (JS.replace "Bearer " "" token) = Auth.Found u ->
  chain [Auth.handle; Admin.handle] DemoController.admin s
  = Admin.handle DemoController.admin (user_attached u s).
Proof.
  intros Ht Hv Hu. unfold chain. simpl foldr.
  exact (Auth_valid _ s token u Ht (truthy_clean_token _ Hv) Hv Hu).
Qed.

(** C2 - the role authorizer answers 401 when the context holds no user
    and 403 when the user's role is not admin, in both cases without
    calling the downstream chain; for an admin it attaches [isAdmin] and
    the four static permissions and calls the downstream chain.  On the
    admin endpoint, token user-token-123 gives 403 and admin-token-456
    gives 200. *)
Theorem admin_authorization (next : Handler) (s : State) :
  (Ctx.user (Request.ctx (request s)) = None ->
   Admin.handle next s = (Normal tt, answered 401 Admin.noUser s)
   /\ status_of (Admin.handle next s) = 401)
  /\ (forall user,
        Ctx.user (Request.ctx (request s)) = Some user ->
        User.role user <> "admin" ->
        Admin.handle next s = (Normal tt, answered 403 (Admin.denied user) s)
        /\ status_of (Admin.handle next s) = 403)
  /\ (forall user,
        Ctx.user (Request.ctx (request s)) = Some user ->
        User.role user = "admin" ->
        Admin.handle next s = next (admin_attached s)
        /\ Ctx.isAdmin (Request.ctx (request (admin_attached s))) = Some true
        /\ Ctx.adminPermissions (Request.ctx (request (admin_attached s)))
           = Some ["read_all_users"; "delete_users";
                   "modify_system_settings"; "view_analytics"]
        /\ Ctx.user (Request.ctx (request (admin_attached s))) = Some user)
  /\ (forall rt req table token,
        Request.method req <> "OPTIONS" ->
        supplied_token req = Some token ->
        JS.replace "Bearer " "" token = "user-token-123" ->
        status_of (Routes.demo_admin (incoming rt req table)) = 403)
  /\ (forall rt req table token,
        Request.method req <> "OPTIONS" ->
        supplied_token req = Some token ->
        JS.replace "Bearer " "" token = "admin-token-456" ->
        status_of (Routes.demo_admin (incoming rt req table)) = 200
        /\ completion_of (Routes.demo_admin (incoming rt req table))
           = Normal tt).
Proof.
  split; [| split; [| split; [| split]]].
  - intros H. rewrite (Admin_no_user _ _ H). split; reflexivity.
  - intros user H Hr. rewrite (Admin_denied _ _ _ H Hr). split; reflexivity.
  - intros user H Hr. split; [exact (Admin_granted _ _ _ H Hr)|].
    repeat split. simpl. exact H.
  - intros rt req table token Hm Ht Hc.
    unfold Routes.demo_admin.
    rewrite (agree_status _ _ _ (global_frame _ _ (incoming rt req table) Hm)).
    rewrite (demo_admin_chain (incoming rt req table) token john Ht);
      [| rewrite Hc; reflexivity | rewrite Hc; reflexivity].
    rewrite (Admin_denied _ _ john);
      [reflexivity | reflexivity | vm_compute; discriminate].
  - intros rt req table token Hm Ht Hc.
    unfold Routes.demo_admin.
    rewrite (agree_status _ _ _ (global_frame _ _ (incoming rt req table) Hm)).
    rewrite (agree_completion _ _ _
               (global_frame _ _ (incoming rt req table) Hm)).
    rewrite (demo_admin_chain (incoming rt req table) token jane Ht);
      [| rewrite Hc; reflexivity | rewrite Hc; reflexivity].
    rewrite (Admin_granted _ _ jane);
      [split; reflexivity | reflexivity | reflexivity].
Qed.

(** ** The rate limiter *)

Lemma RateLimit_run (limitType : RateLimit.LimitType) (next : Handler)
  (s : State) :
  let k := RateLimit.key (Request.ip (request s)) limitType in
  let d := window_entry limitType (Runtime.now (runtime s)) (requests s !! k) in
  RateLimit.handle limitType next s
  = if RequestData.count d
       >? RateLimit.limit_requests (RateLimit.limits limitType)
    then (Normal tt, limited limitType d s)
    else next (admitted limitType d s).
Proof.
  cbv zeta. unfold RateLimit.handle, window_entry, admitted, limited,
    limit_headers, answered.
  unfold bind, get_request, gets, modify, response_.header, response_.status,
    response_.json, ret.
  destruct (requests s !! RateLimit.key (Request.ip (request s)) limitType)
    as [d0|] eqn:Hk; simpl; try rewrite Hk;
    [destruct (Runtime.now (runtime s) >? RequestData.resetTime d0) |];
    simpl; try change (0 + 1) with 1;
    match goal with
    | |- context [?c >? RateLimit.limit_requests ?l] =>
        destruct (c >? RateLimit.limit_requests l)
    end;
    try reflexivity;
    destruct (next _) as [[[]|e] s']; reflexivity.
Qed.

Lemma table_blind_leaves (next : Handler) :
  table_blind next -> leaves_table next.
Proof.
  intros Hb s0. specialize (Hb s0 (requests s0)).
  assert (Hs : set_table (requests s0) s0 = s0) by (destruct s0; reflexivity).
  rewrite Hs in Hb. rewrite Hb at 1. reflexivity.
Qed.

Lemma RateLimit_table (limitType : RateLimit.LimitType) (next : Handler)
  (s : State) :
  leaves_table next ->
  let k := RateLimit.key (Request.ip (request s)) limitType in
  table_of (RateLimit.handle limitType next s)
  = <[k := window_entry limitType (Runtime.now (runtime s)) (requests s !! k)]>
      (requests s).
Proof.
  intros Hn k. rewrite RateLimit_run. fold k.
  destruct (_ >? _).
  - reflexivity.
  - unfold table_of. rewrite Hn. reflexivity.
Qed.

(** * C7: the fixed-window rule *)

(** C7 - after the limiter has processed a request (the downstream chain
    leaving the table alone), the entry at the request's key is count 1
    with reset time now + window when there was no entry or the stored
    reset time has passed, and otherwise the stored entry with its count
    one higher and its reset time unchanged. *)
Theorem fixed_window_update (limitType : RateLimit.LimitType)
  (next : Handler) (s : State) :
  leaves_table next ->
  let k := RateLimit.key (Request.ip (request s)) limitType in
  let now := Runtime.now (runtime s) in
  let w := RateLimit.windowMs (RateLimit.limits limitType) in
  let after := table_of (RateLimit.handle limitType next s) in
  (requests s !! k = None ->
   after !! k = Some (RequestData.mk 1 (now + w)))
  /\ (forall d, requests s !! k = Some d -> now > RequestData.resetTime d ->
      after !! k = Some (RequestData.mk 1 (now + w)))
  /\ (forall d, requests s !! k = Some d -> now <= RequestData.resetTime d ->
      after !! k
      = Some (RequestData.mk (RequestData.count d + 1)
                (RequestData.resetTime d))).
Proof.
  intros Hn k now w after. unfold after.
  rewrite (RateLimit_table limitType next s Hn). fold k. fold now.
  rewrite lookup_insert_eq. unfold window_entry. fold w.
  split; [| split].
  - intros ->. reflexivity.
  - intros d -> Hgt.
    destruct (Z.gtb_spec now (RequestData.resetTime d)); [reflexivity | lia].
  - intros d -> Hle.
    destruct (Z.gtb_spec now (RequestData.resetTime d)); [lia | reflexivity].
Qed.

(** * C10: the limiter touches one key *)

Lemma has_colon_app (a x : string) : has_colon (a +:+ ":" +:+ x) = true.
Proof.
  induction a as [|c a IH]; simpl.
  - reflexivity.
  - rewrite IH. apply orb_true_r.
Qed.

Lemma typeName_no_colon (t : RateLimit.LimitType) :
  has_colon (RateLimit.typeName t) = false.
Proof. destruct t; reflexivity. Qed.

Lemma typeName_inj (t t' : RateLimit.LimitType) :
  RateLimit.typeName t = RateLimit.typeName t' -> t = t'.
Proof. destruct t, t'; simpl; intros H; try reflexivity; discriminate. Qed.

(** Distinct (IP, tier) pairs have distinct keys: the tier is what
    follows the last colon. *)
Lemma key_inj (a a' : string) (t t' : RateLimit.LimitType) :
  RateLimit.key a t = RateLimit.key a' t' -> a = a' /\ t = t'.
Proof.
  unfold RateLimit.key. revert a'.
  induction a as [|c a IH]; intros [|c' a']; intros H.
  - change (String ":" (RateLimit.typeName t)
            = String ":" (RateLimit.typeName t')) in H.
    injection H as H. split; [reflexivity | exact (typeName_inj _ _ H)].
  - change (String ":" (RateLimit.typeName t)
            = String c' (a' +:+ ":" +:+ RateLimit.typeName t')) in H.
    injection H as Hc H. exfalso.
    pose proof (typeName_no_colon t) as Hn.
    rewrite H, has_colon_app in Hn. discriminate.
  - change (String c (a +:+ ":" +:+ RateLimit.typeName t)
            = String ":" (RateLimit.typeName t')) in H.
    injection H as Hc H. exfalso.
    pose proof (typeName_no_colon t') as Hn.
    rewrite <- H, has_colon_app in Hn. discriminate.
  - change (String c (a +:+ ":" +:+ RateLimit.typeName t)
            = String c' (a' +:+ ":" +:+ RateLimit.typeName t')) in H.
    injection H as Hc H. destruct (IH a' H) as [-> ->].
    subst. split; reflexivity.
Qed.

(** C10 - a request from IP [a] under tier [t] changes no entry of the
    table but the one at the key of [(a, t)], whether it is admitted or
    rejected; and what the limiter does depends on no other entry: on a
    table that agrees at that key it completes alike, leaves the same
    response and the same entry at the key, and the other entries of
    that table as they were. *)
Theorem rate_limit_frame (limitType : RateLimit.LimitType)
  (next : Handler) (s : State) :
  table_blind next ->
  let a := Request.ip (request s) in
  let k := RateLimit.key a limitType in
  let r := RateLimit.handle limitType next s in
  (forall k', k' <> k -> table_of r !! k' = requests s !! k')
  /\ (forall a' t', (a', t') <> (a, limitType) ->
        table_of r !! RateLimit.key a' t'
        = requests s !! RateLimit.key a' t')
  /\ (forall table2, table2 !! k = requests s !! k ->
        let r2 := RateLimit.handle limitType next (set_table table2 s) in
        completion_of r2 = completion_of r
        /\ response r2.2 = response r.2
        /\ request r2.2 = request r.2
        /\ table_of r2 !! k = table_of r !! k
        /\ forall k', k' <> k -> table_of r2 !! k' = table2 !! k').
Proof.
  intros Hb a k r.
  pose proof (table_blind_leaves _ Hb) as Hn.
  assert (Hframe : forall k', k' <> k -> table_of r !! k' = requests s !! k').
  { intros k' Hk. unfold r. rewrite (RateLimit_table limitType next s Hn).
    fold a. fold k. apply lookup_insert_ne. congruence. }
  split; [exact Hframe | split].
  - intros a' t' Hne. apply Hframe. intros Heq.
    apply key_inj in Heq. destruct Heq as [-> ->]. apply Hne. reflexivity.
  - intros table2 H2 r2. unfold r2, r. rewrite !RateLimit_run.
    simpl request. simpl runtime. simpl requests. fold a. fold k.
    rewrite H2.
    set (d := window_entry limitType (Runtime.now (runtime s))
                (requests s !! k)).
    destruct (RequestData.count d
              >? RateLimit.limit_requests (RateLimit.limits limitType)).
    + unfold completion_of, table_of, limited, answered. simpl.
      fold a. fold k. rewrite !lookup_insert_eq.
      repeat split. intros k' Hk. apply lookup_insert_ne. congruence.
    + assert (Hs : admitted limitType d (set_table table2 s)
                   = set_table (<[k := d]> table2) (admitted limitType d s))
        by reflexivity.
      rewrite Hs, Hb. unfold completion_of, table_of. simpl.
      pose proof (Hn (admitted limitType d s)) as Hl. simpl in Hl.
      fold a in Hl. fold k in Hl. rewrite Hl. rewrite !lookup_insert_eq.
      repeat split. intros k' Hk. apply lookup_insert_ne. congruence.
Qed.

(** * C3: eleven requests against the strict limit *)

Lemma serve_unfold (h : Handler) (rt : Runtime.t) (req : Request.t)
  (table : gmap string RequestData.t) :
  serve h rt req table
  = (completion_of (h (incoming rt req table)),
     response (h (incoming rt req table)).2,
     table_of (h (incoming rt req table))).
Proof.
  unfold serve, completion_of, table_of.
  destruct (h (incoming rt req table)) as [c s]. reflexivity.
Qed.

Lemma rate_headers_not_global :
  ~ In "X-RateLimit-Remaining" global_headers
  /\ ~ In "Retry-After" global_headers
  /\ ~ In "X-RateLimit-Limit" global_headers.
Proof. repeat split; simpl; intuition discriminate. Qed.

(** One request to the strict-rate-limited endpoint: past the limit the
    response is the limiter's own, within it the route's, with the
    limiter's headers. *)
Lemma rateLimited_served (rt : Runtime.t) (req : Request.t)
  (table : gmap string RequestData.t) :
  Request.method req <> "OPTIONS" ->
  let k := RateLimit.key (Request.ip req) RateLimit.strict in
  let d := window_entry RateLimit.strict (Runtime.now rt) (table !! k) in
  exists resp,
    serve Routes.demo_rateLimited rt req table
    = (Normal tt, resp, <[k := d]> table)
    /\ if RequestData.count d >? 10
       then Response.status resp = 429
            /\ Response.body resp
               = Some (RateLimit.exceeded (Request.ip req) RateLimit.strict d
                         (JS.ceil_div
                            (RequestData.resetTime d - Runtime.now rt) 1000))
            /\ Response.headers resp !! "X-RateLimit-Remaining" = Some "0"
            /\ Response.headers resp !! "Retry-After"
               = Some (JS.toString
                         (JS.ceil_div
                            (RequestData.resetTime d - Runtime.now rt) 1000))
       else Response.status resp = 200
            /\ Response.body resp = Some (rateLimited_body req)
            /\ Response.headers resp !! "X-RateLimit-Limit" = Some "10"
            /\ Response.headers resp !! "X-RateLimit-Remaining"
               = Some (JS.toString (10 - RequestData.count d)).
Proof.
  intros Hm k d. rewrite serve_unfold.
  pose proof (global_frame [RateLimit.handle RateLimit.strict]
                DemoController.rateLimited (incoming rt req table) Hm) as F.
  fold Routes.demo_rateLimited in F.
  destruct F as [Fc _ Ft Fs Fb Fh].
  destruct rate_headers_not_global as (Hrem & Hretry & Hlim).
  pose proof (Fh _ Hrem) as Frem. pose proof (Fh _ Hretry) as Fretry.
  pose proof (Fh _ Hlim) as Flim.
  clear Fh. unfold status_of, header_of, body_of in *.
  set (r := Routes.demo_rateLimited (incoming rt req table)) in *.
  exists (response r.2).
  rewrite Fc, Ft, Fs, Fb, Frem, Fretry, Flim.
  clear Fc Ft Fs Fb Frem Fretry Flim.
  unfold chain. simpl foldr. rewrite RateLimit_run.
  simpl request. simpl runtime. simpl requests.
  change (Request.ip (Request.with_ctx Ctx.empty req)) with (Request.ip req).
  fold k. fold d.
  change (RateLimit.limit_requests (RateLimit.limits RateLimit.strict))
    with 10.
  destruct (RequestData.count d >? 10).
  - split; [reflexivity|]. split; [reflexivity|]. split; [reflexivity|].
    unfold limited, answered, limit_headers. simpl.
    split; [header_lookup|].
    rewrite lookup_insert_eq. reflexivity.
  - unfold DemoController.rateLimited, bind, get_request, gets,
      response_.json, modify.
    split; [reflexivity|]. split; [reflexivity|]. split; [reflexivity|].
    unfold admitted, limit_headers. simpl.
    split; [header_lookup|].
    rewrite lookup_insert_ne by discriminate.
    rewrite lookup_insert_eq. reflexivity.
Qed.

(** Requests that all arrive before the reset time [r] of the entry the
    table holds for their key. *)
Lemma serve_all_in_window (a : string) (r : Z) :
  forall (inputs : list (Runtime.t * Request.t))
         (table : gmap string RequestData.t) (c : Z),
    table !! RateLimit.key a RateLimit.strict = Some (RequestData.mk c r) ->
    (forall rt req, In (rt, req) inputs ->
       Request.ip req = a /\ Request.method req <> "OPTIONS"
       /\ Runtime.now rt <= r) ->
    forall (i : nat) rt req, inputs !! i = Some (rt, req) ->
      exists resp,
        (serve_all Routes.demo_rateLimited inputs table).1 !! i
        = Some (Normal tt, resp)
        /\ if c + Z.of_nat i + 1 >? 10
           then Response.status resp = 429
                /\ Response.body resp
                   = Some (RateLimit.exceeded a RateLimit.strict
                             (RequestData.mk (c + Z.of_nat i + 1) r)
                             (JS.ceil_div (r - Runtime.now rt) 1000))
                /\ Response.headers resp !! "X-RateLimit-Remaining"
                   = Some "0"
                /\ Response.headers resp !! "Retry-After"
                   = Some (JS.toString (JS.ceil_div (r - Runtime.now rt) 1000))
           else Response.status resp = 200
                /\ Response.body resp = Some (rateLimited_body req)
                /\ Response.headers resp !! "X-RateLimit-Limit" = Some "10"
                /\ Response.headers resp !! "X-RateLimit-Remaining"
                   = Some (JS.toString (10 - (c + Z.of_nat i + 1))).
Proof.
  induction inputs as [|[rt0 req0] rest IH]; intros table c Hk Hall i rt req Hi.
  - destruct i; discriminate.
  - destruct (Hall rt0 req0 (or_introl eq_refl)) as (Hip & Hm & Hnow).
    destruct (rateLimited_served rt0 req0 table Hm) as (resp0 & Hs & Hr).
    rewrite Hip, Hk in Hs, Hr. unfold window_entry in Hs, Hr.
    simpl RequestData.resetTime in Hs, Hr.
    destruct (Z.gtb_spec (Runtime.now rt0) r) as [Hlt|_]; [lia|].
    simpl RequestData.count in Hs, Hr. simpl RequestData.resetTime in Hr.
    simpl serve_all. rewrite Hs.
    destruct (serve_all Routes.demo_rateLimited rest
                (<[RateLimit.key a RateLimit.strict
                   := RequestData.mk (c + 1) r]> table)) as [out final] eqn:Hrest.
    destruct i as [|j].
    + injection Hi as -> ->. exists resp0. split; [reflexivity|].
      replace (c + Z.of_nat 0 + 1) with (c + 1) by lia. exact Hr.
    + simpl in Hi.
      destruct (IH (<[RateLimit.key a RateLimit.strict
                      := RequestData.mk (c + 1) r]> table) (c + 1)
                  (lookup_insert_eq _ _ _)
                  (fun rt' req' H => Hall rt' req' (or_intror H))
                  j rt req Hi) as (resp & Ho & Hresp).
      rewrite Hrest in Ho. exists resp. split; [exact Ho|].
      replace (c + Z.of_nat (S j) + 1) with (c + 1 + Z.of_nat j + 1) by lia.
      exact Hresp.
Qed.

Lemma serve_all_length (h : Handler) :
  forall (inputs : list (Runtime.t * Request.t))
         (table : gmap string RequestData.t),
    length (serve_all h inputs table).1 = length inputs.
Proof.
  induction inputs as [|[rt req] rest IH]; intros table; [reflexivity|].
  simpl. destruct (serve h rt req table) as [[c resp] table'].
  specialize (IH table').
  destruct (serve_all h rest table') as [out final]. simpl in *.
  rewrite IH. reflexivity.
Qed.

(** C3 - eleven requests from one client IP to the strict-rate-limited
    endpoint, the first opening a window (the table holds no entry for the
    client's key, or an expired one) and the other ten arriving no later
    than that window's reset time, 60000 ms on.  Request number i + 1 for
    i = 0..9 passes the limiter: the response is the route's, status 200
    with the body the route's handler writes for that request, and it
    carries [X-RateLimit-Limit] 10 and [X-RateLimit-Remaining] 9 - i.
    The eleventh does not reach the route: it is answered 429 with the
    limiter's own body (count 11), [X-RateLimit-Remaining] 0 and a
    [Retry-After] header, the seconds left in the window rounded up. *)
Theorem strict_limit_eleven_requests (a : string)
  (table : gmap string RequestData.t)
  (rt1 : Runtime.t) (req1 : Request.t)
  (rest : list (Runtime.t * Request.t)) :
  length rest = 10%nat ->
  match table !! RateLimit.key a RateLimit.strict with
  | Some d => Runtime.now rt1 > RequestData.resetTime d
  | None => True
  end ->
  (forall rt req, In (rt, req) ((rt1, req1) :: rest) ->
     Request.ip req = a /\ Request.method req <> "OPTIONS") ->
  (forall rt req, In (rt, req) rest ->
     Runtime.now rt <= Runtime.now rt1 + 60000) ->
  let out :=
    (serve_all Routes.demo_rateLimited ((rt1, req1) :: rest) table).1 in
  length out = 11%nat
  /\ (forall i : nat, (i < 10)%nat ->
        exists rt req resp,
          ((rt1, req1) :: rest) !! i = Some (rt, req)
          /\ out !! i = Some (Normal tt, resp)
          /\ Response.status resp = 200
          /\ Response.body resp = Some (rateLimited_body req)
          /\ Response.headers resp !! "X-RateLimit-Limit" = Some "10"
          /\ Response.headers resp !! "X-RateLimit-Remaining"
             = Some (JS.toString (9 - Z.of_nat i)))
  /\ (exists rt11 req11 resp,
        rest !! 9%nat = Some (rt11, req11)
        /\ out !! 10%nat = Some (Normal tt, resp)
        /\ Response.status resp = 429
        /\ Response.body resp
           = Some (RateLimit.exceeded a RateLimit.strict
                     (RequestData.mk 11 (Runtime.now rt1 + 60000))
                     (JS.ceil_div
                        (Runtime.now rt1 + 60000 - Runtime.now rt11) 1000))
        /\ Response.headers resp !! "X-RateLimit-Remaining" = Some "0"
        /\ Response.headers resp !! "Retry-After"
           = Some (JS.toString
                     (JS.ceil_div
                        (Runtime.now rt1 + 60000 - Runtime.now rt11) 1000))).
Proof.
  intros Hlen Hfresh Hall Hwin out.
  split.
  { unfold out. rewrite serve_all_length. simpl. rewrite Hlen. reflexivity. }
  destruct (Hall rt1 req1 (or_introl eq_refl)) as (Hip & Hm).
  destruct (rateLimited_served rt1 req1 table Hm) as (resp1 & Hs & Hr).
  rewrite Hip in Hs, Hr.
  assert (Hd : window_entry RateLimit.strict (Runtime.now rt1)
                 (table !! RateLimit.key a RateLimit.strict)
               = RequestData.mk 1 (Runtime.now rt1 + 60000)).
  { unfold window_entry.
    destruct (table !! RateLimit.key a RateLimit.strict) as [d0|];
      [|reflexivity].
    destruct (Z.gtb_spec (Runtime.now rt1) (RequestData.resetTime d0));
      [reflexivity | lia]. }
  rewrite Hd in Hs, Hr. simpl in Hr.
  pose proof (serve_all_in_window a (Runtime.now rt1 + 60000) rest
                (<[RateLimit.key a RateLimit.strict
                   := RequestData.mk 1 (Runtime.now rt1 + 60000)]> table) 1
                (lookup_insert_eq _ _ _)) as Hrest.
  assert (Hall' : forall rt req, In (rt, req) rest ->
            Request.ip req = a /\ Request.method req <> "OPTIONS"
            /\ Runtime.now rt <= Runtime.now rt1 + 60000).
  { intros rt req Hin. destruct (Hall rt req (or_intror Hin)) as [H1 H2].
    repeat split; try assumption. exact (Hwin rt req Hin). }
  specialize (Hrest Hall').
  unfold out. simpl serve_all. rewrite Hs.
  destruct (serve_all Routes.demo_rateLimited rest
              (<[RateLimit.key a RateLimit.strict
                 := RequestData.mk 1 (Runtime.now rt1 + 60000)]> table))
    as [tail final] eqn:Htail.
  simpl fst in *.
  split.
  - intros [|j] Hi.
    + exists rt1, req1, resp1. split; [reflexivity|].
      split; [reflexivity|]. exact Hr.
    + assert (Hj : (j < length rest)%nat) by lia.
      destruct (lookup_lt_is_Some_2 rest j Hj) as [[rt req] Hjth].
      destruct (Hrest j rt req Hjth) as (resp & Ho & Hresp).
      exists rt, req, resp. split; [exact Hjth|]. split; [exact Ho|].
      destruct (Z.gtb_spec (1 + Z.of_nat j + 1) 10) as [Hgt|_]; [lia|].
      replace (9 - Z.of_nat (S j)) with (10 - (1 + Z.of_nat j + 1)) by lia.
      exact Hresp.
  - assert (Hj : (9 < length rest)%nat) by lia.
    destruct (lookup_lt_is_Some_2 rest 9 Hj) as [[rt11 req11] H11].
    destruct (Hrest 9%nat rt11 req11 H11) as (resp & Ho & Hresp).
    exists rt11, req11, resp. split; [exact H11|]. split; [exact Ho|].
    exact Hresp.
Qed.

(** ** The feature-flag gate *)

Lemma bucket_range (req : Request.t) : 0 <= bucket_of req < 100.
Proof.
  unfold bucket_of, FeatureFlag.getUserRolloutId.
  apply Z.rem_bound_pos; [apply Z.abs_nonneg | lia].
Qed.

Lemma property_own featureName feature :
  FeatureFlag.lookup featureName FeatureFlag.features = Some feature ->
  FeatureFlag.property featureName = FeatureFlag.Own feature.
Proof. intros H. unfold FeatureFlag.property. rewrite H. reflexivity. Qed.



Lemma Feature_disabled featureName feature next s :
  FeatureFlag.lookup featureName FeatureFlag.features = Some feature ->
  FeatureFlag.enabled feature = false ->
  FeatureFlag.handle featureName next s
  = (Normal tt, answered 403 (FeatureFlag.disabled featureName) s).
Proof.
  intros H He. unfold FeatureFlag.handle, bind, get_request, gets. simpl.
  rewrite (property_own _ _ H), He. reflexivity.
Qed.

Lemma Feature_not_in_rollout featureName feature next s :
  FeatureFlag.lookup featureName FeatureFlag.features = Some feature ->
  FeatureFlag.enabled feature = true ->
  bucket_of (request s) >= FeatureFlag.rollout feature ->
  FeatureFlag.handle featureName next s
  = (Normal tt,
     answered 403 (FeatureFlag.notInRollout featureName feature) s).
Proof.
  intros H He Hb. unfold FeatureFlag.handle, bind, get_request, gets.
  cbv beta iota. rewrite (property_own _ _ H), He. simpl negb.
  cbv iota zeta.
  unfold bucket_of in Hb.
  destruct (Z.geb_spec (Z.rem (FeatureFlag.getUserRolloutId (request s)) 100)
              (FeatureFlag.rollout feature)) as [_|Hlt]; [reflexivity | lia].
Qed.

Lemma Feature_needs_auth featureName feature next s :
  FeatureFlag.lookup featureName FeatureFlag.features = Some feature ->
  FeatureFlag.enabled feature = true ->
  bucket_of (request s) < FeatureFlag.rollout feature ->
  FeatureFlag.requiresAuth feature = true ->
  Ctx.user (Request.ctx (request s)) = None ->
  FeatureFlag.handle featureName next s
  = (Normal tt, answered 401 (FeatureFlag.needsAuth featureName) s).
Proof.
  intros H He Hb Ha Hu. unfold FeatureFlag.handle, bind, get_request, gets.
  cbv beta iota. rewrite (property_own _ _ H), He. simpl negb.
  cbv iota zeta.
  unfold bucket_of in Hb.
  destruct (Z.geb_spec (Z.rem (FeatureFlag.getUserRolloutId (request s)) 100)
              (FeatureFlag.rollout feature)) as [Hge|_]; [lia|].
  rewrite Ha, Hu. reflexivity.
Qed.

Lemma Feature_available featureName feature next s :
  FeatureFlag.lookup featureName FeatureFlag.features = Some feature ->
  FeatureFlag.enabled feature = true ->
  bucket_of (request s) < FeatureFlag.rollout feature ->
  (FeatureFlag.requiresAuth feature = true ->
   Ctx.user (Request.ctx (request s)) <> None) ->
  FeatureFlag.handle featureName next s
  = feature_after featureName feature
      (next (feature_attached featureName feature s)).
Proof.
  intros H He Hb Ha. unfold FeatureFlag.handle, bind, get_request, gets.
  cbv beta iota. rewrite (property_own _ _ H), He. simpl negb.
  cbv iota zeta.
  unfold bucket_of in Hb.
  destruct (Z.geb_spec (Z.rem (FeatureFlag.getUserRolloutId (request s)) 100)
              (FeatureFlag.rollout feature)) as [Hge|_]; [lia|].
  unfold feature_after, feature_attached.
  destruct (FeatureFlag.requiresAuth feature);
    [destruct (Ctx.user (Request.ctx (request s))) as [u|];
       [| exfalso; apply Ha; reflexivity] |];
    unfold set_ctx, modify, response_.header, modify; simpl;
    destruct (next _) as [[[]|e] s']; reflexivity.
Qed.

(** * C6: the rollout bucket is a function of IP and User-Agent *)

(** C6 - for every configured flag and two requests with the same client
    IP and the same User-Agent header, the gate computes the same bucket
    (the hash of IP and User-Agent modulo 100, between 0 and 99) and so
    takes the same rollout decision: both requests are refused with the
    not-in-rollout 403 when the bucket is outside the flag's percentage,
    and both proceed to the authentication check and the downstream chain
    when it is inside, whatever else the requests carry. *)
Theorem rollout_decision_deterministic
  (featureName : string) (feature : FeatureFlag.Feature)
  (next1 next2 : Handler) (s1 s2 : State) :
  FeatureFlag.lookup featureName FeatureFlag.features = Some feature ->
  Request.ip (request s1) = Request.ip (request s2) ->
  Request.header "user-agent" (request s1)
  = Request.header "user-agent" (request s2) ->
  bucket_of (request s1) = bucket_of (request s2)
  /\ bucket_of (request s1)
     = rollout_bucket (Request.ip (request s1))
         (JS.or_str (Request.header "user-agent" (request s1)) "")
  /\ 0 <= bucket_of (request s1) < 100
  /\ (bucket_of (request s1) >=? FeatureFlag.rollout feature)
     = (bucket_of (request s2) >=? FeatureFlag.rollout feature)
  /\ (FeatureFlag.enabled feature = true ->
      bucket_of (request s1) >= FeatureFlag.rollout feature ->
      FeatureFlag.handle featureName next1 s1
      = (Normal tt,
         answered 403 (FeatureFlag.notInRollout featureName feature) s1)
      /\ FeatureFlag.handle featureName next2 s2
         = (Normal tt,
            answered 403 (FeatureFlag.notInRollout featureName feature) s2))
  /\ (FeatureFlag.enabled feature = true ->
      bucket_of (request s1) < FeatureFlag.rollout feature ->
      let proceeds (next : Handler) (s : State) :=
        match FeatureFlag.requiresAuth feature,
              Ctx.user (Request.ctx (request s)) with
        | true, None =>
            (Normal tt, answered 401 (FeatureFlag.needsAuth featureName) s)
        | _, _ =>
            feature_after featureName feature
              (next (feature_attached featureName feature s))
        end in
      FeatureFlag.handle featureName next1 s1 = proceeds next1 s1
      /\ FeatureFlag.handle featureName next2 s2 = proceeds next2 s2).
Proof.
  intros Hf Hip Hua.
  assert (Hb : bucket_of (request s1) = bucket_of (request s2)).
  { unfold bucket_of, FeatureFlag.getUserRolloutId. rewrite Hip, Hua.
    reflexivity. }
  split; [exact Hb|]. split.
  { unfold bucket_of, rollout_bucket, FeatureFlag.getUserRolloutId.
    apply Z.rem_mod_nonneg; [apply Z.abs_nonneg | lia]. }
  split; [apply bucket_range|]. split; [rewrite Hb; reflexivity|]. split.
  - intros He Hge. split; apply Feature_not_in_rollout; try assumption.
    rewrite <- Hb. exact Hge.
  - intros He Hlt proceeds.
    assert (Hgo : forall (next : Handler) (s : State),
              bucket_of (request s) < FeatureFlag.rollout feature ->
              FeatureFlag.handle featureName next s = proceeds next s).
    { intros next s Hs. unfold proceeds.
      destruct (FeatureFlag.requiresAuth feature) eqn:Ha;
        [destruct (Ctx.user (Request.ctx (request s))) as [u|] eqn:Hu |].
      - apply Feature_available; try assumption.
        intros _. rewrite Hu. discriminate.
      - apply (Feature_needs_auth featureName feature); assumption.
      - apply Feature_available; try assumption.
        rewrite Ha. discriminate. }
    split; apply Hgo; [exact Hlt | rewrite <- Hb; exact Hlt].
Qed.

(** * C4: the checks of the feature-flag gate *)



Lemma new_api_configured :
  FeatureFlag.lookup "new-api" FeatureFlag.features
  = Some (FeatureFlag.mkFeature true 100 false).
Proof. reflexivity. Qed.









(** * C5: the response transformer *)

Lemma Obj_get_set_eq (k : string) (v : Json) (o : list (string * Json)) :
  Obj.get k (Obj.set k v o) = Some v.
Proof.
  induction o as [|[k' v'] rest IH]; simpl.
  - rewrite String.eqb_refl. reflexivity.
  - destruct (String.eqb k k') eqn:E; simpl; rewrite E; [reflexivity | exact IH].
Qed.

Lemma Obj_get_set_ne (k k0 : string) (v : Json) (o : list (string * Json)) :
  k0 <> k -> Obj.get k0 (Obj.set k v o) = Obj.get k0 o.
Proof.
  intros Hne. induction o as [|[k' v'] rest IH]; simpl.
  - rewrite (eqb_false_of_ne _ _ Hne). reflexivity.
  - destruct (String.eqb k k') eqn:E; simpl.
    + apply String.eqb_eq in E. subst k'.
      rewrite (eqb_false_of_ne _ _ Hne). reflexivity.
    + rewrite IH. reflexivity.
Qed.

Lemma Transformer_run (next : Handler) (s : State) :
  ResponseTransformer.handle next s
  = if unreadable_json (request s)
    then (Normal tt,
          answered 400 (ResponseTransformer.invalidJson (request_id s))
            (id_attached s))
    else transformed s (next (id_attached s)).
Proof.
  unfold ResponseTransformer.handle, ResponseTransformer.generateRequestId,
    unreadable_json, transformed, request_body, try_catch, bind,
    get_request, gets, set_ctx, response_.header, response_.status,
    response_.json, response_.getBody, modify, throw, ret.
  simpl. fold (request_id s).
  change (ResponseTransformer.isJsonRequest
            (Request.with_ctx
               (Ctx.with_request (request_id s)
                  (Runtime.hrtimeStart (runtime s))
                  (Request.ctx (request s))) (request s)))
    with (ResponseTransformer.isJsonRequest (request s)).
  fold (id_attached s).
  destruct (ResponseTransformer.isJsonRequest (request s)); simpl;
    [destruct (Request.body (request s)) as [b|e0]; simpl; [|reflexivity] |];
    (destruct (next (id_attached s)) as [[[]|e] s1]; simpl;
     [destruct (DeviceDetector.spreadable (Response.body (response s1)));
        reflexivity
     | reflexivity]).
Qed.

(** C5 - the transformer generates a request id and attaches it to the
    context and the response before anything else; when the downstream
    chain throws, the response is the 500 envelope with the generic
    message and a [meta] holding the request id, the processing time and
    the timestamp; when it completes with a JSON object as body, the body
    becomes that object with [meta] set to the request id, the processing
    time, the timestamp and the version, every other field as it was, and
    the status stays. *)
Theorem response_transformer (next : Handler) (s : State) :
  let rid := request_id s in
  let s0 := id_attached s in
  (Ctx.requestId (Request.ctx (request s0)) = Some rid
   /\ Response.headers (response s0) !! "X-Request-ID" = Some rid)
  /\ (unreadable_json (request s) = true ->
      ResponseTransformer.handle next s
      = (Normal tt, answered 400 (ResponseTransformer.invalidJson rid) s0))
  /\ (unreadable_json (request s) = false ->
      forall e s1, next s0 = (Thrown e, s1) ->
        let pt := processing_time s s1 in
        let ts := Runtime.isoString (runtime s1) in
        completion_of (ResponseTransformer.handle next s) = Normal tt
        /\ status_of (ResponseTransformer.handle next s) = 500
        /\ body_of (ResponseTransformer.handle next s)
           = Some (JObj [("error", JStr "Internal Server Error");
                         ("message",
                          JStr "An error occurred while processing your request");
                         ("meta", JObj [("requestId", JStr rid);
                                        ("processingTime", JStr pt);
                                        ("timestamp", JStr ts)])]))
  /\ (unreadable_json (request s) = false ->
      forall s1 fields,
        next s0 = (Normal tt, s1) ->
        Response.body (response s1) = Some (JObj fields) ->
        let pt := processing_time s s1 in
        let ts := Runtime.isoString (runtime s1) in
        let meta := JObj [("requestId", JStr rid);
                          ("processingTime", JStr pt);
                          ("timestamp", JStr ts);
                          ("version", JStr "1.0.0")] in
        completion_of (ResponseTransformer.handle next s) = Normal tt
        /\ status_of (ResponseTransformer.handle next s)
           = Response.status (response s1)
        /\ body_of (ResponseTransformer.handle next s)
           = Some (JObj (Obj.set "meta" meta fields))
        /\ Obj.get "meta" (Obj.set "meta" meta fields) = Some meta
        /\ forall k, k <> "meta" ->
             Obj.get k (Obj.set "meta" meta fields) = Obj.get k fields).
Proof.
  intros rid s0. split; [| split; [| split]].
  - split; [reflexivity|]. unfold s0, id_attached. simpl.
    apply lookup_insert_eq.
  - intros Hu. rewrite Transformer_run, Hu. reflexivity.
  - intros Hu e s1 Hn pt ts. rewrite Transformer_run, Hu. fold s0.
    rewrite Hn. repeat split.
  - intros Hu s1 fields Hn Hb pt ts meta.
    rewrite Transformer_run, Hu. fold s0. rewrite Hn.
    unfold transformed. simpl. rewrite Hb. simpl.
    repeat split.
    + apply Obj_get_set_eq.
    + intros k Hk. apply Obj_get_set_ne. exact Hk.
Qed.

(** * C8: the CORS handler *)

Lemma setCorsHeaders_run (s : State) :
  exists s',
    Cors.setCorsHeaders s = (Normal tt, s')
    /\ request s' = request s
    /\ runtime s' = runtime s
    /\ requests s' = requests s
    /\ Response.status (response s') = Response.status (response s)
    /\ Response.body (response s') = Response.body (response s)
    /\ cors_fixed_headers (Response.headers (response s'))
    /\ allow_origin_written (request s) (Response.headers (response s))
         (Response.headers (response s'))
    /\ forall k, ~ In k global_headers ->
         Response.headers (response s') !! k
         = Response.headers (response s) !! k.
Proof.
  unfold Cors.setCorsHeaders, bind, get_request, gets, response_.header,
    modify, ret, allow_origin_written, cors_fixed_headers.
  simpl.
  destruct (Request.header "origin" (request s)) as [o|] eqn:Ho; simpl;
    [destruct (String.eqb o "") eqn:Ee; simpl;
       [| destruct (JS.includes Cors.allowedOrigins o) eqn:Ei; simpl] |];
    (eexists; split; [reflexivity|]; simpl;
     repeat split; try reflexivity; try header_lookup;
     try (intros k Hk; simpl in Hk; other_header; reflexivity)).
Qed.

Lemma allow_origin_written_insert (req : Request.t)
  (before after : gmap string string) (k v : string) :
  k <> "Access-Control-Allow-Origin" ->
  allow_origin_written req before after ->
  allow_origin_written req before (<[k := v]> after).
Proof.
  unfold allow_origin_written. intros Hk H.
  destruct (Request.header "origin" req) as [o|];
    [destruct (String.eqb o "");
       [| destruct (JS.includes Cors.allowedOrigins o)] |];
    rewrite lookup_insert_ne by exact Hk; exact H.
Qed.

(** C8, as stated, fails for a request whose Origin is outside the static
    set: the downstream chain completes and the handler writes the
    allow-methods and allow-headers headers, but no allow-origin header.
    And for a request without Origin the allow-origin value is [*], which
    is not drawn from the static set. *)
Lemma cors_foreign_origin_gets_no_allow_origin :
  let r := Cors.handle DemoController.public
             (sample_state foreign_origin_request) in
  let r' := Cors.handle DemoController.public
              (sample_state no_origin_request) in
  Request.method foreign_origin_request = "GET"
  /\ completion_of r = Normal tt
  /\ header_of "Access-Control-Allow-Methods" r
     = Some "GET, POST, PUT, DELETE, PATCH, OPTIONS"
  /\ header_of "Access-Control-Allow-Origin" r = None
  /\ header_of "Access-Control-Allow-Origin" r' = Some "*"
  /\ JS.includes Cors.allowedOrigins "*" = false.
Proof. repeat split; vm_compute; reflexivity. Qed.

(** C8 (amended) - on OPTIONS the CORS handler answers 204 with an empty
    body without calling the downstream chain, and writes the preflight
    headers: allow-methods, allow-headers, allow-credentials, max-age, and
    allow-origin by the rule below.  On any other method it calls the
    downstream chain; when that completes it leaves status and body alone
    and writes allow-methods, allow-headers and allow-credentials, and
    allow-origin by the rule: the request's Origin when it is one of the
    three static origins, [*] when the request has no Origin, and nothing
    when the Origin is outside the set.  When the downstream chain throws,
    the handler writes no header. *)
Theorem cors_handling (next : Handler) (s : State) :
  (Request.method (request s) = "OPTIONS" ->
   exists s',
     (forall next', Cors.handle next' s = (Normal tt, s'))
     /\ Response.status (response s') = 204
     /\ Response.body (response s') = Some (JStr "")
     /\ cors_fixed_headers (Response.headers (response s'))
     /\ Response.headers (response s') !! "Access-Control-Max-Age"
        = Some "86400"
     /\ allow_origin_written (request s) (Response.headers (response s))
          (Response.headers (response s')))
  /\ (Request.method (request s) <> "OPTIONS" ->
      (forall e s1, next s = (Thrown e, s1) ->
         Cors.handle next s = (Thrown e, s1))
      /\ (forall s1, next s = (Normal tt, s1) ->
            exists s',
              Cors.handle next s = (Normal tt, s')
              /\ Response.status (response s') = Response.status (response s1)
              /\ Response.body (response s') = Response.body (response s1)
              /\ cors_fixed_headers (Response.headers (response s'))
              /\ allow_origin_written (request s1)
                   (Response.headers (response s1))
                   (Response.headers (response s'))))
  /\ Cors.allowedOrigins
     = ["http://localhost:3000"; "http://localhost:3001";
        "https://yourdomain.com"].
Proof.
  split; [| split; [| reflexivity]].
  - intros Hm.
    destruct (setCorsHeaders_run s)
      as (s' & E & Hreq & _ & _ & Hst & Hbody & (Hme & Hhe & Hcr) & Hao & _).
    eexists. split.
    { intros next'. unfold Cors.handle, bind, get_request, gets. simpl.
      rewrite Hm. simpl. rewrite E.
      unfold response_.header, response_.status, response_.send, modify.
      reflexivity. }
    simpl. split; [reflexivity|]. split; [reflexivity|].
    split; [| split].
    + unfold cors_fixed_headers.
      rewrite !lookup_insert_ne by discriminate. auto.
    + apply lookup_insert_eq.
    + apply allow_origin_written_insert; [discriminate | exact Hao].
  - intros Hm. split.
    + intros e s1 Hn. unfold Cors.handle, bind, get_request, gets. simpl.
      rewrite (eqb_false_of_ne _ _ Hm). rewrite Hn. reflexivity.
    + intros s1 Hn.
      destruct (setCorsHeaders_run s1)
        as (s' & E & _ & _ & _ & Hst & Hbody & Hfix & Hao & _).
      exists s'. split.
      { unfold Cors.handle, bind, get_request, gets. simpl.
        rewrite (eqb_false_of_ne _ _ Hm). rewrite Hn. exact E. }
      auto.
Qed.

(** * The theorems at sample inputs *)

Lemma admin_authorization_witness :
  status_of (Admin.handle DemoController.admin
               (sample_state (sample_get "/demo/admin" ∅))) = 401
  /\ status_of (Admin.handle DemoController.admin
                  (user_attached john
                     (sample_state (sample_get "/demo/admin" ∅)))) = 403
  /\ Admin.handle DemoController.admin
       (user_attached jane (sample_state (sample_get "/demo/admin" ∅)))
     = DemoController.admin
         (admin_attached
            (user_attached jane (sample_state (sample_get "/demo/admin" ∅))))
  /\ status_of (Routes.demo_admin
                  (sample_state (with_bearer "/demo/admin" "user-token-123")))
     = 403
  /\ status_of (Routes.demo_admin
                  (sample_state (with_bearer "/demo/admin" "admin-token-456")))
     = 200.
Proof.
  split; [| split; [| split; [| split]]].
  - destruct (admin_authorization DemoController.admin
                (sample_state (sample_get "/demo/admin" ∅))) as (H & _).
    exact (proj2 (H eq_refl)).
  - destruct (admin_authorization DemoController.admin
                (user_attached john
                   (sample_state (sample_get "/demo/admin" ∅))))
      as (_ & H & _).
    refine (proj2 (H john eq_refl _)). discriminate.
  - destruct (admin_authorization DemoController.admin
                (user_attached jane
                   (sample_state (sample_get "/demo/admin" ∅))))
      as (_ & _ & H & _).
    exact (proj1 (H jane eq_refl eq_refl)).
  - destruct (admin_authorization DemoController.admin
                (sample_state (sample_get "/demo/admin" ∅)))
      as (_ & _ & _ & H & _).
    refine (H sample_runtime (with_bearer "/demo/admin" "user-token-123") ∅
              "Bearer user-token-123" _ _ _);
      [discriminate | vm_compute; reflexivity | vm_compute; reflexivity].
  - destruct (admin_authorization DemoController.admin
                (sample_state (sample_get "/demo/admin" ∅)))
      as (_ & _ & _ & _ & H).
    refine (proj1 (H sample_runtime
                     (with_bearer "/demo/admin" "admin-token-456") ∅
                     "Bearer admin-token-456" _ _ _));
      [discriminate | vm_compute; reflexivity | vm_compute; reflexivity].
Defined.

Lemma strict_limit_eleven_requests_witness :
  let out :=
    (serve_all Routes.demo_rateLimited
       ((at_time 1000, sample_get "/demo/rate-limited" ∅) :: ten_followers)
       ∅).1 in
  length out = 11%nat
  /\ (exists resp,
        out !! 0%nat = Some (Normal tt, resp)
        /\ Response.status resp = 200
        /\ Response.body resp
           = Some (rateLimited_body (sample_get "/demo/rate-limited" ∅))
        /\ Response.headers resp !! "X-RateLimit-Remaining" = Some "9")
  /\ (exists resp,
        out !! 9%nat = Some (Normal tt, resp)
        /\ Response.status resp = 200
        /\ Response.body resp
           = Some (rateLimited_body (sample_get "/demo/rate-limited" ∅))
        /\ Response.headers resp !! "X-RateLimit-Remaining" = Some "0")
  /\ (exists resp,
        out !! 10%nat = Some (Normal tt, resp)
        /\ Response.status resp = 429
        /\ Response.body resp
           = Some (RateLimit.exceeded "203.0.113.7" RateLimit.strict
                     (RequestData.mk 11 61000) 50)
        /\ Response.headers resp !! "Retry-After" = Some "50").
Proof.
  intros out.
  assert (Hall : forall rt req,
            In (rt, req)
              ((at_time 1000, sample_get "/demo/rate-limited" ∅)
               :: ten_followers) ->
            Request.ip req = "203.0.113.7"
            /\ Request.method req <> "OPTIONS").
  { intros rt req Hin. simpl in Hin.
    repeat (destruct Hin as [Hin|Hin];
            [injection Hin as <- <-; split; [reflexivity | discriminate]|]).
    destruct Hin. }
  assert (Hwin : forall rt req, In (rt, req) ten_followers ->
            Runtime.now rt <= Runtime.now (at_time 1000) + 60000).
  { intros rt req Hin. simpl in Hin.
    repeat (destruct Hin as [Hin|Hin];
            [injection Hin as <- <-; simpl; lia|]).
    destruct Hin. }
  pose proof (strict_limit_eleven_requests "203.0.113.7" ∅ (at_time 1000)
                (sample_get "/demo/rate-limited" ∅) ten_followers
                eq_refl) as H.
  rewrite lookup_empty in H.
  destruct (H I Hall Hwin) as (Hlen & Hok & Hlast).
  fold out in Hlen, Hok, Hlast.
  split; [exact Hlen|]. split; [| split].
  - destruct (Hok 0%nat) as (rt & req & resp & Hin & H1 & H2 & H3 & _ & H4);
      [lia|].
    injection Hin as <- <-.
    exists resp. repeat split; assumption.
  - destruct (Hok 9%nat) as (rt & req & resp & Hin & H1 & H2 & H3 & _ & H4);
      [lia|].
    injection Hin as <- <-.
    exists resp. repeat split; assumption.
  - destruct Hlast as (rt11 & req11 & resp & H0 & H1 & H2 & H3 & _ & H4).
    exists resp. injection H0 as <- <-. repeat split; assumption.
Defined.

Lemma rateLimited_leaves_table : leaves_table DemoController.rateLimited.
Proof. intros s0. reflexivity. Qed.

Lemma rateLimited_table_blind : table_blind DemoController.rateLimited.
Proof. intros s0 table. reflexivity. Qed.

Lemma fixed_window_update_witness :
  table_of (RateLimit.handle RateLimit.strict DemoController.rateLimited
              (sample_state (sample_get "/demo/rate-limited" ∅)))
  !! strict_key
  = Some (RequestData.mk 1 1700000060000)
  /\ table_of (RateLimit.handle RateLimit.strict DemoController.rateLimited
                 (state_with_entry (RequestData.mk 5 500)))
     !! strict_key
     = Some (RequestData.mk 1 1700000060000)
  /\ table_of (RateLimit.handle RateLimit.strict DemoController.rateLimited
                 (state_with_entry (RequestData.mk 12 1700000000001)))
     !! strict_key
     = Some (RequestData.mk 13 1700000000001).
Proof.
  split; [| split].
  - destruct (fixed_window_update RateLimit.strict DemoController.rateLimited
                (sample_state (sample_get "/demo/rate-limited" ∅))
                rateLimited_leaves_table) as (H & _).
    apply H. apply lookup_empty.
  - destruct (fixed_window_update RateLimit.strict DemoController.rateLimited
                (state_with_entry (RequestData.mk 5 500))
                rateLimited_leaves_table) as (_ & H & _).
    apply (H (RequestData.mk 5 500)); [apply lookup_singleton_eq | reflexivity].
  - destruct (fixed_window_update RateLimit.strict DemoController.rateLimited
                (state_with_entry (RequestData.mk 12 1700000000001))
                rateLimited_leaves_table) as (_ & _ & H).
    apply (H (RequestData.mk 12 1700000000001));
      [apply lookup_singleton_eq | simpl; lia].
Defined.

Lemma rate_limit_frame_witness :
  let r := RateLimit.handle RateLimit.strict DemoController.rateLimited
             two_client_state in
  status_of r = 429
  /\ table_of r !! other_key = Some (RequestData.mk 3 1700000030000)
  /\ table_of r !! RateLimit.key "203.0.113.7" RateLimit.generous = None
  /\ response
       (RateLimit.handle RateLimit.strict DemoController.rateLimited
          (set_table {[strict_key := RequestData.mk 10 1700000000001]}
             two_client_state)).2
     = response r.2.
Proof.
  intros r.
  destruct (rate_limit_frame RateLimit.strict DemoController.rateLimited
              two_client_state rateLimited_table_blind)
    as (Hk & Hpair & Hread).
  fold r in Hk, Hpair, Hread.
  unfold other_key, strict_key in *.
  split; [vm_compute; reflexivity|]. split; [| split].
  - rewrite (Hpair "198.51.100.4" RateLimit.strict); [| discriminate].
    apply lookup_insert_eq.
  - rewrite (Hpair "203.0.113.7" RateLimit.generous); [| discriminate].
    simpl. rewrite lookup_insert_ne by discriminate.
    apply lookup_singleton_ne. discriminate.
  - destruct (Hread {[strict_key := RequestData.mk 10 1700000000001]})
      as (_ & H & _).
    + simpl. rewrite lookup_insert_ne by discriminate. reflexivity.
    + exact H.
Defined.


Lemma rollout_decision_deterministic_witness :
  bucket_of (request first_visit) = 45
  /\ bucket_of (request second_visit) = 45
  /\ status_of (FeatureFlag.handle "beta-features" DemoController.betaFeature
                  first_visit) = 200
  /\ status_of (FeatureFlag.handle "beta-features" DemoController.create
                  second_visit) = 201.
Proof.
  destruct (rollout_decision_deterministic "beta-features"
              (FeatureFlag.mkFeature true 50 false)
              DemoController.betaFeature DemoController.create
              first_visit second_visit eq_refl eq_refl)
    as (Hb & _ & _ & _ & _ & Hin).
  { vm_compute. reflexivity. }
  assert (H1 : bucket_of (request first_visit) = 45)
    by (vm_compute; reflexivity).
  split; [exact H1|]. split; [rewrite <- Hb; exact H1|].
  destruct (Hin eq_refl) as (Ha & Hc).
  { rewrite H1. reflexivity. }
  split.
  - rewrite Ha. reflexivity.
  - rewrite Hc. reflexivity.
Defined.

Lemma response_transformer_witness :
  status_of (ResponseTransformer.handle DemoController.create
               (sample_state broken_json_request)) = 400
  /\ (status_of (ResponseTransformer.handle DemoController.error
                   (sample_state (sample_get "/demo/error" ∅))) = 500
      /\ body_of (ResponseTransformer.handle DemoController.error
                    (sample_state (sample_get "/demo/error" ∅)))
         = Some (JObj [("error", JStr "Internal Server Error");
                       ("message",
                        JStr "An error occurred while processing your request");
                       ("meta",
                        JObj [("requestId", JStr "req_loyw3v28_k3j9x2m1q");
                              ("processingTime", JStr "2.50ms");
                              ("timestamp",
                               JStr "2023-11-14T22:13:20.000Z")])]))
  /\ (status_of (ResponseTransformer.handle DemoController.public
                   (sample_state (sample_get "/demo/transform" ∅))) = 200
      /\ exists fields,
           body_of (ResponseTransformer.handle DemoController.public
                      (sample_state (sample_get "/demo/transform" ∅)))
           = Some (JObj fields)
           /\ Obj.get "message" fields
              = Some (JStr "🌍 This is a public endpoint")
           /\ Obj.get "meta" fields
              = Some (JObj [("requestId", JStr "req_loyw3v28_k3j9x2m1q");
                            ("processingTime", JStr "2.50ms");
                            ("timestamp", JStr "2023-11-14T22:13:20.000Z");
                            ("version", JStr "1.0.0")])).
Proof.
  split; [| split].
  - destruct (response_transformer DemoController.create
                (sample_state broken_json_request)) as (_ & H & _).
    rewrite H; [reflexivity | vm_compute; reflexivity].
  - destruct (response_transformer DemoController.error
                (sample_state (sample_get "/demo/error" ∅)))
      as (_ & _ & H & _).
    destruct (H eq_refl
                (Error.mk "Intentional error for middleware testing")
                (id_attached (sample_state (sample_get "/demo/error" ∅)))
                eq_refl) as (_ & Hs & Hb).
    split; [exact Hs|]. rewrite Hb. vm_compute. reflexivity.
  - destruct (response_transformer DemoController.public
                (sample_state (sample_get "/demo/transform" ∅)))
      as (_ & _ & _ & H).
    destruct (H eq_refl
                (DemoController.public
                   (id_attached
                      (sample_state (sample_get "/demo/transform" ∅)))).2
                _ eq_refl eq_refl) as (_ & Hs & Hb & Hmeta & Hother).
    split; [rewrite Hs; reflexivity|].
    eexists. split; [exact Hb|]. split.
    + rewrite Hother by discriminate. reflexivity.
    + rewrite Hmeta. vm_compute. reflexivity.
Defined.

Lemma cors_handling_witness :
  (exists s',
     Cors.handle DemoController.create (sample_state preflight_request)
     = (Normal tt, s')
     /\ Response.status (response s') = 204
     /\ Response.headers (response s') !! "Access-Control-Allow-Origin"
        = Some "http://localhost:3000")
  /\ (exists s',
        Cors.handle DemoController.public
          (sample_state foreign_origin_request) = (Normal tt, s')
        /\ Response.status (response s') = 200
        /\ Response.headers (response s') !! "Access-Control-Allow-Methods"
           = Some "GET, POST, PUT, DELETE, PATCH, OPTIONS"
        /\ Response.headers (response s') !! "Access-Control-Allow-Origin"
           = None)
  /\ Cors.handle DemoController.error (sample_state no_origin_request)
     = (Thrown (Error.mk "Intentional error for middleware testing"),
        sample_state no_origin_request).
Proof.
  split; [| split].
  - destruct (cors_handling DemoController.create
                (sample_state preflight_request)) as (H & _).
    destruct (H eq_refl) as (s' & Hrun & Hst & _ & _ & _ & Hao).
    exists s'. split; [apply Hrun|]. split; [exact Hst|]. exact Hao.
  - destruct (cors_handling DemoController.public
                (sample_state foreign_origin_request)) as (_ & H & _).
    destruct H as (_ & H); [discriminate|].
    destruct (H (DemoController.public
                   (sample_state foreign_origin_request)).2 eq_refl)
      as (s' & Hrun & Hst & _ & (Hme & _) & Hao).
    exists s'. split; [exact Hrun|]. split; [rewrite Hst; reflexivity|].
    split; [exact Hme|].
    unfold allow_origin_written in Hao. simpl in Hao.
    rewrite Hao. apply lookup_empty.
  - destruct (cors_handling DemoController.error
                (sample_state no_origin_request)) as (_ & H & _).
    destruct H as (H & _); [discriminate|].
    apply H. reflexivity.
Defined.

(** * Further properties *)

(** ** The authenticator on the protected endpoint *)

Lemma incoming_supplied_token rt req table :
  supplied_token (request (incoming rt req table)) = supplied_token req.
Proof. reflexivity. Qed.

(** X1 - the protected endpoint, for every request that is not a
    preflight: with a token that cleans to a valid one it completes with
    status 200 and a body whose [user] is the name, e-mail and role of
    that token's mock user; with any other token it answers 401 "Invalid
    token", and with none (or an empty one) 401 "Authentication
    required". *)
Theorem protected_endpoint (rt : Runtime.t) (req : Request.t)
  (table : gmap string RequestData.t) :
  Request.method req <> "OPTIONS" ->
  let r := Routes.demo_protected (incoming rt req table) in
  match supplied_token req with
  | Some token =>
      if JS.includes Auth.validTokens (clean_token token) then
        completion_of r = Normal tt
        /\ status_of r = 200
        /\ exists u fields,
             Auth.getUserFromToken (clean_token token) = Auth.Found u
             /\ body_of r = Some (JObj fields)
             /\ Obj.get "user" fields = Some (user_json u)
      else
        status_of r = 401
        /\ body_of r
           = Some (if String.eqb token "" then Auth.missingToken
                   else Auth.invalidToken)
  | None => status_of r = 401 /\ body_of r = Some Auth.missingToken
  end.
Proof.
  intros Hm r.
  pose proof (global_frame [Auth.handle] DemoController.protected
                (incoming rt req table) Hm) as F.
  fold Routes.demo_protected in F. fold r in F.
  destruct F as [Fc _ _ Fs Fb _]. unfold chain in *. simpl foldr in *.
  rewrite Fc, Fs, Fb. clear Fc Fs Fb.
  destruct (supplied_token req) as [token|] eqn:Ht.
  - destruct (JS.includes Auth.validTokens (clean_token token)) eqn:Hv.
    + destruct (valid_token_user _ Hv) as (u & Hu & _).
      rewrite (Auth_valid _ (incoming rt req table) token u Ht
                 (truthy_clean_token _ Hv) Hv Hu).
      split; [reflexivity|]. split; [reflexivity|].
      exists u. eexists. split; [exact Hu|]. split; reflexivity.
    + destruct (String.eqb_spec token "") as [->|Hne].
      * rewrite (Auth_missing _ (incoming rt req table));
          [split; reflexivity | ].
        rewrite incoming_supplied_token, Ht. reflexivity.
      * rewrite (Auth_invalid _ (incoming rt req table) token Ht Hne Hv).
        split; reflexivity.
  - rewrite (Auth_missing _ (incoming rt req table));
      [split; reflexivity | ].
    rewrite incoming_supplied_token, Ht. reflexivity.
Qed.

(** X2 - the Authorization header takes precedence over the [token]
    parameter: a non-empty header that is not valid is answered 401
    whatever the parameter holds, and the parameter is used only when the
    header is absent or empty. *)
Theorem auth_header_precedence (next : Handler) (s : State) :
  (forall h, Request.header "authorization" (request s) = Some h ->
     h <> "" ->
     JS.includes Auth.validTokens (clean_token h) = false ->
     Auth.handle next s = (Normal tt, answered 401 Auth.invalidToken s))
  /\ ((Request.header "authorization" (request s) = None
       \/ Request.header "authorization" (request s) = Some "") ->
      forall p, Request.input "token" (request s) = Some p ->
        JS.includes Auth.validTokens (clean_token p) = true ->
        exists u,
          Auth.getUserFromToken (clean_token p) = Auth.Found u
          /\ Auth.handle next s = next (user_attached u s)).
Proof.
  split.
  - intros h Hh Hne Hv. apply (Auth_invalid next s h); try assumption.
    unfold supplied_token, JS.or. rewrite Hh. simpl.
    rewrite (eqb_false_of_ne _ _ Hne). reflexivity.
  - intros Hh p Hp Hv.
    destruct (valid_token_user _ Hv) as (u & Hu & _).
    exists u. split; [exact Hu|].
    apply (Auth_valid next s p u).
    + unfold supplied_token, JS.or. destruct Hh as [-> | ->]; exact Hp.
    + exact (truthy_clean_token _ Hv).
    + exact Hv.
    + exact Hu.
Qed.

Lemma replace_bearer_prefix (t : string) :
  JS.replace "Bearer " "" ("Bearer " +:+ t) = t.
Proof. destruct t; reflexivity. Qed.

(** X3 - the scheme of the Authorization header: [Bearer t] is validated
    as [t], for every [t], so a valid token is accepted with or without
    the scheme; the scheme is matched case-sensitively, and a valid token
    sent as [bearer t] is answered 401. *)
Theorem auth_bearer_scheme (next : Handler) (s : State) (t : string) :
  In t Auth.validTokens ->
  exists u,
    Auth.getUserFromToken t = Auth.Found u
    /\ (supplied_token (request s) = Some ("Bearer " +:+ t)
        \/ supplied_token (request s) = Some t ->
        Auth.handle next s = next (user_attached u s))
    /\ (supplied_token (request s) = Some ("bearer " +:+ t) ->
        Auth.handle next s = (Normal tt, answered 401 Auth.invalidToken s)).
Proof.
  intros Hin. pose proof Hin as Hv. apply includes_In in Hv.
  assert (Hbare : JS.replace "Bearer " "" t = t).
  { simpl in Hin. destruct Hin as [<- | [<- | [<- | []]]]; reflexivity. }
  destruct (valid_token_user _ Hv) as (u & Hu & _).
  exists u. split; [exact Hu|].
  split.
  - intros [Ht | Ht].
    + apply (Auth_valid next s _ u Ht); rewrite ?replace_bearer_prefix;
        try assumption. discriminate.
    + apply (Auth_valid next s _ u Ht); rewrite ?Hbare;
        try assumption.
      apply truthy_clean_token. rewrite Hbare. exact Hv.
  - intros Ht. apply (Auth_invalid next s _ Ht); [discriminate|].
    simpl in Hin. destruct Hin as [<- | [<- | [<- | []]]]; reflexivity.
Qed.

(** ** The rate limiter, tier by tier *)

Lemma limit_at_least_ten (limitType : RateLimit.LimitType) :
  10 <= limit_of limitType.
Proof. destruct limitType; unfold limit_of; simpl; lia. Qed.

(** X4 - the first request of a window is always admitted, under every
    tier: when the table holds no entry for the key, or one whose reset
    time has passed (however high its count), the downstream chain is
    called, the entry becomes count 1, and [X-RateLimit-Remaining] is the
    tier's limit less one. *)
Theorem fresh_window_admits (limitType : RateLimit.LimitType)
  (next : Handler) (s : State) :
  let k := RateLimit.key (Request.ip (request s)) limitType in
  let now := Runtime.now (runtime s) in
  let d := RequestData.mk 1 (now + window_of limitType) in
  match requests s !! k with
  | Some d0 => now > RequestData.resetTime d0
  | None => True
  end ->
  RateLimit.handle limitType next s = next (admitted limitType d s)
  /\ requests (admitted limitType d s) !! k = Some d
  /\ Response.headers (response (admitted limitType d s))
     !! "X-RateLimit-Remaining"
     = Some (JS.toString (limit_of limitType - 1))
  /\ Response.status (response (admitted limitType d s))
     = Response.status (response s).
Proof.
  intros k now d Hfresh.
  assert (Hd : window_entry limitType now (requests s !! k) = d).
  { unfold window_entry, d, window_of.
    destruct (requests s !! k) as [d0|]; [|reflexivity].
    destruct (Z.gtb_spec now (RequestData.resetTime d0)); [reflexivity|lia]. }
  split; [| split; [| split]].
  - rewrite RateLimit_run. fold k. fold now. rewrite Hd.
    pose proof (limit_at_least_ten limitType) as Hl. unfold limit_of in Hl.
    simpl RequestData.count.
    destruct (Z.gtb_spec 1
               (RateLimit.limit_requests (RateLimit.limits limitType)));
      [lia | reflexivity].
  - unfold admitted. simpl. apply lookup_insert_eq.
  - unfold admitted, limit_headers. simpl.
    rewrite lookup_insert_ne by discriminate.
    rewrite lookup_insert_eq. reflexivity.
  - reflexivity.
Qed.

Lemma ceil_div_1000_bounds (a : Z) :
  1000 * (JS.ceil_div a 1000 - 1) < a <= 1000 * JS.ceil_div a 1000.
Proof.
  unfold JS.ceil_div.
  pose proof (Z.div_mod (- a) 1000 ltac:(lia)) as H1.
  pose proof (Z.mod_pos_bound (- a) 1000 ltac:(lia)) as H2.
  lia.
Qed.

(** X5 - inside a window (an entry is stored and its reset time has not
    passed) the stored count decides: below the tier's limit the request
    is admitted with [X-RateLimit-Remaining] = limit - count - 1; at or
    above it the request is answered 429 without calling the downstream
    chain, is still counted, and [Retry-After] is the time left in the
    window in seconds, rounded up, never negative. *)
Theorem in_window_decision (limitType : RateLimit.LimitType)
  (next : Handler) (s : State) (d0 : RequestData.t) :
  let k := RateLimit.key (Request.ip (request s)) limitType in
  let now := Runtime.now (runtime s) in
  let d := RequestData.mk (RequestData.count d0 + 1)
             (RequestData.resetTime d0) in
  requests s !! k = Some d0 ->
  now <= RequestData.resetTime d0 ->
  (RequestData.count d0 < limit_of limitType ->
   RateLimit.handle limitType next s = next (admitted limitType d s)
   /\ Response.headers (response (admitted limitType d s))
      !! "X-RateLimit-Remaining"
      = Some (JS.toString (limit_of limitType - RequestData.count d0 - 1)))
  /\ (limit_of limitType <= RequestData.count d0 ->
      let resetIn := JS.ceil_div (RequestData.resetTime d0 - now) 1000 in
      RateLimit.handle limitType next s = (Normal tt, limited limitType d s)
      /\ status_of (RateLimit.handle limitType next s) = 429
      /\ header_of "Retry-After" (RateLimit.handle limitType next s)
         = Some (JS.toString resetIn)
      /\ header_of "X-RateLimit-Remaining" (RateLimit.handle limitType next s)
         = Some "0"
      /\ table_of (RateLimit.handle limitType next s) !! k = Some d
      /\ 0 <= resetIn
      /\ 1000 * (resetIn - 1) < RequestData.resetTime d0 - now
         <= 1000 * resetIn).
Proof.
  intros k now d Hk Hnow.
  assert (Hd : window_entry limitType now (requests s !! k) = d).
  { unfold window_entry, d. rewrite Hk.
    destruct (Z.gtb_spec now (RequestData.resetTime d0)); [lia|reflexivity]. }
  split.
  - intros Hlt. split.
    + rewrite RateLimit_run. fold k. fold now. rewrite Hd.
      simpl RequestData.count. unfold limit_of in Hlt.
      destruct (Z.gtb_spec (RequestData.count d0 + 1)
                 (RateLimit.limit_requests (RateLimit.limits limitType)));
        [lia | reflexivity].
    + unfold admitted, limit_headers. simpl.
      rewrite lookup_insert_ne by discriminate.
      rewrite lookup_insert_eq. unfold limit_of, d. simpl.
      do 2 f_equal. lia.
  - intros Hge resetIn.
    assert (Hrun : RateLimit.handle limitType next s
                   = (Normal tt, limited limitType d s)).
    { rewrite RateLimit_run. fold k. fold now. rewrite Hd.
      simpl RequestData.count. unfold limit_of in Hge.
      destruct (Z.gtb_spec (RequestData.count d0 + 1)
                 (RateLimit.limit_requests (RateLimit.limits limitType)));
        [reflexivity | lia]. }
    pose proof (ceil_div_1000_bounds (RequestData.resetTime d0 - now)) as Hb.
    fold resetIn in Hb.
    split; [exact Hrun|]. rewrite Hrun.
    split; [reflexivity|].
    split; [unfold header_of, limited, answered, limit_headers; simpl;
            rewrite lookup_insert_eq; reflexivity|].
    split; [unfold header_of, limited, answered, limit_headers; simpl;
            rewrite !lookup_insert_ne by discriminate;
            rewrite lookup_insert_eq; reflexivity|].
    split; [unfold table_of, limited, answered; simpl;
            apply lookup_insert_eq|].
    split; [lia | exact Hb].
Qed.

(** X6 - the limiter keeps the table well-formed and its headers in
    range: if every stored entry has counted at least one request, so
    does every entry after the request, and an admitted request's
    [X-RateLimit-Remaining] is a number from 0 to limit - 1. *)
Theorem limiter_keeps_counts (limitType : RateLimit.LimitType)
  (next : Handler) (s : State) :
  leaves_table next ->
  counted (requests s) ->
  let k := RateLimit.key (Request.ip (request s)) limitType in
  let d := window_entry limitType (Runtime.now (runtime s))
             (requests s !! k) in
  counted (table_of (RateLimit.handle limitType next s))
  /\ 1 <= RequestData.count d
  /\ (RequestData.count d <= limit_of limitType ->
      RateLimit.handle limitType next s = next (admitted limitType d s)
      /\ exists remaining,
           Response.headers (response (admitted limitType d s))
           !! "X-RateLimit-Remaining" = Some (JS.toString remaining)
           /\ 0 <= remaining < limit_of limitType).
Proof.
  intros Hn Hc k d.
  assert (Hd : 1 <= RequestData.count d).
  { unfold d, window_entry.
    destruct (requests s !! k) as [d0|] eqn:Hk; [|simpl; lia].
    destruct (_ >? _); simpl; [lia|]. specialize (Hc k d0 Hk). lia. }
  split; [| split; [exact Hd|]].
  - rewrite (RateLimit_table limitType next s Hn). fold k. fold d.
    intros k' d' Hk'.
    destruct (decide (k = k')) as [<-|Hne].
    + rewrite lookup_insert_eq in Hk'. injection Hk' as <-. exact Hd.
    + rewrite lookup_insert_ne in Hk' by exact Hne. exact (Hc k' d' Hk').
  - intros Hle. split.
    + rewrite RateLimit_run. fold k. fold d. unfold limit_of in Hle.
      destruct (Z.gtb_spec (RequestData.count d)
                 (RateLimit.limit_requests (RateLimit.limits limitType)));
        [lia | reflexivity].
    + exists (limit_of limitType - RequestData.count d). split; [|lia].
      unfold admitted, limit_headers. simpl.
      rewrite lookup_insert_ne by discriminate.
      rewrite lookup_insert_eq. reflexivity.
Qed.

Lemma limiter_served (limitType : RateLimit.LimitType) (next : Handler)
  (rt : Runtime.t) (req : Request.t) (table : gmap string RequestData.t) :
  table_blind next -> keeps_status next ->
  let k := RateLimit.key (Request.ip req) limitType in
  let d := window_entry limitType (Runtime.now rt) (table !! k) in
  exists resp,
    serve (RateLimit.handle limitType next) rt req table
    = (Normal tt, resp, <[k := d]> table)
    /\ Response.status resp
       = if RequestData.count d >? limit_of limitType then 429 else 200.
Proof.
  intros Hb Hs k d. rewrite serve_unfold.
  pose proof (table_blind_leaves _ Hb) as Hn.
  rewrite (RateLimit_table limitType next (incoming rt req table) Hn).
  rewrite RateLimit_run.
  simpl request. simpl runtime. simpl requests.
  change (Request.ip (Request.with_ctx Ctx.empty req)) with (Request.ip req).
  fold k. fold d. unfold limit_of.
  destruct (RequestData.count d
            >? RateLimit.limit_requests (RateLimit.limits limitType)).
  - eexists. split; reflexivity.
  - destruct (Hs (admitted limitType d (incoming rt req table))) as [Hc Hst].
    unfold completion_of, status_of in *. rewrite Hc.
    eexists. split; [reflexivity|]. rewrite Hst. reflexivity.
Qed.

(** X7 - the quota of a tier: for requests from one IP that all arrive
    before the reset time of the entry stored for their key, with [c]
    requests counted so far, request number i + 1 is admitted (status 200
    from a downstream chain that sets none) exactly when c + i + 1 does
    not exceed the tier's limit and is answered 429 otherwise; admitted
    or not, every request is counted, and the reset time stays. *)
Theorem tier_quota (limitType : RateLimit.LimitType) (next : Handler)
  (a : string) (r : Z) :
  table_blind next -> keeps_status next ->
  forall (inputs : list (Runtime.t * Request.t))
         (table : gmap string RequestData.t) (c : Z),
    table !! RateLimit.key a limitType = Some (RequestData.mk c r) ->
    (forall rt req, In (rt, req) inputs ->
       Request.ip req = a /\ Runtime.now rt <= r) ->
    let out := serve_all (RateLimit.handle limitType next) inputs table in
    out.2 !! RateLimit.key a limitType
    = Some (RequestData.mk (c + Z.of_nat (length inputs)) r)
    /\ forall (i : nat) rt req, inputs !! i = Some (rt, req) ->
         exists resp,
           out.1 !! i = Some (Normal tt, resp)
           /\ Response.status resp
              = if c + Z.of_nat i + 1 >? limit_of limitType
                then 429 else 200.
Proof.
  intros Hb Hs.
  induction inputs as [|[rt0 req0] rest IH]; intros table c Hk Hall out.
  - split.
    + unfold out. simpl. rewrite Hk. do 2 f_equal. lia.
    + intros i rt req Hi. destruct i; discriminate.
  - destruct (Hall rt0 req0 (or_introl eq_refl)) as (Hip & Hnow).
    destruct (limiter_served limitType next rt0 req0 table Hb Hs)
      as (resp0 & Hrun & Hst).
    rewrite Hip, Hk in Hrun, Hst. unfold window_entry in Hrun, Hst.
    simpl RequestData.resetTime in Hrun, Hst.
    destruct (Z.gtb_spec (Runtime.now rt0) r) as [Hlt|_]; [lia|].
    simpl RequestData.count in Hrun, Hst.
    specialize (IH (<[RateLimit.key a limitType
                      := RequestData.mk (c + 1) r]> table) (c + 1)
                  (lookup_insert_eq _ _ _)
                  (fun rt' req' H => Hall rt' req' (or_intror H))).
    unfold out. simpl serve_all. rewrite Hrun.
    destruct (serve_all (RateLimit.handle limitType next) rest
                (<[RateLimit.key a limitType
                   := RequestData.mk (c + 1) r]> table))
      as [tail final] eqn:Htail.
    simpl in IH. destruct IH as (Hfinal & Hout).
    split.
    + simpl. rewrite Hfinal. do 2 f_equal. lia.
    + intros [|j] rt req Hi.
      * exists resp0. split; [reflexivity|].
        replace (c + Z.of_nat 0 + 1) with (c + 1) by lia. exact Hst.
      * simpl in Hi. destruct (Hout j rt req Hi) as (resp & Ho & Hresp).
        exists resp. split; [exact Ho|].
        replace (c + Z.of_nat (S j) + 1) with (c + 1 + Z.of_nat j + 1)
          by lia.
        exact Hresp.
Qed.

(** ** The rollout hash *)

Lemma toInt32_shift (z k : Z) : JS.toInt32 (z + 2 ^ 32 * k) = JS.toInt32 z.
Proof.
  unfold JS.toInt32.
  replace (z + 2 ^ 32 * k + 2 ^ 31) with (z + 2 ^ 31 + k * 2 ^ 32) by lia.
  rewrite Z.mod_add by lia. reflexivity.
Qed.

Lemma toInt32_multiple (z : Z) : exists k, JS.toInt32 z = z + 2 ^ 32 * k.
Proof.
  unfold JS.toInt32. exists (- ((z + 2 ^ 31) / 2 ^ 32)).
  pose proof (Z.div_mod (z + 2 ^ 31) (2 ^ 32) ltac:(lia)). lia.
Qed.

Lemma toInt32_range (z : Z) : - 2 ^ 31 <= JS.toInt32 z < 2 ^ 31.
Proof.
  unfold JS.toInt32.
  pose proof (Z.mod_pos_bound (z + 2 ^ 31) (2 ^ 32) ltac:(lia)). lia.
Qed.

Lemma hashStep_31 (h c : Z) :
  FeatureFlag.hashStep h c = JS.toInt32 (31 * h + c).
Proof.
  unfold FeatureFlag.hashStep, JS.band, JS.shl.
  rewrite Z.land_diag. rewrite Z.shiftl_mul_pow2 by lia.
  destruct (toInt32_multiple h) as [k1 H1].
  destruct (toInt32_multiple (JS.toInt32 h * 2 ^ 5)) as [k2 H2].
  destruct (toInt32_multiple
              (JS.toInt32 (JS.toInt32 h * 2 ^ 5) - h + c)) as [k3 H3].
  rewrite H3, H2, H1.
  replace ((h + 2 ^ 32 * k1) * 2 ^ 5 + 2 ^ 32 * k2 - h + c + 2 ^ 32 * k3)
    with (31 * h + c + 2 ^ 32 * (32 * k1 + k2 + k3)) by lia.
  apply toInt32_shift.
Qed.

Lemma fold_left_step {A B : Type} (f : A -> B -> A) (x : B) (l : list B)
  (a : A) :
  fold_left f (x :: l) a = fold_left f l (f a x).
Proof. reflexivity. Qed.

Lemma fold_hashStep (codes : list Z) :
  forall h h', h = JS.toInt32 h' ->
    fold_left FeatureFlag.hashStep codes h
    = JS.toInt32 (fold_left (fun h c => 31 * h + c) codes h').
Proof.
  induction codes as [|c rest IH]; intros h h' Hh.
  - exact Hh.
  - rewrite !fold_left_step. apply IH.
    rewrite hashStep_31, Hh.
    destruct (toInt32_multiple h') as [k Hk]. rewrite Hk.
    replace (31 * (h' + 2 ^ 32 * k) + c)
      with (31 * h' + c + 2 ^ 32 * (31 * k)) by lia.
    apply toInt32_shift.
Qed.

(** X8 - the loop of [getUserRolloutId] computes the polynomial string
    hash with multiplier 31 of the seed (the IP followed by the
    User-Agent, or by nothing when the header is absent or empty), wrapped
    to a signed 32-bit integer: [(hash << 5) - hash] is [31 * hash].  The
    rollout id is the absolute value of that, so it lies between 0 and
    2^31, both included: 2^31 is what [Math.abs] gives for the one hash
    -2^31. *)
Theorem rollout_id_is_poly31 (req : Request.t) :
  FeatureFlag.getUserRolloutId req
  = Z.abs (JS.toInt32 (poly31 (JS.charCodes (rollout_seed req))))
  /\ 0 <= FeatureFlag.getUserRolloutId req <= 2 ^ 31
  /\ (forall h c, FeatureFlag.hashStep h c = JS.toInt32 (31 * h + c)).
Proof.
  assert (H : FeatureFlag.getUserRolloutId req
              = Z.abs (JS.toInt32 (poly31 (JS.charCodes (rollout_seed req))))).
  { unfold FeatureFlag.getUserRolloutId, poly31, rollout_seed.
    f_equal. apply fold_hashStep. reflexivity. }
  split; [exact H|]. split; [| exact hashStep_31].
  rewrite H.
  pose proof (toInt32_range (poly31 (JS.charCodes (rollout_seed req)))).
  lia.
Qed.

(** ** The global middleware *)

Lemma SecurityHeaders_run (h : Handler) (s : State) :
  SecurityHeaders.handle h s
  = match h s with
    | (Normal _, s1) => (Normal tt, secured s1)
    | (Thrown e, s1) => (Thrown e, s1)
    end.
Proof.
  unfold SecurityHeaders.handle, bind, response_.header, modify.
  destruct (h s) as [[[]|e] s1]; reflexivity.
Qed.

Lemma secured_headers (s1 : State) (k v : string) :
  In (k, v) security_headers ->
  Response.headers (response (secured s1)) !! k = Some v.
Proof.
  intros Hin. unfold secured. simpl in *.
  repeat (destruct Hin as [Hin|Hin];
          [injection Hin as <- <-; header_lookup|]).
  destruct Hin.
Qed.

Lemma setCorsHeaders_frame (s : State) (k : string) :
  ~ In k cors_headers ->
  header_of k (Cors.setCorsHeaders s) = Response.headers (response s) !! k.
Proof.
  intros Hk. unfold header_of, Cors.setCorsHeaders, bind, get_request, gets,
    response_.header, modify, ret.
  simpl.
  destruct (Request.header "origin" (request s)) as [o|]; simpl;
    [destruct (negb (o =? "") && JS.includes Cors.allowedOrigins o)%bool;
       simpl; [| destruct (negb (negb (o =? ""))); simpl] |];
    simpl in Hk; other_header; reflexivity.
Qed.

Lemma global_stack_completed (h : Handler) (s s1 : State) :
  Request.method (request s) <> "OPTIONS" ->
  h s = (Normal tt, s1) ->
  let r := chain Kernel.global h s in
  completion_of r = Normal tt
  /\ status_of r = Response.status (response s1)
  /\ body_of r = Response.body (response s1)
  /\ table_of r = requests s1
  /\ (forall k v, In (k, v) security_headers -> header_of k r = Some v)
  /\ cors_fixed_headers (Response.headers (response r.2)).
Proof.
  intros Hm Hh r.
  destruct (setCorsHeaders_run (secured s1))
    as (s' & E & _ & _ & Ht & Hst & Hb & Hfix & _ & _).
  pose proof (fun k => setCorsHeaders_frame (secured s1) k) as Hfr.
  unfold header_of in Hfr. rewrite E in Hfr.
  assert (Hrun : r = (Normal tt, s')).
  { unfold r, chain, Kernel.global. simpl foldr.
    unfold RequestLogger.handle. rewrite then_ret_tt.
    unfold Cors.handle. unfold bind at 1. unfold get_request, gets.
    cbv beta iota. rewrite (eqb_false_of_ne _ _ Hm).
    unfold bind. rewrite SecurityHeaders_run, Hh. exact E. }
  rewrite Hrun.
  unfold completion_of, status_of, body_of, table_of, header_of.
  cbn [fst snd].
  split; [reflexivity|]. split; [exact Hst|]. split; [exact Hb|].
  split; [exact Ht|]. split; [| exact Hfix].
  intros k v Hin. rewrite Hfr.
  - exact (secured_headers s1 k v Hin).
  - simpl in Hin. simpl.
    repeat (destruct Hin as [Hin|Hin];
            [injection Hin as <- <-; intuition discriminate|]).
    destruct Hin.
Qed.

(** X9 - around any route, for a request that is not a preflight: when
    the rest of the chain completes, the response carries the eight
    security headers with their fixed values (whatever the chain wrote
    under those names) and the allow-methods, allow-headers and
    allow-credentials CORS headers, and status and body are as the chain
    left them; when it throws, the exception passes through and no
    header is written. *)
Theorem global_stack_headers (h : Handler) (s : State) :
  Request.method (request s) <> "OPTIONS" ->
  (forall s1, h s = (Normal tt, s1) ->
     let r := chain Kernel.global h s in
     completion_of r = Normal tt
     /\ status_of r = Response.status (response s1)
     /\ body_of r = Response.body (response s1)
     /\ (forall k v, In (k, v) security_headers -> header_of k r = Some v)
     /\ cors_fixed_headers (Response.headers (response r.2)))
  /\ (forall e s1, h s = (Thrown e, s1) ->
        chain Kernel.global h s = (Thrown e, s1)).
Proof.
  intros Hm. split.
  - intros s1 Hh r.
    destruct (global_stack_completed h s s1 Hm Hh)
      as (H1 & H2 & H3 & _ & H5 & H6).
    repeat split; try assumption; apply H6.
  - intros e s1 Hh. unfold chain, Kernel.global. simpl foldr.
    unfold RequestLogger.handle. rewrite then_ret_tt.
    unfold Cors.handle. unfold bind at 1. unfold get_request, gets.
    cbv beta iota. rewrite (eqb_false_of_ne _ _ Hm).
    unfold bind. rewrite SecurityHeaders_run, Hh. reflexivity.
Qed.

(** ** Routes *)

Lemma Auth_rejects (next : Handler) (s : State) :
  no_valid_token (request s) ->
  exists b, Auth.handle next s = (Normal tt, answered 401 b s).
Proof.
  unfold no_valid_token. intros Hno.
  destruct (JS.truthy (supplied_token (request s))) eqn:Ht.
  - destruct (truthy_Some _ Ht) as (token & Hs & Hne).
    rewrite Hs in Hno. eexists.
    exact (Auth_invalid next s token Hs Hne Hno).
  - eexists. exact (Auth_missing next s Ht).
Qed.

(** X11 - the public endpoint answers every request that is not a
    preflight with status 200 and its own body (the request's method and
    URL inside), whatever headers or token the request carries; it
    attaches nothing to the context, leaves the rate-limit table alone,
    and the response carries the security headers. *)
Theorem public_endpoint (rt : Runtime.t) (req : Request.t)
  (table : gmap string RequestData.t) :
  Request.method req <> "OPTIONS" ->
  let r := Routes.demo_public (incoming rt req table) in
  completion_of r = Normal tt
  /\ status_of r = 200
  /\ body_of r
     = Some (JObj [("message", JStr "🌍 This is a public endpoint");
                   ("description", JStr "Only global middleware runs here");
                   ("data", JObj [("method", JStr (Request.method req));
                                  ("url", JStr (Request.url req));
                                  ("timestamp",
                                   JStr (Runtime.isoString rt))])])
  /\ table_of r = table
  /\ ctx_of r = Ctx.empty
  /\ (forall k v, In (k, v) security_headers -> header_of k r = Some v).
Proof.
  intros Hm r.
  pose proof (global_frame [] DemoController.public
                (incoming rt req table) Hm) as F.
  fold Routes.demo_public in F. fold r in F.
  destruct F as [Fc Fr Ft Fs Fb _].
  assert (Hr : r = chain Kernel.global DemoController.public
                     (incoming rt req table)).
  { unfold r, Routes.demo_public, Routes.route. rewrite app_nil_r.
    reflexivity. }
  destruct (global_stack_completed DemoController.public
              (incoming rt req table) _ Hm eq_refl)
    as (_ & _ & _ & _ & Hsec & _).
  rewrite <- Hr in Hsec.
  unfold ctx_of. rewrite Fc, Fr, Ft, Fs, Fb.
  repeat split. exact Hsec.
Qed.

Lemma transformer_on_error (s : State) :
  unreadable_json (request s) = false ->
  ResponseTransformer.handle DemoController.error s
  = (Normal tt,
     answered 500
       (ResponseTransformer.internalError (request_id s)
          (processing_time s (id_attached s))
          (Runtime.isoString (runtime s)))
       (timed s (id_attached s))).
Proof.
  intros Hu. rewrite Transformer_run, Hu. reflexivity.
Qed.

(** X12 - the error endpoint: the exception its handler throws never
    leaves the route.  Every request that is not a preflight and whose
    body can be read completes with status 500 and the generic envelope;
    the request id in the envelope's [meta] is the one sent in the
    [X-Request-ID] header, and the exception's own message appears
    nowhere in the body. *)
Theorem error_endpoint (rt : Runtime.t) (req : Request.t)
  (table : gmap string RequestData.t) :
  Request.method req <> "OPTIONS" ->
  unreadable_json req = false ->
  let r := Routes.demo_error (incoming rt req table) in
  completion_of r = Normal tt
  /\ status_of r = 500
  /\ header_of "X-Request-ID" r = Some (request_id_of rt)
  /\ body_of r
     = Some (JObj [("error", JStr "Internal Server Error");
                   ("message",
                    JStr "An error occurred while processing your request");
                   ("meta",
                    JObj [("requestId", JStr (request_id_of rt));
                          ("processingTime", JStr (processing_time_of rt));
                          ("timestamp", JStr (Runtime.isoString rt))])]).
Proof.
  intros Hm Hu r.
  pose proof (global_frame [ResponseTransformer.handle] DemoController.error
                (incoming rt req table) Hm) as F.
  fold Routes.demo_error in F. fold r in F.
  destruct F as [Fc _ _ Fs Fb Fh].
  rewrite Fc, Fs, Fb, Fh by (simpl; intuition discriminate).
  unfold chain. simpl foldr.
  rewrite (transformer_on_error (incoming rt req table) Hu).
  split; [reflexivity|]. split; [reflexivity|]. split; [| reflexivity].
  unfold header_of, answered, timed, id_attached. simpl.
  rewrite !lookup_insert_ne by discriminate.
  apply lookup_insert_eq.
Qed.

Lemma premium_configured :
  FeatureFlag.lookup "premium-features" FeatureFlag.features
  = Some (FeatureFlag.mkFeature true 100 true).
Proof. reflexivity. Qed.

(** X13 - the premium dashboard, where authenticator, feature gate and
    transformer are chained in that order, for a request that is not a
    preflight and whose body can be read.  With a valid token it
    completes with status 200; the handler sees the user the
    authenticator attached and the flag the gate attached (access level is
    the user's role, feature access is true, no device); the body carries
    the transformer's [meta] and the response the gate's [X-Feature-Flag]
    and the transformer's [X-Request-ID].  Without a valid token the
    authenticator answers 401 before gate and transformer run: no
    request id, no flag header. *)
Theorem premium_dashboard_route (rt : Runtime.t) (req : Request.t)
  (table : gmap string RequestData.t) :
  Request.method req <> "OPTIONS" ->
  unreadable_json req = false ->
  let r := Routes.premium_dashboard (incoming rt req table) in
  (forall token,
     supplied_token req = Some token ->
     JS.includes Auth.validTokens (clean_token token) = true ->
     exists u,
       Auth.getUserFromToken (clean_token token) = Auth.Found u
       /\ completion_of r = Normal tt
       /\ status_of r = 200
       /\ header_of "X-Feature-Flag" r = Some "premium-features"
       /\ header_of "X-Request-ID" r = Some (request_id_of rt)
       /\ exists fields,
            body_of r = Some (JObj fields)
            /\ Obj.get "combined_result" fields
               = Some (JObj [("access_level", JStr (User.role u));
                             ("device_optimization", JStr "unknown");
                             ("feature_access", JBool true)])
            /\ Obj.get "meta" fields
               = Some (JObj [("requestId", JStr (request_id_of rt));
                             ("processingTime",
                              JStr (processing_time_of rt));
                             ("timestamp", JStr (Runtime.isoString rt));
                             ("version", JStr "1.0.0")]))
  /\ (no_valid_token req ->
      status_of r = 401
      /\ header_of "X-Request-ID" r = None
      /\ header_of "X-Feature-Flag" r = None).
Proof.
  intros Hm Hu r.
  pose proof (global_frame [Auth.handle;
                            FeatureFlag.handle "premium-features";
                            ResponseTransformer.handle]
                DemoController.multipleMiddleware
                (incoming rt req table) Hm) as F.
  fold Routes.premium_dashboard in F. fold r in F.
  destruct F as [Fc _ _ Fs Fb Fh].
  rewrite Fc, Fs, Fb, !Fh by (simpl; intuition discriminate).
  clear Fc Fs Fb Fh. unfold chain. simpl foldr.
  split.
  - intros token Ht Hv.
    destruct (valid_token_user _ Hv) as (u & Hfound & _ & Hin & _).
    exists u. split; [exact Hfound|].
    rewrite (Auth_valid _ (incoming rt req table) token u Ht
               (truthy_clean_token _ Hv) Hv Hfound).
    assert (Hrole : User.role u <> "").
    { simpl in Hin.
      destruct Hin as [<- | [<- | [<- | []]]]; discriminate. }
    rewrite (Feature_available "premium-features"
               (FeatureFlag.mkFeature true 100 true));
      [| exact premium_configured | reflexivity | apply bucket_range
       | discriminate].
    rewrite Transformer_run.
    change (unreadable_json
              (request
                 (feature_attached "premium-features"
                    (FeatureFlag.mkFeature true 100 true)
                    (user_attached u (incoming rt req table)))))
      with (unreadable_json req).
    rewrite Hu.
    unfold header_of, body_of, status_of, completion_of.
    simpl. unfold JS.or_str. simpl.
    rewrite (eqb_false_of_ne _ _ Hrole).
    split; [reflexivity|]. split; [reflexivity|].
    split; [header_lookup|]. split; [header_lookup|].
    eexists. split; [reflexivity|]. split; reflexivity.
  - intros Hno.
    destruct (Auth_rejects
                (FeatureFlag.handle "premium-features"
                   (ResponseTransformer.handle
                      DemoController.multipleMiddleware))
                (incoming rt req table) Hno) as (b & Hb).
    rewrite Hb. repeat split.
Qed.

Lemma create_run (s : State) :
  DemoController.create s
  = match Request.body (request s) with
    | inl b =>
        (Normal tt,
         answered 201
           (JObj [("message", JStr "✅ Data created successfully");
                  ("created_data", b);
                  ("created_by",
                   JStr match Ctx.user (Request.ctx (request s)) with
                        | Some u => User.name u
                        | None => "anonymous"
                        end);
                  ("created_at", JStr (Runtime.isoString (runtime s)))])
           s)
    | inr e => (Thrown e, s)
    end.
Proof.
  unfold DemoController.create, request_body, bind, get_request, gets,
    response_.status, response_.json, modify, throw, ret.
  simpl. destruct (Request.body (request s)); reflexivity.
Qed.

(** X14 - the create endpoint, where the authenticator runs before the
    rate limiter, for a request that is not a preflight and whose body
    has been read.  A request without a valid token is answered 401 and
    is not counted: the rate-limit table stays as it was.  A request with
    a valid token is counted under the default tier for its IP; past the
    limit of 100 it is answered 429, and within it the handler answers
    201 with the posted body and the name of the token's user. *)
Theorem create_endpoint (rt : Runtime.t) (req : Request.t)
  (table : gmap string RequestData.t) (b : Json) :
  Request.method req <> "OPTIONS" ->
  Request.body req = inl b ->
  let r := PostRoutes.demo_create (incoming rt req table) in
  let k := RateLimit.key (Request.ip req) RateLimit.default in
  let d := window_entry RateLimit.default (Runtime.now rt) (table !! k) in
  (no_valid_token req -> status_of r = 401 /\ table_of r = table)
  /\ (forall token,
        supplied_token req = Some token ->
        JS.includes Auth.validTokens (clean_token token) = true ->
        exists u,
          Auth.getUserFromToken (clean_token token) = Auth.Found u
          /\ table_of r = <[k := d]> table
          /\ (RequestData.count d > 100 -> status_of r = 429)
          /\ (RequestData.count d <= 100 ->
              completion_of r = Normal tt
              /\ status_of r = 201
              /\ exists fields,
                   body_of r = Some (JObj fields)
                   /\ Obj.get "created_data" fields = Some b
                   /\ Obj.get "created_by" fields
                      = Some (JStr (User.name u)))).
Proof.
  intros Hm Hbody r k d.
  pose proof (global_frame [Auth.handle; RateLimit.handle RateLimit.default]
                DemoController.create (incoming rt req table) Hm) as F.
  change (Routes.route [Auth.handle; RateLimit.handle RateLimit.default]
            DemoController.create (incoming rt req table)) with r in F.
  destruct F as [Fc _ Ft Fs Fb _].
  rewrite Fc, Fs, Fb, Ft. clear Fc Fs Fb Ft. unfold chain. simpl foldr.
  split.
  - intros Hno.
    destruct (Auth_rejects (RateLimit.handle RateLimit.default
                              DemoController.create)
                (incoming rt req table) Hno) as (b0 & Hb).
    rewrite Hb. split; reflexivity.
  - intros token Ht Hv.
    destruct (valid_token_user _ Hv) as (u & Hfound & _).
    exists u. split; [exact Hfound|].
    rewrite (Auth_valid _ (incoming rt req table) token u Ht
               (truthy_clean_token _ Hv) Hv Hfound).
    rewrite RateLimit_run.
    simpl request. simpl runtime. simpl requests.
    change (Request.ip _) with (Request.ip req).
    fold k. fold d.
    change (RateLimit.limit_requests (RateLimit.limits RateLimit.default))
      with 100.
    destruct (Z.gtb_spec (RequestData.count d) 100) as [Hgt|Hle].
    + split; [reflexivity|]. split; [reflexivity|]. intros; lia.
    + rewrite create_run. simpl request.
      change (Request.body _) with (Request.body req).
      rewrite Hbody.
      split; [reflexivity|]. split; [intros; lia|]. intros _.
      split; [reflexivity|]. split; [reflexivity|].
      eexists. split; [reflexivity|]. split; reflexivity.
Qed.

(** ** The device detector *)

Lemma take_length (n : nat) (s : string) :
  (String.length (JS.take n s) <= n)%nat.
Proof.
  revert s. induction n as [|n IH]; intros [|c s]; simpl; try lia.
  specialize (IH s). lia.
Qed.

Lemma contains_here (sub s : string) :
  String.prefix sub s = true -> JS.contains sub s = true.
Proof.
  intros H. destruct s; unfold JS.contains; rewrite H; reflexivity.
Qed.

Lemma contains_later (sub : string) (c : ascii) (s : string) :
  JS.contains sub s = true -> JS.contains sub (String c s) = true.
Proof.
  intros H. change (JS.contains sub (String c s))
    with (if String.prefix sub (String c s) then true else JS.contains sub s).
  rewrite H. destruct (String.prefix sub (String c s)); reflexivity.
Qed.

Lemma android_not_mobile_contains (s : string) :
  DeviceDetector.android_not_mobile s = true ->
  JS.contains "android" s = true.
Proof.
  induction s as [|c s IH].
  - simpl. discriminate.
  - change (DeviceDetector.android_not_mobile (String c s))
      with (if (String.prefix "android" (String c s)
                && negb (JS.contains "mobile"
                           (JS.line (JS.drop 7 (String c s)))))%bool
            then true else DeviceDetector.android_not_mobile s).
    destruct (String.prefix "android" (String c s)) eqn:Hp.
    + intros _. apply contains_here. exact Hp.
    + simpl. intros H. apply contains_later. apply IH. exact H.
Qed.

Lemma device_parse_total (userAgent : string) (s : State) :
  exists d, DeviceDetector.parseUserAgent userAgent s = (Normal d, s).
Proof.
  unfold DeviceDetector.parseUserAgent, bind, gets, ret.
  eexists. reflexivity.
Qed.

Lemma device_parsed (userAgent : string) (s : State) :
  exists d,
    DeviceDetector.parseUserAgent userAgent s = (Normal d, s)
    /\ DeviceInfo.isMobile d = String.eqb (DeviceInfo.type d) "mobile"
    /\ DeviceInfo.type d <> ""
    /\ forall s',
         runtime s' = runtime s ->
         DeviceDetector.parseUserAgent userAgent s' = (Normal d, s').
Proof.
  unfold DeviceDetector.parseUserAgent, bind, gets, ret.
  eexists. split; [reflexivity|].
  cbn [DeviceInfo.type DeviceInfo.isMobile].
  set (ua := JS.toLowerCase userAgent).
  split; [| split].
  - reflexivity.
  - destruct (DeviceDetector.test_any
                ["mobile"; "android"; "iphone"; "ipod"; "blackberry";
                 "iemobile"; "opera mini"] ua); [discriminate|].
    destruct (DeviceDetector.test_any ["tablet"; "ipad"] ua
              || DeviceDetector.android_not_mobile ua)%bool; [discriminate|].
    destruct (DeviceDetector.test_any
                ["smart-tv"; "smarttv"; "googletv"; "appletv"; "hbbtv";
                 "pov_tv"] ua || DeviceDetector.netcast_tv ua)%bool;
      discriminate.
  - intros s' Hr. rewrite Hr. reflexivity.
Qed.

Lemma parsed_type (userAgent : string) (s s' : State) (d : DeviceInfo.t) :
  DeviceDetector.parseUserAgent userAgent s = (Normal d, s') ->
  DeviceInfo.type d
  = match (DeviceDetector.parseUserAgent userAgent s).1 with
    | Normal d' => DeviceInfo.type d'
    | Thrown _ => ""
    end.
Proof. intros ->. reflexivity. Qed.

(** X15 - what [parseUserAgent] returns, for every User-Agent string: it
    never throws; the device type is one of mobile, tablet, tv, desktop;
    [isMobile] and [isTablet] say whether the type is mobile or tablet, so
    never both; a User-Agent that mentions android is mobile, so the
    tablet class is decided by [tablet] or [ipad] alone (the alternative
    "android not followed by mobile" never decides); and the recorded
    User-Agent is the first 100 characters of the string. *)
Theorem device_classification (userAgent : string) (s : State) :
  exists d,
    DeviceDetector.parseUserAgent userAgent s = (Normal d, s)
    /\ In (DeviceInfo.type d) ["mobile"; "tablet"; "tv"; "desktop"]
    /\ DeviceInfo.isMobile d = String.eqb (DeviceInfo.type d) "mobile"
    /\ DeviceInfo.isTablet d = String.eqb (DeviceInfo.type d) "tablet"
    /\ (DeviceInfo.isMobile d && DeviceInfo.isTablet d)%bool = false
    /\ (JS.contains "android" (JS.toLowerCase userAgent) = true ->
        DeviceInfo.type d = "mobile")
    /\ (DeviceInfo.type d = "tablet" ->
        DeviceDetector.test_any ["tablet"; "ipad"]
          (JS.toLowerCase userAgent) = true)
    /\ DeviceInfo.userAgent d = JS.take 100 userAgent
    /\ (String.length (DeviceInfo.userAgent d) <= 100)%nat.
Proof.
  unfold DeviceDetector.parseUserAgent, bind, gets, ret.
  eexists. split; [reflexivity|].
  cbn [DeviceInfo.type DeviceInfo.isMobile DeviceInfo.isTablet
       DeviceInfo.userAgent].
  set (ua := JS.toLowerCase userAgent).
  assert (Handroid : JS.contains "android" ua = true ->
            DeviceDetector.test_any
              ["mobile"; "android"; "iphone"; "ipod"; "blackberry";
               "iemobile"; "opera mini"] ua = true).
  { intros H. unfold DeviceDetector.test_any. simpl. rewrite H.
    destruct (JS.contains "mobile" ua); reflexivity. }
  destruct (DeviceDetector.test_any
              ["mobile"; "android"; "iphone"; "ipod"; "blackberry";
               "iemobile"; "opera mini"] ua) eqn:Hmob.
  - repeat split; try reflexivity; try (simpl; tauto);
      try apply take_length; intros; discriminate.
  - assert (Hna : JS.contains "android" ua = false).
    { destruct (JS.contains "android" ua); [|reflexivity].
      specialize (Handroid eq_refl). discriminate. }
    assert (Hnm : DeviceDetector.android_not_mobile ua = false).
    { destruct (DeviceDetector.android_not_mobile ua) eqn:E; [|reflexivity].
      apply android_not_mobile_contains in E. congruence. }
    rewrite Hnm, orb_false_r.
    destruct (DeviceDetector.test_any ["tablet"; "ipad"] ua) eqn:Htab;
      [| destruct (DeviceDetector.test_any
                     ["smart-tv"; "smarttv"; "googletv"; "appletv"; "hbbtv";
                      "pov_tv"] ua || DeviceDetector.netcast_tv ua)%bool];
      (repeat split; try reflexivity; try (simpl; tauto);
       try apply take_length; intros; first [congruence | discriminate]).
Qed.

Lemma DeviceDetector_run (h : Handler) (s : State) (d : DeviceInfo.t) :
  DeviceDetector.parseUserAgent (user_agent_of s) s = (Normal d, s) ->
  DeviceDetector.handle h s
  = match h (device_attached d s) with
    | (Normal _, s2) =>
        match String.eqb (DeviceInfo.type d) "mobile",
              DeviceDetector.spreadable (Response.body (response s2)) with
        | true, Some fields =>
            (Normal tt,
             with_response
               (Response.with_body
                  (JObj (Obj.set "device_info" (DeviceDetector.toJson d)
                           (Obj.set "mobile_optimized" (JBool true)
                              fields)))) s2)
        | _, _ => (Normal tt, s2)
        end
    | (Thrown e, s2) => (Thrown e, s2)
    end.
Proof.
  intros Hd. unfold DeviceDetector.handle. unfold bind at 1.
  unfold get_request, gets. cbv beta iota.
  unfold bind at 1. fold (user_agent_of s). rewrite Hd. cbv beta iota.
  unfold bind, set_ctx, response_.header, response_.getBody,
    response_.json, gets, modify, ret. cbv beta iota.
  fold (device_attached d s).
  destruct (h (device_attached d s)) as [[[]|e] s2]; [|reflexivity].
  destruct (DeviceInfo.type d =? "mobile");
    [destruct (DeviceDetector.spreadable (Response.body (response s2)))|];
    reflexivity.
Qed.

(** X16 - the detector around a downstream chain: the chain is called
    with the parsed device in the context and the device headers already
    written; when it completes with a JSON object as body, a mobile
    device gets [mobile_optimized] true and [device_info] added to that
    object, every other field kept, and any other device gets the body
    untouched; the status is never changed, and an exception of the chain
    passes through. *)
Theorem device_detector_wraps (h : Handler) (s : State) :
  exists d,
    DeviceDetector.parseUserAgent (user_agent_of s) s = (Normal d, s)
    /\ Ctx.device (Request.ctx (request (device_attached d s))) = Some d
    /\ Response.headers (response (device_attached d s)) !! "X-Device-Type"
       = Some (DeviceInfo.type d)
    /\ (forall e s2, h (device_attached d s) = (Thrown e, s2) ->
          DeviceDetector.handle h s = (Thrown e, s2))
    /\ (forall s2 fields,
          h (device_attached d s) = (Normal tt, s2) ->
          Response.body (response s2) = Some (JObj fields) ->
          let r := DeviceDetector.handle h s in
          completion_of r = Normal tt
          /\ status_of r = Response.status (response s2)
          /\ (DeviceInfo.type d <> "mobile" -> body_of r = Some (JObj fields))
          /\ (DeviceInfo.type d = "mobile" ->
              exists fields',
                body_of r = Some (JObj fields')
                /\ Obj.get "mobile_optimized" fields' = Some (JBool true)
                /\ Obj.get "device_info" fields'
                   = Some (DeviceDetector.toJson d)
                /\ forall k, k <> "mobile_optimized" -> k <> "device_info" ->
                     Obj.get k fields' = Obj.get k fields)).
Proof.
  destruct (device_parse_total (user_agent_of s) s) as [d Hd].
  exists d. split; [exact Hd|].
  pose proof (DeviceDetector_run h s d Hd) as Hrun.
  split; [reflexivity|]. split; [unfold device_attached; simpl; header_lookup|].
  split.
  - intros e s2 Hh. rewrite Hrun, Hh. reflexivity.
  - intros s2 fields Hh Hb r. unfold r. rewrite Hrun, Hh, Hb.
    cbn [DeviceDetector.spreadable].
    destruct (String.eqb_spec (DeviceInfo.type d) "mobile") as [Hmob|Hmob].
    + split; [reflexivity|]. split; [reflexivity|].
      split; [intros Hne; contradiction|]. intros _.
      eexists. split; [reflexivity|]. split; [| split].
      * rewrite Obj_get_set_ne by discriminate. apply Obj_get_set_eq.
      * apply Obj_get_set_eq.
      * intros k Hk1 Hk2. rewrite !Obj_get_set_ne by assumption.
        reflexivity.
    + split; [reflexivity|]. split; [reflexivity|].
      split; [intros _; exact Hb|]. intros Heq. contradiction.
Qed.

Lemma deviceAware_run (s : State) (d : DeviceInfo.t) :
  Ctx.device (Request.ctx (request s)) = Some d ->
  DemoController.deviceAware s
  = (Normal tt,
     with_response
       (Response.with_body (deviceAware_body d)) s).
Proof.
  intros Hd. unfold DemoController.deviceAware, bind, get_request, gets,
    response_.json, modify.
  cbv beta iota. rewrite Hd. reflexivity.
Qed.

(** X17 - the device endpoint, for every request that is not a
    preflight: it completes with status 200; the [X-Device-Type] header,
    the [device_detection] of the body and the layout the handler picks
    all come from one parse of the User-Agent: the layout is the mobile
    one exactly for a mobile device, and exactly then the detector adds
    [mobile_optimized] to the body. *)
Theorem device_endpoint (rt : Runtime.t) (req : Request.t)
  (table : gmap string RequestData.t) :
  Request.method req <> "OPTIONS" ->
  let r := Routes.demo_device (incoming rt req table) in
  exists d fields,
    DeviceDetector.parseUserAgent
      (JS.or_str (Request.header "user-agent" req) "")
      (incoming rt req table)
    = (Normal d, incoming rt req table)
    /\ completion_of r = Normal tt
    /\ status_of r = 200
    /\ header_of "X-Device-Type" r = Some (DeviceInfo.type d)
    /\ body_of r = Some (JObj fields)
    /\ Obj.get "device_detection" fields = Some (DeviceDetector.toJson d)
    /\ Obj.get "optimized_content" fields
       = Some (if String.eqb (DeviceInfo.type d) "mobile"
               then JObj [("layout", JStr "mobile");
                          ("images", JStr "compressed");
                          ("js", JStr "minimal")]
               else JObj [("layout", JStr "desktop");
                          ("images", JStr "full-res");
                          ("js", JStr "complete")])
    /\ Obj.get "mobile_optimized" fields
       = (if String.eqb (DeviceInfo.type d) "mobile"
          then Some (JBool true) else None).
Proof.
  intros Hm r.
  assert (Hua : user_agent_of (incoming rt req table)
                = JS.or_str (Request.header "user-agent" req) "")
    by reflexivity.
  rewrite <- Hua.
  destruct (device_parsed (user_agent_of (incoming rt req table))
              (incoming rt req table))
    as (d & Hd & Hmob & _).
  pose proof (global_frame [DeviceDetector.handle] DemoController.deviceAware
                (incoming rt req table) Hm) as F.
  fold Routes.demo_device in F. fold r in F.
  destruct F as [Fc _ _ Fs Fb Fh].
  exists d.
  rewrite Fc, Fs, Fb, Fh by (simpl; intuition discriminate).
  unfold chain. simpl foldr.
  rewrite (DeviceDetector_run DemoController.deviceAware
             (incoming rt req table) d Hd).
  rewrite (deviceAware_run (device_attached d (incoming rt req table)) d
             eq_refl).
  unfold deviceAware_body. rewrite Hmob.
  cbn [response with_response Response.body Response.with_body
       DeviceDetector.spreadable].
  destruct (DeviceInfo.type d =? "mobile"); eexists;
    (split; [exact Hd|]);
    (split; [reflexivity|]); (split; [reflexivity|]);
    (split; [unfold header_of, device_attached; simpl; header_lookup|]);
    (split; [reflexivity|]); repeat split.
Qed.

(** ** Request ids *)

Lemma digits36_checked :
  forallb (fun d => (digit_value (JS.digit36 d) =? d)%Z
                    && negb (Ascii.eqb (JS.digit36 d) "_"))%bool
    digits36 = true.
Proof. vm_compute. reflexivity. Qed.

Lemma digit36_ok (d : Z) :
  0 <= d < 36 ->
  digit_value (JS.digit36 d) = d /\ Ascii.eqb (JS.digit36 d) "_" = false.
Proof.
  intros Hd. pose proof digits36_checked as H.
  rewrite forallb_forall in H. specialize (H d).
  assert (Hin : In d digits36).
  { unfold digits36. apply in_map_iff. exists (Z.to_nat d).
    split; [lia|]. apply in_seq. lia. }
  specialize (H Hin). apply andb_prop in H. destruct H as [H1 H2].
  split; [apply Z.eqb_eq; exact H1 | apply negb_true_iff; exact H2].
Qed.

Lemma parse36_go_app (s t : string) :
  forall acc, parse36_go acc (s +:+ t) = parse36_go (parse36_go acc s) t.
Proof.
  induction s as [|c s IH]; intros acc; [reflexivity|].
  change (String c s +:+ t) with (String c (s +:+ t)).
  cbn [parse36_go]. apply IH.
Qed.

Lemma append_assoc (a b c : string) : (a +:+ b) +:+ c = a +:+ (b +:+ c).
Proof.
  induction a as [|x a IH]; [reflexivity|].
  change (String x ((a +:+ b) +:+ c) = String x (a +:+ (b +:+ c))).
  rewrite IH. reflexivity.
Qed.

Lemma toString36_go_acc (fuel : nat) :
  forall n acc,
    JS.toString36_go fuel n acc = JS.toString36_go fuel n "" +:+ acc.
Proof.
  induction fuel as [|fuel IH]; intros n acc; [reflexivity|].
  cbn [JS.toString36_go]. destruct (n <? 36)%Z; [reflexivity|].
  rewrite (IH (n / 36) (String (JS.digit36 (n mod 36)) acc)).
  rewrite (IH (n / 36) (String (JS.digit36 (n mod 36)) "")).
  rewrite append_assoc. reflexivity.
Qed.

Lemma parse36_toString36_go (fuel : nat) :
  forall n, 0 <= n < 2 ^ Z.of_nat fuel ->
    parse36 (JS.toString36_go fuel n "") = n.
Proof.
  induction fuel as [|fuel IH]; intros n Hn.
  - simpl in Hn. assert (n = 0) by lia. subst. reflexivity.
  - cbn [JS.toString36_go]. destruct (Z.ltb_spec n 36) as [Hlt|Hge].
    + unfold parse36. cbn [parse36_go].
      destruct (digit36_ok n ltac:(lia)) as [Hv _]. rewrite Hv. lia.
    + rewrite toString36_go_acc. unfold parse36. rewrite parse36_go_app.
      fold (parse36 (JS.toString36_go fuel (n / 36) "")).
      rewrite IH.
      * cbn [parse36_go].
        destruct (digit36_ok (n mod 36)
                    ltac:(apply Z.mod_pos_bound; lia)) as [Hv _].
        rewrite Hv. pose proof (Z.div_mod n 36 ltac:(lia)). lia.
      * rewrite Nat2Z.inj_succ, Z.pow_succ_r in Hn by lia.
        split; [apply Z.div_pos; lia|].
        apply Z.div_lt_upper_bound; lia.
Qed.

Lemma toString36_go_no_underscore (fuel : nat) :
  forall n acc, 0 <= n ->
    has_underscore (JS.toString36_go fuel n acc) = has_underscore acc.
Proof.
  induction fuel as [|fuel IH]; intros n acc Hn; [reflexivity|].
  cbn [JS.toString36_go]. destruct (Z.ltb_spec n 36) as [Hlt|Hge].
  - cbn [has_underscore].
    destruct (digit36_ok n ltac:(lia)) as [_ Hu]. rewrite Hu. reflexivity.
  - rewrite IH by (apply Z.div_pos; lia). cbn [has_underscore].
    destruct (digit36_ok (n mod 36)
                ltac:(apply Z.mod_pos_bound; lia)) as [_ Hu].
    rewrite Hu. reflexivity.
Qed.

Lemma fuel_suffices (n : Z) :
  0 <= n -> 0 <= n < 2 ^ Z.of_nat (S (Z.to_nat (Z.log2 n))).
Proof.
  intros Hn. split; [exact Hn|].
  rewrite Nat2Z.inj_succ, Z2Nat.id by apply Z.log2_nonneg.
  destruct (Z.eq_dec n 0) as [->|Hne]; [reflexivity|].
  apply Z.log2_spec. lia.
Qed.

Lemma parse36_toString36 (n : Z) : 0 <= n -> parse36 (JS.toString36 n) = n.
Proof.
  intros Hn. unfold JS.toString36.
  destruct (Z.ltb_spec n 0) as [Hlt|_]; [lia|].
  apply parse36_toString36_go. apply fuel_suffices. exact Hn.
Qed.

Lemma toString36_no_underscore (n : Z) :
  0 <= n -> has_underscore (JS.toString36 n) = false.
Proof.
  intros Hn. unfold JS.toString36.
  destruct (Z.ltb_spec n 0) as [Hlt|_]; [lia|].
  apply toString36_go_no_underscore. exact Hn.
Qed.

Lemma has_underscore_sep (t r : string) :
  has_underscore (t +:+ "_" +:+ r) = true.
Proof.
  induction t as [|c t IH].
  - reflexivity.
  - change (String c t +:+ "_" +:+ r) with (String c (t +:+ "_" +:+ r)).
    cbn [has_underscore]. rewrite IH. apply orb_true_r.
Qed.

(** The part before the first underscore determines the split. *)
Lemma underscore_split (t1 t2 r1 r2 : string) :
  has_underscore t1 = false -> has_underscore t2 = false ->
  t1 +:+ "_" +:+ r1 = t2 +:+ "_" +:+ r2 -> t1 = t2 /\ r1 = r2.
Proof.
  revert t2. induction t1 as [|c t1 IH]; intros [|c2 t2] H1 H2 H.
  - change (String "_" r1 = String "_" r2) in H. injection H as H.
    split; [reflexivity | exact H].
  - change (String "_" r1 = String c2 (t2 +:+ "_" +:+ r2)) in H.
    injection H as Hc _. subst c2. cbn [has_underscore] in H2.
    rewrite Ascii.eqb_refl in H2. discriminate.
  - change (String c (t1 +:+ "_" +:+ r1) = String "_" r2) in H.
    injection H as Hc _. subst c. cbn [has_underscore] in H1.
    rewrite Ascii.eqb_refl in H1. discriminate.
  - change (String c (t1 +:+ "_" +:+ r1)
            = String c2 (t2 +:+ "_" +:+ r2)) in H.
    injection H as Hc H. subst c2.
    cbn [has_underscore] in H1, H2.
    apply orb_false_elim in H1. apply orb_false_elim in H2.
    destruct (IH t2 (proj2 H1) (proj2 H2) H) as [-> ->].
    split; reflexivity.
Qed.

(** X18 - request ids: [generateRequestId] returns [req_], the clock
    reading in base 36, an underscore and the random part; for clock
    readings that are not negative the base-36 digits read back to the
    clock reading, and two ids are equal only when both the clock
    readings and the random parts are, so requests that differ in either
    get different ids. *)
Theorem request_ids_distinct (s1 s2 : State) :
  0 <= Runtime.now (runtime s1) ->
  0 <= Runtime.now (runtime s2) ->
  ResponseTransformer.generateRequestId s1
  = (Normal (request_id_of (runtime s1)), s1)
  /\ parse36 (JS.toString36 (Runtime.now (runtime s1)))
     = Runtime.now (runtime s1)
  /\ (request_id_of (runtime s1) = request_id_of (runtime s2) ->
      Runtime.now (runtime s1) = Runtime.now (runtime s2)
      /\ Runtime.randomStr (runtime s1) = Runtime.randomStr (runtime s2)).
Proof.
  intros H1 H2. split; [reflexivity|].
  split; [apply parse36_toString36; exact H1|].
  unfold request_id_of. intros Heq.
  change ("req_" +:+ ?x) with (String "r" (String "e" (String "q" (String "_" x))))
    in Heq.
  injection Heq as Heq.
  destruct (underscore_split _ _ _ _
              (toString36_no_underscore _ H1)
              (toString36_no_underscore _ H2) Heq) as [Ht Hr].
  split; [| exact Hr].
  rewrite <- (parse36_toString36 _ H1), <- (parse36_toString36 _ H2), Ht.
  reflexivity.
Qed.

(** ** The transformer and bodies that are not JSON objects *)

Lemma of_array_get (items : list Json) :
  forall (j i : nat),
    Obj.get (pretty (j + i)%nat) (Obj.of_array j items) = items !! i.
Proof.
  induction items as [|x rest IH]; intros j i.
  - reflexivity.
  - cbn [Obj.of_array Obj.get]. destruct i as [|i].
    + rewrite Nat.add_0_r, String.eqb_refl. reflexivity.
    + destruct (String.eqb_spec (pretty (j + S i)%nat) (pretty j)) as [E|_].
      * apply (inj pretty) in E. lia.
      * replace (j + S i)%nat with (S j + i)%nat by lia. apply IH.
Qed.

(** X19 - what the transformer does with a successful response whose
    body is not a JSON object (the request's own body being readable).
    A JSON array is spread like an object: the body becomes an object
    with the items under their indices "0", "1", ... and [meta] added.
    No body, a string, a number, a boolean or null is left as it is.  In
    both cases the status stays and [X-Processing-Time] and [X-Server]
    are written. *)
Theorem transformer_other_bodies (next : Handler) (s s1 : State) :
  unreadable_json (request s) = false ->
  next (id_attached s) = (Normal tt, s1) ->
  let r := ResponseTransformer.handle next s in
  let meta :=
    ResponseTransformer.successMeta (request_id s) (processing_time s s1)
      (Runtime.isoString (runtime s1)) in
  completion_of r = Normal tt
  /\ status_of r = Response.status (response s1)
  /\ header_of "X-Processing-Time" r = Some (processing_time s s1)
  /\ header_of "X-Server" r = Some "AdonisJS-Middleware-Demo"
  /\ (forall items,
        Response.body (response s1) = Some (JArr items) ->
        body_of r = Some (JObj (Obj.set "meta" meta (Obj.of_array 0 items)))
        /\ forall i : nat,
             Obj.get (pretty i) (Obj.of_array 0 items) = items !! i)
  /\ (DeviceDetector.spreadable (Response.body (response s1)) = None ->
      body_of r = Response.body (response s1)).
Proof.
  intros Hu Hn r meta. unfold r.
  rewrite Transformer_run, Hu, Hn. unfold transformed. cbn [fst snd].
  assert (Hhead : forall b : State,
            Response.headers (response b) = Response.headers (response (timed s s1)) ->
            Response.headers (response b) !! "X-Processing-Time"
            = Some (processing_time s s1)
            /\ Response.headers (response b) !! "X-Server"
               = Some "AdonisJS-Middleware-Demo").
  { intros b ->. unfold timed. simpl. split; header_lookup. }
  destruct (DeviceDetector.spreadable (Response.body (response s1)))
    as [fields|] eqn:Hsp.
  - unfold completion_of, status_of, header_of, body_of. cbn [fst snd].
    destruct (Hhead (with_response
                       (Response.with_body
                          (JObj (Obj.set "meta" meta fields)))
                       (timed s s1)) eq_refl) as [H1 H2].
    split; [reflexivity|]. split; [reflexivity|].
    split; [exact H1|]. split; [exact H2|]. split.
    + intros items Hb. rewrite Hb in Hsp. injection Hsp as <-.
      split; [reflexivity|]. intros i. exact (of_array_get items 0 i).
    + discriminate.
  - unfold completion_of, status_of, header_of, body_of. cbn [fst snd].
    destruct (Hhead (timed s s1) eq_refl) as [H1 H2].
    split; [reflexivity|]. split; [reflexivity|].
    split; [exact H1|]. split; [exact H2|]. split.
    + intros items Hb. rewrite Hb in Hsp. discriminate.
    + intros _. reflexivity.
Qed.

(** ** Routes that chain several middleware *)

Lemma experimental_configured :
  FeatureFlag.lookup "experimental" FeatureFlag.features
  = Some (FeatureFlag.mkFeature false 0 false).
Proof. reflexivity. Qed.

(** X20 - the experimental endpoint is closed to everyone: its flag is
    configured but disabled, so every request that is not a preflight,
    whatever its token, IP or User-Agent, is answered 403 with the
    "disabled" body; the handler never runs, no flag is attached to the
    context and no [X-Feature-Flag] header is written. *)
Theorem experimental_endpoint (rt : Runtime.t) (req : Request.t)
  (table : gmap string RequestData.t) :
  Request.method req <> "OPTIONS" ->
  let r := Routes.demo_experimental (incoming rt req table) in
  completion_of r = Normal tt
  /\ status_of r = 403
  /\ body_of r = Some (FeatureFlag.disabled "experimental")
  /\ ctx_of r = Ctx.empty
  /\ header_of "X-Feature-Flag" r = None
  /\ header_of "X-Feature-Enabled" r = None.
Proof.
  intros Hm r.
  pose proof (global_frame [FeatureFlag.handle "experimental"]
                DemoController.betaFeature (incoming rt req table) Hm) as F.
  fold Routes.demo_experimental in F. fold r in F.
  destruct F as [Fc Fr _ Fs Fb Fh].
  unfold ctx_of.
  rewrite Fc, Fr, Fs, Fb, !Fh by (simpl; intuition discriminate).
  unfold chain. simpl foldr.
  rewrite (Feature_disabled "experimental"
             (FeatureFlag.mkFeature false 0 false)
             DemoController.betaFeature (incoming rt req table)
             experimental_configured eq_refl).
  repeat split.
Qed.

(** X21 - the multiple-middleware endpoint, where authenticator, device
    detector and the gate of the fully rolled-out flag are chained in that
    order, for a request that is not a preflight.  With a valid token it
    completes with status 200, and the handler sees what all three
    attached: access level is the user's role, device optimisation the
    type parsed from the User-Agent, feature access true; the response
    carries [X-Device-Type] and [X-Feature-Flag], and the detector adds
    [mobile_optimized] to the body exactly for a mobile device.  Without
    a valid token the authenticator answers 401 before the detector and
    the gate run: neither header is written. *)
Theorem multiple_endpoint (rt : Runtime.t) (req : Request.t)
  (table : gmap string RequestData.t) :
  Request.method req <> "OPTIONS" ->
  let r := Routes.demo_multiple (incoming rt req table) in
  (forall token,
     supplied_token req = Some token ->
     JS.includes Auth.validTokens (clean_token token) = true ->
     exists u,
       Auth.getUserFromToken (clean_token token) = Auth.Found u
       /\ exists d fields,
            DeviceDetector.parseUserAgent
              (JS.or_str (Request.header "user-agent" req) "")
              (incoming rt req table)
            = (Normal d, incoming rt req table)
            /\ completion_of r = Normal tt
            /\ status_of r = 200
            /\ header_of "X-Device-Type" r = Some (DeviceInfo.type d)
            /\ header_of "X-Feature-Flag" r = Some "new-api"
            /\ body_of r = Some (JObj fields)
            /\ Obj.get "combined_result" fields
               = Some (JObj [("access_level", JStr (User.role u));
                             ("device_optimization",
                              JStr (DeviceInfo.type d));
                             ("feature_access", JBool true)])
            /\ Obj.get "mobile_optimized" fields
               = (if String.eqb (DeviceInfo.type d) "mobile"
                  then Some (JBool true) else None))
  /\ (no_valid_token req ->
      status_of r = 401
      /\ header_of "X-Device-Type" r = None
      /\ header_of "X-Feature-Flag" r = None).
Proof.
  intros Hm r.
  pose proof (global_frame [Auth.handle; DeviceDetector.handle;
                            FeatureFlag.handle "new-api"]
                DemoController.multipleMiddleware
                (incoming rt req table) Hm) as F.
  fold Routes.demo_multiple in F. fold r in F.
  destruct F as [Fc _ _ Fs Fb Fh].
  rewrite Fc, Fs, Fb, !Fh by (simpl; intuition discriminate).
  clear Fc Fs Fb Fh. unfold chain. simpl foldr.
  split.
  - intros token Ht Hv.
    destruct (valid_token_user _ Hv) as (u & Hfound & _ & Hin & _).
    exists u. split; [exact Hfound|].
    rewrite (Auth_valid _ (incoming rt req table) token u Ht
               (truthy_clean_token _ Hv) Hv Hfound).
    assert (Hrole : User.role u <> "").
    { simpl in Hin.
      destruct Hin as [<- | [<- | [<- | []]]]; discriminate. }
    assert (Hua : user_agent_of (user_attached u (incoming rt req table))
                  = JS.or_str (Request.header "user-agent" req) "")
      by reflexivity.
    rewrite <- Hua.
    destruct (device_parsed
                (user_agent_of (user_attached u (incoming rt req table)))
                (user_attached u (incoming rt req table)))
      as (d & Hd & _ & Htype & Hany).
    exists d.
    rewrite (DeviceDetector_run
               (FeatureFlag.handle "new-api"
                  DemoController.multipleMiddleware)
               (user_attached u (incoming rt req table)) d Hd).
    rewrite (Feature_available "new-api"
               (FeatureFlag.mkFeature true 100 false)
               DemoController.multipleMiddleware
               (device_attached d (user_attached u (incoming rt req table)))
               new_api_configured eq_refl (proj2 (bucket_range _)));
      [| discriminate].
    unfold header_of, body_of, status_of, completion_of, device_attached.
    simpl. unfold JS.or_str. simpl.
    rewrite (eqb_false_of_ne _ _ Hrole), (eqb_false_of_ne _ _ Htype).
    destruct (DeviceInfo.type d =? "mobile"); eexists;
      (split; [exact (Hany (incoming rt req table) eq_refl)|]);
      (split; [reflexivity|]); (split; [reflexivity|]);
      (split; [header_lookup|]); (split; [header_lookup|]);
      (split; [reflexivity|]); split; reflexivity.
  - intros Hno.
    destruct (Auth_rejects
                (DeviceDetector.handle
                   (FeatureFlag.handle "new-api"
                      DemoController.multipleMiddleware))
                (incoming rt req table) Hno) as (b & Hb).
    rewrite Hb. repeat split.
Qed.

(** X22 - the admin create endpoint, where authenticator, role
    authorizer and transformer are chained in that order, for a request
    that is not a preflight and whose body has been read.  Without a
    valid token it is answered 401, and with the token of a user who is
    not an admin 403 with that user's name and role, in both cases before
    the transformer runs: no request id is written.  For an admin the
    transformer runs and the handler answers 201 with the posted data,
    the admin's name and the transformer's [meta]. *)
Theorem admin_create_endpoint (rt : Runtime.t) (req : Request.t)
  (table : gmap string RequestData.t) (b : Json) :
  Request.method req <> "OPTIONS" ->
  Request.body req = inl b ->
  let r := PostRoutes.demo_admin_create (incoming rt req table) in
  (no_valid_token req ->
   status_of r = 401 /\ header_of "X-Request-ID" r = None)
  /\ (forall token,
        supplied_token req = Some token ->
        JS.includes Auth.validTokens (clean_token token) = true ->
        exists u,
          Auth.getUserFromToken (clean_token token) = Auth.Found u
          /\ (User.role u <> "admin" ->
              status_of r = 403
              /\ body_of r = Some (Admin.denied u)
              /\ header_of "X-Request-ID" r = None)
          /\ (User.role u = "admin" ->
              completion_of r = Normal tt
              /\ status_of r = 201
              /\ header_of "X-Request-ID" r = Some (request_id_of rt)
              /\ exists fields,
                   body_of r = Some (JObj fields)
                   /\ Obj.get "created_data" fields = Some b
                   /\ Obj.get "created_by" fields
                      = Some (JStr (User.name u))
                   /\ Obj.get "meta" fields
                      = Some (ResponseTransformer.successMeta
                                (request_id_of rt)
                                (processing_time_of rt)
                                (Runtime.isoString rt)))).
Proof.
  intros Hm Hbody r.
  pose proof (global_frame [Auth.handle; Admin.handle;
                            ResponseTransformer.handle]
                DemoController.create (incoming rt req table) Hm) as F.
  change (Routes.route [Auth.handle; Admin.handle;
                        ResponseTransformer.handle]
            DemoController.create (incoming rt req table)) with r in F.
  destruct F as [Fc _ _ Fs Fb Fh].
  rewrite Fc, Fs, Fb, !Fh by (simpl; intuition discriminate).
  clear Fc Fs Fb Fh. unfold chain. simpl foldr.
  split.
  - intros Hno.
    destruct (Auth_rejects
                (Admin.handle
                   (ResponseTransformer.handle DemoController.create))
                (incoming rt req table) Hno) as (b0 & Hb).
    rewrite Hb. split; reflexivity.
  - intros token Ht Hv.
    destruct (valid_token_user _ Hv) as (u & Hfound & _).
    exists u. split; [exact Hfound|].
    rewrite (Auth_valid _ (incoming rt req table) token u Ht
               (truthy_clean_token _ Hv) Hv Hfound).
    split.
    + intros Hrole.
      rewrite (Admin_denied _ (user_attached u (incoming rt req table)) u
                 eq_refl Hrole).
      repeat split.
    + intros Hrole.
      rewrite (Admin_granted _ (user_attached u (incoming rt req table)) u
                 eq_refl Hrole).
      rewrite Transformer_run.
      change (unreadable_json
                (request
                   (admin_attached
                      (user_attached u (incoming rt req table)))))
        with (unreadable_json req).
      unfold unreadable_json.
      rewrite create_run.
      change (Request.body
                (request
                   (id_attached
                      (admin_attached
                         (user_attached u (incoming rt req table))))))
        with (Request.body req).
      rewrite Hbody, andb_false_r.
      split; [reflexivity|]. split; [reflexivity|].
      split; [unfold header_of; simpl; header_lookup|].
      eexists. split; [reflexivity|]. split; [| split]; reflexivity.
Qed.

(** * The further properties at sample inputs *)

Lemma found_john (u : User.t) :
  Auth.getUserFromToken "user-token-123" = Auth.Found u -> u = john.
Proof. intros H. vm_compute in H. injection H as <-. reflexivity. Qed.

Lemma found_jane (u : User.t) :
  Auth.getUserFromToken "admin-token-456" = Auth.Found u -> u = jane.
Proof. intros H. vm_compute in H. injection H as <-. reflexivity. Qed.

Lemma protected_endpoint_witness :
  (let r := Routes.demo_protected
              (sample_state (with_bearer "/demo/protected" "user-token-123")) in
   completion_of r = Normal tt
   /\ status_of r = 200
   /\ exists fields,
        body_of r = Some (JObj fields)
        /\ Obj.get "user" fields = Some (user_json john))
  /\ (let r := Routes.demo_protected
                 (sample_state (sample_get "/demo/protected" ∅)) in
      status_of r = 401 /\ body_of r = Some Auth.missingToken).
Proof.
  split.
  - intros r.
    destruct (protected_endpoint sample_runtime
                (with_bearer "/demo/protected" "user-token-123") ∅
                ltac:(discriminate))
      as (Hc & Hs & u & fields & Hu & Hb & Hf).
    apply found_john in Hu. subst u.
    split; [exact Hc|]. split; [exact Hs|].
    exists fields. split; [exact Hb | exact Hf].
  - exact (protected_endpoint sample_runtime
             (sample_get "/demo/protected" ∅) ∅ ltac:(discriminate)).
Defined.

Lemma auth_header_precedence_witness :
  Auth.handle DemoController.protected
    (sample_state header_and_param_request)
  = (Normal tt,
     answered 401 Auth.invalidToken (sample_state header_and_param_request))
  /\ Auth.handle DemoController.protected (sample_state param_only_request)
     = DemoController.protected
         (user_attached john (sample_state param_only_request)).
Proof.
  split.
  - refine (proj1 (auth_header_precedence DemoController.protected
                     (sample_state header_and_param_request))
              "Bearer stale-token" _ _ _);
      [reflexivity | discriminate | vm_compute; reflexivity].
  - destruct (proj2 (auth_header_precedence DemoController.protected
                       (sample_state param_only_request))
                (or_introl eq_refl) "user-token-123" eq_refl)
      as (u & Hu & Hrun); [vm_compute; reflexivity|].
    apply found_john in Hu. subst u. exact Hrun.
Defined.

Lemma auth_bearer_scheme_witness :
  Auth.handle DemoController.protected
    (sample_state (with_bearer "/demo/protected" "user-token-123"))
  = DemoController.protected
      (user_attached john
         (sample_state (with_bearer "/demo/protected" "user-token-123")))
  /\ Auth.handle DemoController.protected
       (sample_state lowercase_scheme_request)
     = (Normal tt,
        answered 401 Auth.invalidToken
          (sample_state lowercase_scheme_request)).
Proof.
  split.
  - destruct (auth_bearer_scheme DemoController.protected
                (sample_state
                   (with_bearer "/demo/protected" "user-token-123"))
                "user-token-123") as (u & Hu & Hrun & _);
      [simpl; tauto|].
    apply found_john in Hu. subst u. apply Hrun. left. reflexivity.
  - destruct (auth_bearer_scheme DemoController.protected
                (sample_state lowercase_scheme_request)
                "user-token-123") as (u & _ & _ & Hrej);
      [simpl; tauto|].
    apply Hrej. reflexivity.
Defined.

Lemma rateLimited_keeps_status : keeps_status DemoController.rateLimited.
Proof. intros s. split; reflexivity. Qed.

Lemma fresh_window_admits_witness :
  let s := state_with_entry (RequestData.mk 500 500) in
  RateLimit.handle RateLimit.strict DemoController.rateLimited s
  = DemoController.rateLimited
      (admitted RateLimit.strict (RequestData.mk 1 1700000060000) s)
  /\ Response.headers
       (response
          (admitted RateLimit.strict (RequestData.mk 1 1700000060000) s))
     !! "X-RateLimit-Remaining" = Some "9".
Proof.
  intros s.
  destruct (fresh_window_admits RateLimit.strict DemoController.rateLimited s)
    as (Hrun & _ & Hrem & _).
  - unfold s, state_with_entry. cbn [requests incoming request runtime].
    change (Request.ip _) with "203.0.113.7". fold strict_key.
    rewrite lookup_singleton_eq. simpl. lia.
  - split; [exact Hrun | exact Hrem].
Defined.

Lemma in_window_decision_witness :
  (let s := state_with_entry (RequestData.mk 3 1700000030000) in
   RateLimit.handle RateLimit.strict DemoController.rateLimited s
   = DemoController.rateLimited
       (admitted RateLimit.strict (RequestData.mk 4 1700000030000) s)
   /\ Response.headers
        (response
           (admitted RateLimit.strict (RequestData.mk 4 1700000030000) s))
      !! "X-RateLimit-Remaining" = Some "6")
  /\ (let r := RateLimit.handle RateLimit.strict DemoController.rateLimited
                 (state_with_entry (RequestData.mk 12 1700000029001)) in
      status_of r = 429
      /\ header_of "Retry-After" r = Some "30"
      /\ table_of r !! strict_key
         = Some (RequestData.mk 13 1700000029001)).
Proof.
  split.
  - intros s.
    destruct (in_window_decision RateLimit.strict DemoController.rateLimited
                s (RequestData.mk 3 1700000030000)) as (H & _).
    + apply lookup_singleton_eq.
    + simpl. lia.
    + apply H. simpl. unfold limit_of. simpl. lia.
  - intros r.
    destruct (in_window_decision RateLimit.strict DemoController.rateLimited
                (state_with_entry (RequestData.mk 12 1700000029001))
                (RequestData.mk 12 1700000029001)) as (_ & H).
    + apply lookup_singleton_eq.
    + simpl. lia.
    + destruct H as (_ & Hs & Hra & _ & Ht & _).
      * unfold limit_of. simpl. lia.
      * split; [exact Hs|]. split; [exact Hra | exact Ht].
Defined.

Lemma limiter_keeps_counts_witness :
  let s := state_with_entry (RequestData.mk 3 1700000030000) in
  1 <= RequestData.count
         (window_entry RateLimit.strict (Runtime.now (runtime s))
            (requests s !! strict_key))
  /\ counted
       (table_of (RateLimit.handle RateLimit.strict
                    DemoController.rateLimited s)).
Proof.
  intros s.
  destruct (limiter_keeps_counts RateLimit.strict DemoController.rateLimited s
              rateLimited_leaves_table) as (Hc & H1 & _).
  - intros k d Hk. unfold s, state_with_entry in Hk.
    cbn [requests incoming] in Hk.
    apply lookup_singleton_Some in Hk as [_ <-]. simpl. lia.
  - split; [exact H1 | exact Hc].
Defined.

Lemma tier_quota_witness :
  let out :=
    serve_all (RateLimit.handle RateLimit.strict DemoController.rateLimited)
      ten_followers {[strict_key := RequestData.mk 5 61000]} in
  out.2 !! strict_key = Some (RequestData.mk 15 61000)
  /\ (exists resp,
        out.1 !! 4%nat = Some (Normal tt, resp)
        /\ Response.status resp = 200)
  /\ (exists resp,
        out.1 !! 5%nat = Some (Normal tt, resp)
        /\ Response.status resp = 429).
Proof.
  intros out.
  assert (Hall : forall rt req, In (rt, req) ten_followers ->
            Request.ip req = "203.0.113.7" /\ Runtime.now rt <= 61000).
  { intros rt req Hin. simpl in Hin.
    repeat (destruct Hin as [Hin|Hin];
            [injection Hin as <- <-; split; [reflexivity | simpl; lia]|]).
    destruct Hin. }
  destruct (tier_quota RateLimit.strict DemoController.rateLimited
              "203.0.113.7" 61000 rateLimited_table_blind
              rateLimited_keeps_status ten_followers
              {[strict_key := RequestData.mk 5 61000]} 5
              (lookup_singleton_eq _ _) Hall) as (Ht & Hs).
  fold out in Ht, Hs.
  split; [exact Ht|]. split.
  - destruct (Hs 4%nat (at_time 6000) (sample_get "/demo/rate-limited" ∅)
                eq_refl) as (resp & H1 & H2).
    exists resp. split; [exact H1 | exact H2].
  - destruct (Hs 5%nat (at_time 7000) (sample_get "/demo/rate-limited" ∅)
                eq_refl) as (resp & H1 & H2).
    exists resp. split; [exact H1 | exact H2].
Defined.

Lemma premium_dashboard_route_witness :
  (let r := Routes.premium_dashboard
              (sample_state
                 (with_bearer "/premium/dashboard" "admin-token-456")) in
   status_of r = 200
   /\ header_of "X-Feature-Flag" r = Some "premium-features"
   /\ header_of "X-Request-ID" r = Some "req_loyw3v28_k3j9x2m1q")
  /\ (let r := Routes.premium_dashboard
                 (sample_state (sample_get "/premium/dashboard" ∅)) in
      status_of r = 401 /\ header_of "X-Request-ID" r = None).
Proof.
  split.
  - intros r.
    destruct (premium_dashboard_route sample_runtime
                (with_bearer "/premium/dashboard" "admin-token-456") ∅)
      as (H & _); [discriminate | reflexivity |].
    destruct (H "Bearer admin-token-456" eq_refl)
      as (u & _ & _ & Hs & Hf & Hid & _); [vm_compute; reflexivity|].
    split; [exact Hs|]. split; [exact Hf | exact Hid].
  - intros r.
    destruct (premium_dashboard_route sample_runtime
                (sample_get "/premium/dashboard" ∅) ∅)
      as (_ & H); [discriminate | reflexivity |].
    destruct H as (Hs & Hid & _); [exact I|].
    split; [exact Hs | exact Hid].
Defined.

Lemma error_endpoint_witness :
  let r := Routes.demo_error (sample_state (sample_get "/demo/error" ∅)) in
  completion_of r = Normal tt
  /\ status_of r = 500
  /\ header_of "X-Request-ID" r = Some "req_loyw3v28_k3j9x2m1q".
Proof.
  intros r.
  destruct (error_endpoint sample_runtime (sample_get "/demo/error" ∅) ∅)
    as (Hc & Hs & Hid & _); [discriminate | reflexivity |].
  split; [exact Hc|]. split; [exact Hs | exact Hid].
Defined.

Lemma public_endpoint_witness :
  let r := Routes.demo_public
             (incoming sample_runtime
                (with_bearer "/demo/public" "no-such-token")
                {[strict_key := RequestData.mk 10 1700000030000]}) in
  status_of r = 200
  /\ table_of r = {[strict_key := RequestData.mk 10 1700000030000]}
  /\ header_of "X-Frame-Options" r = Some "DENY".
Proof.
  intros r.
  destruct (public_endpoint sample_runtime
              (with_bearer "/demo/public" "no-such-token")
              {[strict_key := RequestData.mk 10 1700000030000]})
    as (_ & Hs & _ & Ht & _ & Hh); [discriminate|].
  split; [exact Hs|]. split; [exact Ht|].
  apply Hh. simpl. tauto.
Defined.

Lemma global_stack_headers_witness :
  header_of "Strict-Transport-Security"
    (chain Kernel.global DemoController.public
       (sample_state no_origin_request))
  = Some "max-age=31536000; includeSubDomains"
  /\ chain Kernel.global DemoController.error
       (sample_state no_origin_request)
     = (Thrown (Error.mk "Intentional error for middleware testing"),
        sample_state no_origin_request).
Proof.
  split.
  - destruct (global_stack_headers DemoController.public
                (sample_state no_origin_request)) as (H & _);
      [discriminate|].
    destruct (H _ eq_refl) as (_ & _ & _ & Hh & _).
    apply Hh. simpl. tauto.
  - destruct (global_stack_headers DemoController.error
                (sample_state no_origin_request)) as (_ & H);
      [discriminate|].
    apply H. reflexivity.
Defined.

Lemma create_endpoint_witness :
  (let r := PostRoutes.demo_create (sample_state create_request) in
   status_of r = 201
   /\ table_of r
      !! RateLimit.key "203.0.113.7" RateLimit.default
      = Some (RequestData.mk 1 1700000900000)
   /\ exists fields,
        body_of r = Some (JObj fields)
        /\ Obj.get "created_by" fields = Some (JStr "John Doe"))
  /\ (let r := PostRoutes.demo_create (sample_state anonymous_create_request)
      in status_of r = 401 /\ table_of r = ∅).
Proof.
  split.
  - intros r.
    destruct (create_endpoint sample_runtime create_request ∅
                (JObj [("title", JStr "first post")]))
      as (_ & H); [discriminate | reflexivity |].
    destruct (H "Bearer user-token-123" eq_refl) as (u & Hu & Ht & _ & Hok);
      [vm_compute; reflexivity|].
    apply found_john in Hu. subst u.
    destruct Hok as (_ & Hs & fields & Hb & _ & Hby);
      [vm_compute; discriminate|].
    split; [exact Hs|]. split.
    + unfold r, sample_state. rewrite Ht.
      change (Request.ip create_request) with "203.0.113.7".
      rewrite lookup_insert_eq. reflexivity.
    + exists fields. split; [exact Hb | exact Hby].
  - intros r.
    destruct (create_endpoint sample_runtime anonymous_create_request ∅
                (JObj [("title", JStr "first post")]))
      as (H & _); [discriminate | reflexivity |].
    apply H. exact I.
Defined.

Lemma experimental_endpoint_witness :
  let r := Routes.demo_experimental
             (sample_state
                (with_bearer "/demo/experimental" "admin-token-456")) in
  status_of r = 403 /\ header_of "X-Feature-Flag" r = None.
Proof.
  intros r.
  destruct (experimental_endpoint sample_runtime
              (with_bearer "/demo/experimental" "admin-token-456") ∅)
    as (_ & Hs & _ & _ & Hf & _); [discriminate|].
  split; [exact Hs | exact Hf].
Defined.

Lemma admin_create_endpoint_witness :
  (let r := PostRoutes.demo_admin_create (sample_state admin_create_request)
   in completion_of r = Normal tt
      /\ status_of r = 201
      /\ header_of "X-Request-ID" r = Some "req_loyw3v28_k3j9x2m1q"
      /\ exists fields,
           body_of r = Some (JObj fields)
           /\ Obj.get "created_by" fields = Some (JStr "Jane Admin"))
  /\ (let r := PostRoutes.demo_admin_create (sample_state create_request) in
      status_of r = 403
      /\ body_of r = Some (Admin.denied john)
      /\ header_of "X-Request-ID" r = None)
  /\ (let r := PostRoutes.demo_admin_create
                 (sample_state anonymous_create_request) in
      status_of r = 401).
Proof.
  split; [| split].
  - intros r.
    destruct (admin_create_endpoint sample_runtime admin_create_request ∅
                (JObj [("title", JStr "first post")]))
      as (_ & H); [discriminate | reflexivity |].
    destruct (H "Bearer admin-token-456" eq_refl) as (u & Hu & _ & Hadm);
      [vm_compute; reflexivity|].
    apply found_jane in Hu. subst u.
    destruct Hadm as (Hc & Hs & Hid & fields & Hb & _ & Hby & _);
      [reflexivity|].
    split; [exact Hc|]. split; [exact Hs|]. split; [exact Hid|].
    exists fields. split; [exact Hb | exact Hby].
  - intros r.
    destruct (admin_create_endpoint sample_runtime create_request ∅
                (JObj [("title", JStr "first post")]))
      as (_ & H); [discriminate | reflexivity |].
    destruct (H "Bearer user-token-123" eq_refl) as (u & Hu & Hden & _);
      [vm_compute; reflexivity|].
    apply found_john in Hu. subst u.
    apply Hden. vm_compute. discriminate.
  - intros r.
    destruct (admin_create_endpoint sample_runtime anonymous_create_request ∅
                (JObj [("title", JStr "first post")]))
      as (H & _); [discriminate | reflexivity |].
    apply H. exact I.
Defined.

Lemma device_classification_witness :
  exists d,
    DeviceDetector.parseUserAgent android_tablet_ua
      (sample_state no_origin_request)
    = (Normal d, sample_state no_origin_request)
    /\ DeviceInfo.type d = "mobile"
    /\ DeviceInfo.isTablet d = false
    /\ (String.length (DeviceInfo.userAgent d) <= 100)%nat.
Proof.
  destruct (device_classification android_tablet_ua
              (sample_state no_origin_request))
    as (d & Hd & _ & _ & Htab & _ & Handroid & _ & _ & Hlen).
  exists d. split; [exact Hd|].
  assert (Hmob : DeviceInfo.type d = "mobile")
    by (apply Handroid; vm_compute; reflexivity).
  split; [exact Hmob|]. split; [| exact Hlen].
  rewrite Htab, Hmob. reflexivity.
Defined.

Lemma device_detector_wraps_witness :
  let s := sample_state (iphone_request "/demo/device" ∅) in
  exists d,
    DeviceDetector.parseUserAgent (user_agent_of s) s = (Normal d, s)
    /\ DeviceInfo.type d = "mobile"
    /\ status_of (DeviceDetector.handle DemoController.deviceAware s) = 200
    /\ exists fields,
         body_of (DeviceDetector.handle DemoController.deviceAware s)
         = Some (JObj fields)
         /\ Obj.get "mobile_optimized" fields = Some (JBool true)
         /\ Obj.get "device_info" fields = Some (DeviceDetector.toJson d).
Proof.
  intros s.
  destruct (device_detector_wraps DemoController.deviceAware s)
    as (d & Hd & _ & _ & _ & H).
  exists d. split; [exact Hd|].
  assert (Hmob : DeviceInfo.type d = "mobile").
  { rewrite (parsed_type _ _ _ _ Hd). vm_compute. reflexivity. }
  split; [exact Hmob|].
  destruct (H (DemoController.deviceAware (device_attached d s)).2
              [("message", JStr "📱 This endpoint adapts to your device");
               ("description", JStr "Response changes based on device type");
               ("device_detection", DeviceDetector.toJson d);
               ("optimized_content",
                if DeviceInfo.isMobile d
                then JObj [("layout", JStr "mobile");
                           ("images", JStr "compressed");
                           ("js", JStr "minimal")]
                else JObj [("layout", JStr "desktop");
                           ("images", JStr "full-res");
                           ("js", JStr "complete")])]
              eq_refl eq_refl) as (_ & Hs & _ & Hm).
  split; [exact Hs|].
  destruct (Hm Hmob) as (fields & Hb & H1 & H2 & _).
  exists fields. split; [exact Hb|]. split; [exact H1 | exact H2].
Defined.

Lemma request_ids_distinct_witness :
  ResponseTransformer.generateRequestId (sample_state no_origin_request)
  = (Normal "req_loyw3v28_k3j9x2m1q", sample_state no_origin_request)
  /\ parse36 "loyw3v28" = 1700000000000
  /\ request_id_of sample_runtime <> request_id_of (at_time 5000).
Proof.
  destruct (request_ids_distinct (sample_state no_origin_request)
              (incoming (at_time 5000) no_origin_request ∅))
    as (Hid & Hparse & Hinj); [simpl; lia | simpl; lia |].
  split; [exact Hid|]. split; [exact Hparse|].
  intros Heq. destruct (Hinj Heq) as (Hnow & _). discriminate Hnow.
Defined.

Lemma transformer_other_bodies_witness :
  (let r := ResponseTransformer.handle array_handler
              (sample_state (sample_get "/demo/transform" ∅)) in
   exists fields,
     body_of r = Some (JObj fields)
     /\ Obj.get "0" fields = Some (JStr "alpha")
     /\ Obj.get "1" fields = Some (JStr "beta")
     /\ Obj.get "meta" fields
        = Some (ResponseTransformer.successMeta "req_loyw3v28_k3j9x2m1q"
                  "2.50ms" "2023-11-14T22:13:20.000Z"))
  /\ (let r := ResponseTransformer.handle
                 (Cors.handle DemoController.public)
                 (sample_state preflight_request) in
      status_of r = 204
      /\ body_of r = Some (JStr "")
      /\ header_of "X-Server" r = Some "AdonisJS-Middleware-Demo").
Proof.
  split.
  - intros r.
    destruct (transformer_other_bodies array_handler
                (sample_state (sample_get "/demo/transform" ∅))
                (array_handler
                   (id_attached
                      (sample_state (sample_get "/demo/transform" ∅)))).2)
      as (_ & _ & _ & _ & Harr & _); [reflexivity | reflexivity |].
    destruct (Harr [JStr "alpha"; JStr "beta"] eq_refl) as (Hb & _).
    eexists. split; [exact Hb|].
    split; [reflexivity|]. split; reflexivity.
  - intros r.
    destruct (transformer_other_bodies (Cors.handle DemoController.public)
                (sample_state preflight_request)
                (Cors.handle DemoController.public
                   (id_attached (sample_state preflight_request))).2)
      as (_ & Hs & _ & Hx & _ & Hnone); [reflexivity | reflexivity |].
    split; [exact Hs|]. split; [| exact Hx].
    exact (Hnone eq_refl).
Defined.

Lemma device_endpoint_witness :
  let r := Routes.demo_device
             (sample_state (iphone_request "/demo/device" ∅)) in
  status_of r = 200
  /\ header_of "X-Device-Type" r = Some "mobile"
  /\ exists fields,
       body_of r = Some (JObj fields)
       /\ Obj.get "optimized_content" fields
          = Some (JObj [("layout", JStr "mobile");
                        ("images", JStr "compressed");
                        ("js", JStr "minimal")])
       /\ Obj.get "mobile_optimized" fields = Some (JBool true).
Proof.
  intros r.
  destruct (device_endpoint sample_runtime (iphone_request "/demo/device" ∅)
              ∅) as (d & fields & Hd & _ & Hs & Hh & Hb & _ & Ho & Hm);
    [discriminate|].
  assert (Hmob : DeviceInfo.type d = "mobile").
  { rewrite (parsed_type _ _ _ _ Hd). vm_compute. reflexivity. }
  rewrite Hmob in Hh, Ho, Hm.
  split; [exact Hs|]. split; [exact Hh|].
  exists fields. split; [exact Hb|]. split; [exact Ho | exact Hm].
Defined.

Lemma multiple_endpoint_witness :
  (let r := Routes.demo_multiple
              (sample_state
                 (iphone_request "/demo/multiple"
                    {["authorization" := "Bearer admin-token-456"]})) in
   status_of r = 200
   /\ header_of "X-Device-Type" r = Some "mobile"
   /\ header_of "X-Feature-Flag" r = Some "new-api"
   /\ exists fields,
        body_of r = Some (JObj fields)
        /\ Obj.get "combined_result" fields
           = Some (JObj [("access_level", JStr "admin");
                         ("device_optimization", JStr "mobile");
                         ("feature_access", JBool true)]))
  /\ (let r := Routes.demo_multiple
                 (sample_state (iphone_request "/demo/multiple" ∅)) in
      status_of r = 401 /\ header_of "X-Device-Type" r = None).
Proof.
  split.
  - intros r.
    destruct (multiple_endpoint sample_runtime
                (iphone_request "/demo/multiple"
                   {["authorization" := "Bearer admin-token-456"]}) ∅)
      as (H & _); [discriminate|].
    destruct (H "Bearer admin-token-456" eq_refl)
      as (u & Hu & d & fields & Hd & _ & Hs & Hh & Hf & Hb & Hc & _);
      [vm_compute; reflexivity|].
    apply found_jane in Hu. subst u.
    assert (Hmob : DeviceInfo.type d = "mobile").
    { rewrite (parsed_type _ _ _ _ Hd). vm_compute. reflexivity. }
    rewrite Hmob in Hh, Hc.
    split; [exact Hs|]. split; [exact Hh|]. split; [exact Hf|].
    exists fields. split; [exact Hb | exact Hc].
  - intros r.
    destruct (multiple_endpoint sample_runtime
                (iphone_request "/demo/multiple" ∅) ∅) as (_ & H);
      [discriminate|].
    destruct H as (Hs & Hd & _); [exact I|].
    split; [exact Hs | exact Hd].
Defined.
